(** * ENERGYMARKET: the simulation-and-settlement core of [backend/app.py]

    A shallow embedding of the offline simulation of [backend/app.py]
    (classes [SolarPanel], [Battery], [Nanogrid], [Blockchain],
    [AI_Controller], the functions [init_simulation],
    [run_simulation_thread] and the simulation branch of
    [get_blockchain_transactions]) and the properties of it that the
    specification states; then of the endpoints that read the simulation
    ([get_grid_status], [get_system_status], [get_market_orders],
    [predict_faults], [get_ai_recommendations]), of the trade loop of
    [run_live_simulation_thread], and of the battery, the node and the loop of
    the ML server ([ml/models.py], [ml/main.py]), with properties read off
    the code.

    Conventions of the embedding.
    - A Python [float] is a rational ([Q]); infinities and NaN are not
      modelled.  The arithmetic is exact wherever what is stated holds with
      and without the rounding of the operations (bounds, orders, signs, what
      is stored where).  What depends on the rounding is stated on the same
      code in binary64 arithmetic ([Float64]: each operation rounds to the
      nearest double): the trade of [manage_energy_market], in the functions
      whose names end in [_f64], and the two floats of [get_system_status].
      Where a statement compares the values of two floats that are computed
      differently, the equality is [==] ([Qeq]).
    - A Python [int] is a [Z].
    - A Python [str] is a [string] of bytes (its UTF-8 encoding, so that
      [s.encode()] is the identity on the model).
    - A [dict] whose iteration order matters (the population of nanogrids,
      the pools of sellers and buyers) is an association list in insertion
      order; objects shared between dicts are kept in one store and the other
      dicts hold their keys.
    - Reading the clock ([time.time()]), drawing random samples
      ([random.uniform]) and hashing a string ([hash], which differs from one
      process to the next) are inputs of the functions that do so; so are the
      forecasting models and the smart contract, which are not part of the
      repository's code. *)

From Stdlib Require Import ZArith QArith Qabs Qminmax List String Ascii Bool Lia Lqa.
From Stdlib Require Import DecimalString Permutation Sorted.
Import ListNotations.

Local Open Scope string_scope.
Local Open Scope list_scope.
Local Open Scope Z_scope.

(* ------------------------------------------------------------------ *)
(** ** [hashlib.sha256]: FIPS 180-4 SHA-256 over byte strings *)
(* ------------------------------------------------------------------ *)

Module SHA256.

Definition word_mod : Z := 2 ^ 32.

Definition wrap (x : Z) : Z := x mod word_mod.

Definition add32 (x y : Z) : Z := wrap (x + y).

Definition rotr (n x : Z) : Z :=
  Z.lor (Z.shiftr x n) (wrap (Z.shiftl x (32 - n))).

Definition shr (n x : Z) : Z := Z.shiftr x n.

Definition not32 (x : Z) : Z := word_mod - 1 - x.

Definition Ch (x y z : Z) : Z :=
  Z.lxor (Z.land x y) (Z.land (not32 x) z).

Definition Maj (x y z : Z) : Z :=
  Z.lxor (Z.lxor (Z.land x y) (Z.land x z)) (Z.land y z).

Definition Sigma0 (x : Z) : Z :=
  Z.lxor (Z.lxor (rotr 2 x) (rotr 13 x)) (rotr 22 x).

Definition Sigma1 (x : Z) : Z :=
  Z.lxor (Z.lxor (rotr 6 x) (rotr 11 x)) (rotr 25 x).

Definition sigma0 (x : Z) : Z :=
  Z.lxor (Z.lxor (rotr 7 x) (rotr 18 x)) (shr 3 x).

Definition sigma1 (x : Z) : Z :=
  Z.lxor (Z.lxor (rotr 17 x) (rotr 19 x)) (shr 10 x).

(** The constants of the standard are fractional parts of roots of the first
    primes; they are computed here from that definition. *)
Definition is_prime (n : Z) : bool :=
  (1 <? n) && forallb (fun d => negb (n mod d =? 0)) (map Z.of_nat (seq 2 (Z.to_nat n - 2))).

(** The first [count] primes, searched among [n, n + fuel). *)
Fixpoint primes_from (fuel : nat) (n : Z) (count : nat) : list Z :=
  match fuel, count with
  | O, _ | _, O => []
  | S fuel', S count' =>
      if is_prime n then n :: primes_from fuel' (n + 1) count'
      else primes_from fuel' (n + 1) count
  end.

Definition first_primes (count : nat) : list Z := primes_from 400 2 count.

(** Integer cube root below [2^bits], one bit at a time from the top. *)
Fixpoint cube_root_bits (bits : nat) (n r : Z) : Z :=
  match bits with
  | O => r
  | S bits' =>
      let r' := r + 2 ^ Z.of_nat bits' in
      cube_root_bits bits' n (if r' * r' * r' <=? n then r' else r)
  end.

Definition cube_root (n : Z) : Z := cube_root_bits 40 n 0.

(** First 32 bits of the fractional part of the cube root of a prime. *)
Definition frac_cube_root (p : Z) : Z := cube_root (p * 2 ^ 96) mod 2 ^ 32.

(** First 32 bits of the fractional part of the square root of a prime. *)
Definition frac_square_root (p : Z) : Z := Z.sqrt (p * 2 ^ 64) mod 2 ^ 32.

(** Round constants. *)
Definition K : list Z := Eval vm_compute in map frac_cube_root (first_primes 64).

(** Initial hash value. *)
Definition H0 : list Z := Eval vm_compute in map frac_square_root (first_primes 8).

(** Big-endian bytes of the low [8*n] bits of [x]. *)
Fixpoint be_bytes (n : nat) (x : Z) : list Z :=
  match n with
  | O => []
  | S n' => Z.shiftr x (8 * Z.of_nat n') mod 256 :: be_bytes n' x
  end.

Definition be_word (bs : list Z) : Z :=
  fold_left (fun acc b => acc * 256 + b) bs 0.

(** Padding: the bit 1, zero bits up to 448 mod 512, the bit length on 64 bits. *)
Definition pad (msg : list Z) : list Z :=
  let len := Z.of_nat (List.length msg) in
  let zeros := Z.to_nat ((55 - len) mod 64) in
  msg ++ 128 :: repeat 0 zeros ++ be_bytes 8 (8 * len).

Fixpoint words (n : nat) (bs : list Z) : list Z :=
  match n with
  | O => []
  | S n' => be_word (firstn 4 bs) :: words n' (skipn 4 bs)
  end.

(** Message schedule; [rev_w] holds the words computed so far, latest first. *)
Fixpoint extend (n : nat) (rev_w : list Z) : list Z :=
  match n with
  | O => rev rev_w
  | S n' =>
      let w := add32 (add32 (sigma1 (nth 1 rev_w 0)) (nth 6 rev_w 0))
                     (add32 (sigma0 (nth 14 rev_w 0)) (nth 15 rev_w 0)) in
      extend n' (w :: rev_w)
  end.

Definition schedule (block : list Z) : list Z :=
  extend 48 (rev (words 16 block)).

Record regs : Type := mkRegs
  { ra : Z; rb : Z; rc : Z; rd : Z; re : Z; rf : Z; rg : Z; rh : Z }.

Definition round (r : regs) (kw : Z * Z) : regs :=
  let t1 := add32 (add32 (add32 (rh r) (Sigma1 (re r)))
                         (add32 (Ch (re r) (rf r) (rg r)) (fst kw)))
                  (snd kw) in
  let t2 := add32 (Sigma0 (ra r)) (Maj (ra r) (rb r) (rc r)) in
  mkRegs (add32 t1 t2) (ra r) (rb r) (rc r) (add32 (rd r) t1) (re r) (rf r) (rg r).

Definition regs_of (h : list Z) : regs :=
  mkRegs (nth 0 h 0) (nth 1 h 0) (nth 2 h 0) (nth 3 h 0)
         (nth 4 h 0) (nth 5 h 0) (nth 6 h 0) (nth 7 h 0).

Definition list_of (r : regs) : list Z :=
  [ra r; rb r; rc r; rd r; re r; rf r; rg r; rh r].

Definition compress (h : list Z) (block : list Z) : list Z :=
  let r := fold_left round (combine K (schedule block)) (regs_of h) in
  map (fun p => add32 (fst p) (snd p)) (combine h (list_of r)).

Fixpoint blocks (n : nat) (h : list Z) (bs : list Z) : list Z :=
  match n with
  | O => h
  | S n' => blocks n' (compress h (firstn 64 bs)) (skipn 64 bs)
  end.

Definition digest (msg : list Z) : list Z :=
  let p := pad msg in
  List.concat (map (be_bytes 4) (blocks (Nat.div (List.length p) 64) H0 p)).

Definition hex_digit (d : Z) : ascii :=
  ascii_of_nat (Z.to_nat (if d <? 10 then 48 + d else 87 + d)).

Fixpoint hex (bs : list Z) : string :=
  match bs with
  | [] => EmptyString
  | b :: bs' => String (hex_digit (b / 16)) (String (hex_digit (b mod 16)) (hex bs'))
  end.

Definition bytes_of (s : string) : list Z :=
  map (fun c => Z.of_nat (nat_of_ascii c)) (list_ascii_of_string s).

(** [hashlib.sha256(s.encode()).hexdigest()] *)
Definition hexdigest (s : string) : string := hex (digest (bytes_of s)).

End SHA256.

(* ------------------------------------------------------------------ *)
(** ** Python built-ins used by the program *)
(* ------------------------------------------------------------------ *)

Module Py.

(** Outcome of a call: the value it returns or the exception it raises. *)
Inductive outcome (A : Type) : Type :=
| Returned (value : A)
| Raised (exception : string).

Arguments Returned {A} value.
Arguments Raised {A} exception.

(** [x < y] and [x <= y] on floats. *)
Definition ltb (x y : Q) : bool := negb (Qle_bool y x).
Definition leb (x y : Q) : bool := Qle_bool x y.

(** [min(x, y)]: the first argument unless the second is strictly smaller. *)
Definition min (x y : Q) : Q := if ltb y x then y else x.

(** [max(x, y)]: the first argument unless the second is strictly larger. *)
Definition max (x y : Q) : Q := if ltb x y then y else x.

(** [abs(x)] *)
Definition abs (x : Q) : Q := Qabs x.

(** [int(x)] of a float: truncation towards zero. *)
Definition int (x : Q) : Z := Z.quot (Qnum x) (Zpos (Qden x)).

(** [repr] of an int. *)
Definition repr_int (n : Z) : string := NilZero.string_of_int (Z.to_int n).

(** Digits of the fraction [r / d] ([0 <= r < d]), at most [fuel] of them. *)
Fixpoint frac_digits (fuel : nat) (r d : Z) : string :=
  match fuel with
  | O => EmptyString
  | S fuel' =>
      if r =? 0 then EmptyString
      else String (ascii_of_nat (Z.to_nat (48 + (10 * r) / d)))
                  (frac_digits fuel' ((10 * r) mod d) d)
  end.

(** [repr] of a float, in positional notation: the integer part, a point and
    the digits of the fraction ([.0] when there are none).  Python prints a
    float this way when it lies in [1e-4, 1e16) in absolute value (or is 0)
    and prints its shortest round-tripping decimal; the rational of the model
    is read as that decimal. *)
Definition repr_float (x : Q) : string :=
  let n := Z.abs (Qnum x) in
  let d := Zpos (Qden x) in
  let sign := if Qnum x <? 0 then "-" else "" in
  let digits := if n mod d =? 0 then "0" else frac_digits 17 (n mod d) d in
  (sign ++ repr_int (n / d) ++ "." ++ digits)%string.

Fixpoint contains (c : ascii) (s : string) : bool :=
  match s with
  | EmptyString => false
  | String c' s' => if Ascii.eqb c c' then true else contains c s'
  end.

Definition squote : ascii := ascii_of_nat 39.
Definition dquote : ascii := ascii_of_nat 34.
Definition backslash : ascii := ascii_of_nat 92.

Definition hex2 (n : Z) : string :=
  String (SHA256.hex_digit (n / 16)) (String (SHA256.hex_digit (n mod 16)) EmptyString).

(** Escape of one character in the [repr] of a string delimited by [quote].
    Bytes above 127 belong to the UTF-8 encoding of a character that is taken
    to be printable and are kept. *)
Definition escape_char (quote c : ascii) : string :=
  let n := Z.of_nat (nat_of_ascii c) in
  if Ascii.eqb c quote then String backslash (String c EmptyString)
  else if n =? 92 then String backslash (String backslash EmptyString)
  else if n =? 9 then String backslash "t"
  else if n =? 10 then String backslash "n"
  else if n =? 13 then String backslash "r"
  else if (n <? 32) || (n =? 127) then String backslash (String "x" (hex2 n))
  else String c EmptyString.

Fixpoint escape (quote : ascii) (s : string) : string :=
  match s with
  | EmptyString => EmptyString
  | String c s' => (escape_char quote c ++ escape quote s')%string
  end.

(** [repr] of a str: single quotes, unless the string holds a single quote
    and no double quote. *)
Definition repr_str (s : string) : string :=
  let quote := if contains squote s && negb (contains dquote s) then dquote else squote in
  String quote (escape quote s ++ String quote EmptyString)%string.

(** [sep.join(items)] with the separator of a list or dict display. *)
Fixpoint join (items : list string) : string :=
  match items with
  | [] => EmptyString
  | [x] => x
  | x :: rest => (x ++ ", " ++ join rest)%string
  end.

(** [repr] of a list whose items are already rendered. *)
Definition repr_list (items : list string) : string :=
  ("[" ++ join items ++ "]")%string.

(** [round(x)] to the nearest integer, ties to the even one. *)
Definition round_half_even (x : Q) : Z :=
  let n := Qnum x in
  let d := Zpos (Qden x) in
  let q := (n / d)%Z in
  let r := (n mod d)%Z in
  if (2 * r <? d)%Z then q
  else if (d <? 2 * r)%Z then (q + 1)%Z
  else if Z.even q then q else (q + 1)%Z.

(** [round(x, 2)]: the value of the model is rounded exactly. *)
Definition round2 (x : Q) : Q := (round_half_even (x * 100) # 100)%Q.

(** [sum] of floats, from the int 0 and from the left. *)
Definition sum (l : list Q) : Q := fold_left Qplus l 0%Q.

(** [x or y] for an optional str [x]: [None] and the empty string are false. *)
Definition or_str (x : option string) (y : string) : string :=
  match x with
  | Some (String c s) => String c s
  | Some EmptyString | None => y
  end.

End Py.

Local Open Scope Q_scope.

(* ------------------------------------------------------------------ *)
(** ** Binary64 arithmetic *)
(* ------------------------------------------------------------------ *)

(** The arithmetic of Python's [float] on finite values, for the statements
    that depend on rounding.  A double is the rational that it denotes, and
    an operation is the exact one followed by rounding to the nearest
    double, ties to even: 53 significant bits, with gradual underflow below
    [2^-1022].  Overflow to infinity and NaN are not modelled.  Comparisons,
    [min], [max], [abs] and the unary minus are exact on doubles, and are
    those of [Py]. *)
Module Float64.

Definition pow2 (e : Z) : Q :=
  if (0 <=? e)%Z then inject_Z (2 ^ e) else 1 # Z.to_pos (2 ^ (- e)).

(** [floor(log2(x))] for [x > 0]. *)
Definition floor_log2 (x : Q) : Z :=
  let k := (Z.log2 (Qnum x) - Z.log2 (Zpos (Qden x)))%Z in
  if Qle_bool (pow2 k) x then k else (k - 1)%Z.

(** The distance between the doubles around [x > 0]. *)
Definition ulp (x : Q) : Q := pow2 (Z.max (floor_log2 x - 52) (-1074)).

Definition round_pos (x : Q) : Q :=
  inject_Z (Py.round_half_even (x / ulp x)) * ulp x.

(** The double nearest to [x]; it is the value of a literal that reads [x]
    and of [n / d] on ints when [x] is [n # d]. *)
Definition round (x : Q) : Q :=
  let y := Qred x in
  if (Qnum y =? 0)%Z then 0
  else if (Qnum y <? 0)%Z then - round_pos (- y)
  else round_pos y.

Definition add (x y : Q) : Q := round (x + y).
Definition sub (x y : Q) : Q := round (x - y).
Definition mul (x y : Q) : Q := round (x * y).
Definition div (x y : Q) : Q := round (x / y).

(** The floats of a list added from the left, each addition rounded. *)
Definition sum (l : list Q) : Q := fold_left add l 0.

End Float64.

(* ------------------------------------------------------------------ *)
(** ** Nanogrid assets: [SolarPanel], [Battery] *)
(* ------------------------------------------------------------------ *)

(** [SolarPanel]; [get_output] (a sine of the time of day) is not called by
    the simulation loop and is left out. *)
Record SolarPanel : Type := mkSolarPanel
  { panel_id : Z;
    output : Q }.

Definition SolarPanel_init (panel_id : Z) : SolarPanel :=
  mkSolarPanel panel_id 0.

Record Battery : Type := mkBattery
  { battery_id : Z;
    capacity : Q;
    state_of_charge : Q;
    health : Q }.

Definition default_capacity_kwh : Q := 20.
Definition default_time_step_h : Q := 1.

(** [Battery.__init__]: three assignments from the arguments, one constant. *)
Definition Battery_init (battery_id : Z) (capacity_kwh : Q) : Battery :=
  mkBattery battery_id capacity_kwh (capacity_kwh / 2) 100.

(** The call [Battery(battery_id, capacity_kwh)]: nothing in [__init__]
    raises. *)
Definition Battery_new (battery_id : Z) (capacity_kwh : Q) : Py.outcome Battery :=
  Py.Returned (Battery_init battery_id capacity_kwh).

Definition set_state_of_charge (b : Battery) (soc : Q) : Battery :=
  mkBattery (battery_id b) (capacity b) soc (health b).

Definition Battery_charge (b : Battery) (power_kw time_step_h : Q) : Battery :=
  set_state_of_charge b
    (Py.min (capacity b) (state_of_charge b + power_kw * time_step_h)).

Definition Battery_discharge (b : Battery) (power_kw time_step_h : Q) : Battery :=
  set_state_of_charge b
    (Py.max 0 (state_of_charge b - power_kw * time_step_h)).

(* ------------------------------------------------------------------ *)
(** ** [Nanogrid] *)
(* ------------------------------------------------------------------ *)

Record Nanogrid : Type := mkNanogrid
  { nanogrid_id : Z;
    solar_panel : SolarPanel;
    battery : Battery;
    load_demand : Q;
    current_power_balance : Q }.

Definition Nanogrid_init (nanogrid_id : Z) : Nanogrid :=
  mkNanogrid nanogrid_id
             (SolarPanel_init nanogrid_id)
             (Battery_init nanogrid_id default_capacity_kwh)
             5 0.

(** The dict that [update_state] returns. *)
Record Snapshot : Type := mkSnapshot
  { snap_nanogrid_id : Z;
    snap_solar_output : Q;
    snap_load_demand : Q;
    snap_battery_soc : Q;
    snap_power_balance : Q }.

Definition set_load_demand (ng : Nanogrid) (load : Q) : Nanogrid :=
  mkNanogrid (nanogrid_id ng) (solar_panel ng) (battery ng) load
             (current_power_balance ng).

Definition Nanogrid_update_state (ng : Nanogrid) (solar_output : Q)
  : Nanogrid * Snapshot :=
  let net_power := solar_output - load_demand ng in
  let battery' :=
    if Py.ltb 0 net_power
    then Battery_charge (battery ng) net_power default_time_step_h
    else Battery_discharge (battery ng) (Py.abs net_power) default_time_step_h in
  let ng' :=
    mkNanogrid (nanogrid_id ng)
               (mkSolarPanel (panel_id (solar_panel ng)) solar_output)
               battery'
               (load_demand ng)
               net_power in
  (ng', mkSnapshot (nanogrid_id ng') solar_output (load_demand ng')
                   (state_of_charge (battery ng')) (current_power_balance ng')).

Definition Nanogrid_set_energy_trade (ng : Nanogrid) (amount : Q) : Nanogrid :=
  let battery' :=
    if Py.ltb 0 amount
    then Battery_discharge (battery ng) amount default_time_step_h
    else Battery_charge (battery ng) (Py.abs amount) default_time_step_h in
  mkNanogrid (nanogrid_id ng) (solar_panel ng) battery' (load_demand ng)
             (current_power_balance ng - amount).

(* ------------------------------------------------------------------ *)
(** ** [Blockchain] *)
(* ------------------------------------------------------------------ *)

(** A transaction dict, keys [sender], [receiver], [amount]. *)
Record Transaction : Type := mkTransaction
  { tx_sender : string;
    tx_receiver : string;
    tx_amount : Q }.

(** A block dict, keys in insertion order; the key [hash] is absent while
    the block is being hashed by [new_block]. *)
Record Block : Type := mkBlock
  { block_index : Z;
    block_timestamp : Q;
    block_transactions : list Transaction;
    block_previous_hash : string;
    block_hash : option string }.

Record Blockchain : Type := mkBlockchain
  { chain : list Block;
    transactions : list Transaction }.

(** [str(tx)] *)
Definition str_transaction (tx : Transaction) : string :=
  ("{'sender': " ++ Py.repr_str (tx_sender tx)
   ++ ", 'receiver': " ++ Py.repr_str (tx_receiver tx)
   ++ ", 'amount': " ++ Py.repr_float (tx_amount tx) ++ "}")%string.

(** [str(block)] *)
Definition str_block (b : Block) : string :=
  ("{'index': " ++ Py.repr_int (block_index b)
   ++ ", 'timestamp': " ++ Py.repr_float (block_timestamp b)
   ++ ", 'transactions': " ++ Py.repr_list (map str_transaction (block_transactions b))
   ++ ", 'previous_hash': " ++ Py.repr_str (block_previous_hash b)
   ++ match block_hash b with
      | Some h => ", 'hash': " ++ Py.repr_str h
      | None => ""
      end
   ++ "}")%string.

(** [Blockchain.hash]: SHA-256 of [str(block)]. *)
Definition Blockchain_hash (b : Block) : string :=
  SHA256.hexdigest (str_block b).

(** [chain[-1]] when the chain is not empty. *)
Definition last_block (c : list Block) : option Block :=
  match rev c with
  | [] => None
  | b :: _ => Some b
  end.

(** [new_block]; [now] is the reading of [time.time()].  The conditional
    expression binds weaker than [or]: the argument is looked at only when
    the chain is not empty. *)
Definition Blockchain_new_block (bc : Blockchain) (previous_hash : option string)
           (now : Q) : Blockchain * Block :=
  let prev :=
    match last_block (chain bc) with
    | Some last => Py.or_str previous_hash (Blockchain_hash last)
    | None => "0"%string
    end in
  let block :=
    mkBlock (Z.of_nat (List.length (chain bc)) + 1) now (transactions bc) prev None in
  let block' :=
    mkBlock (block_index block) (block_timestamp block) (block_transactions block)
            (block_previous_hash block) (Some (Blockchain_hash block)) in
  (mkBlockchain (chain bc ++ [block']) [], block').

(** [Blockchain.__init__] *)
Definition Blockchain_init (now : Q) : Blockchain :=
  fst (Blockchain_new_block (mkBlockchain [] []) (Some "0"%string) now).

Definition Blockchain_add_transaction (bc : Blockchain)
           (sender receiver : string) (amount : Q) : Blockchain :=
  mkBlockchain (chain bc) (transactions bc ++ [mkTransaction sender receiver amount]).

(* ------------------------------------------------------------------ *)
(** ** [AI_Controller] *)
(* ------------------------------------------------------------------ *)

(** The dict of nanogrids, keyed by address, in insertion order.  It is the
    one store of the [Nanogrid] objects: the dicts [sellers] and [buyers] of
    [manage_energy_market] refer to the same objects and are kept as lists of
    keys into it. *)
Definition Population : Type := list (string * Nanogrid).

Fixpoint dict_get (key : string) (d : Population) : option Nanogrid :=
  match d with
  | [] => None
  | (k, ng) :: rest => if String.eqb key k then Some ng else dict_get key rest
  end.

(** Mutation of the object stored under [key]. *)
Fixpoint dict_update (key : string) (f : Nanogrid -> Nanogrid) (d : Population)
  : Population :=
  match d with
  | [] => []
  | (k, ng) :: rest =>
      if String.eqb key k then (k, f ng) :: rest
      else (k, ng) :: dict_update key f rest
  end.

(** [d[key] = ng]: replaces the value of an existing key in place, adds a new
    key at the end. *)
Fixpoint dict_set (key : string) (ng : Nanogrid) (d : Population) : Population :=
  match d with
  | [] => [(key, ng)]
  | (k, v) :: rest =>
      if String.eqb key k then (k, ng) :: rest
      else (k, v) :: dict_set key ng rest
  end.

(** [pool.pop(key)] on a dict kept as its list of keys. *)
Fixpoint dict_pop (key : string) (pool : list string) : list string :=
  match pool with
  | [] => []
  | k :: rest => if String.eqb key k then rest else k :: dict_pop key rest
  end.

Record AI_Controller : Type := mkAI_Controller
  { nanogrids : Population;
    blockchain : Blockchain }.

Definition sellers_of (d : Population) : list string :=
  map fst (filter (fun e => Py.ltb 0 (current_power_balance (snd e))) d).

Definition buyers_of (d : Population) : list string :=
  map fst (filter (fun e => Py.ltb (current_power_balance (snd e)) 0) d).

Definition trade_amount_of (buyer_ng seller_ng : Nanogrid) : Q :=
  Py.min (Py.abs (current_power_balance buyer_ng)) (current_power_balance seller_ng).

(** The body of the loop of [manage_energy_market] for one buyer, once the
    first seller of the pool is picked.  It returns the controller and the
    pool of sellers.  The keys of both pools come from [nanogrids], so the
    two look-ups succeed. *)
Definition market_trade (self : AI_Controller) (sellers : list string)
           (seller_id buyer_id : string) : AI_Controller * list string :=
  match dict_get seller_id (nanogrids self), dict_get buyer_id (nanogrids self) with
  | Some seller_ng, Some buyer_ng =>
      let trade_amount := trade_amount_of buyer_ng seller_ng in
      if Py.leb trade_amount 0 then (self, sellers)
      else
        let sold :=
          dict_update seller_id
            (fun ng => Nanogrid_set_energy_trade ng trade_amount) (nanogrids self) in
        let bought :=
          dict_update buyer_id
            (fun ng => Nanogrid_set_energy_trade ng (- trade_amount)) sold in
        let bc :=
          Blockchain_add_transaction (blockchain self) seller_id buyer_id trade_amount in
        let fully_sold :=
          match dict_get seller_id bought with
          | Some ng => Py.leb (current_power_balance ng) 0
          | None => false
          end in
        (mkAI_Controller bought bc,
         if fully_sold then dict_pop seller_id sellers else sellers)
  | _, _ => (self, sellers)
  end.

(** The loop over the buyers; an empty pool of sellers ends it. *)
Fixpoint market_loop (buyers : list string) (st : AI_Controller * list string)
  : AI_Controller * list string :=
  match buyers with
  | [] => st
  | buyer_id :: rest =>
      match snd st with
      | [] => st
      | seller_id :: _ => market_loop rest (market_trade (fst st) (snd st) seller_id buyer_id)
      end
  end.

(** [manage_energy_market], with the pool of sellers left at the end. *)
Definition manage_energy_market_pool (self : AI_Controller)
  : AI_Controller * list string :=
  market_loop (buyers_of (nanogrids self)) (self, sellers_of (nanogrids self)).

Definition manage_energy_market (self : AI_Controller) : AI_Controller :=
  fst (manage_energy_market_pool self).

(* ------------------------------------------------------------------ *)
(** ** The offline simulation *)
(* ------------------------------------------------------------------ *)

(** The 40 hexadecimal digits of [n] (for [n < 16^40]). *)
Definition hex40 (n : Z) : string :=
  string_of_list_ascii
    (map (fun k => SHA256.hex_digit ((n / 16 ^ Z.of_nat k) mod 16)%Z) (rev (seq 0 40))).

(** [f"0x{i+1:040x}"] *)
Definition address_of (i : nat) : string := ("0x" ++ hex40 (Z.of_nat i + 1))%string.

Fixpoint init_nanogrids (num i : nat) (d : Population) : Population :=
  match num with
  | O => d
  | S num' =>
      init_nanogrids num' (S i) (dict_set (address_of i) (Nanogrid_init (Z.of_nat i + 1)) d)
  end.

(** [init_simulation]: the state it leaves in [simulation_state].  The
    controller shares the dict of nanogrids and the blockchain with
    [simulation_state], so the state is the controller. *)
Definition init_simulation (num_nanogrids : nat) (now : Q) : AI_Controller :=
  mkAI_Controller (init_nanogrids num_nanogrids 0 []) (Blockchain_init now).

(** The first loop of an iteration of [run_simulation_thread]; [draws i] is
    the pair of [random.uniform] samples (solar output, load demand) drawn for
    the [i]-th nanogrid. *)
Fixpoint update_nanogrids (i : nat) (draws : nat -> Q * Q) (d : Population)
  : Population :=
  match d with
  | [] => []
  | (address, ng) :: rest =>
      let solar_output := fst (draws i) in
      let load_demand := snd (draws i) in
      (address, fst (Nanogrid_update_state (set_load_demand ng load_demand) solar_output))
        :: update_nanogrids (S i) draws rest
  end.

(** One iteration of the loop of [run_simulation_thread]. *)
Definition simulation_tick (draws : nat -> Q * Q) (st : AI_Controller) : AI_Controller :=
  manage_energy_market
    (mkAI_Controller (update_nanogrids 0 draws (nanogrids st)) (blockchain st)).

(** The first [iterations] iterations of [run_simulation_thread];
    [draws t] are the samples of iteration [t]. *)
Fixpoint run_simulation_thread (iterations : nat) (t : nat)
         (draws : nat -> nat -> Q * Q) (st : AI_Controller) : AI_Controller :=
  match iterations with
  | O => st
  | S n => run_simulation_thread n (S t) draws (simulation_tick (draws t) st)
  end.

(** An item of the list that [get_blockchain_transactions] returns. *)
Record TransactionRecord : Type := mkTransactionRecord
  { sender : string;
    receiver : string;
    amountInKwh : Q;
    timestamp : Z }.

(** The list comprehension of [get_blockchain_transactions]; [clock i] is the
    reading of [time.time()] made for the [i]-th item. *)
Fixpoint transaction_records (i : nat) (clock : nat -> Q) (txs : list Transaction)
  : list TransactionRecord :=
  match txs with
  | [] => []
  | tx :: rest =>
      mkTransactionRecord (tx_sender tx) (tx_receiver tx) (tx_amount tx) (Py.int (clock i))
        :: transaction_records (S i) clock rest
  end.

(** [get_blockchain_transactions] when [MODE] is not [live]. *)
Definition get_blockchain_transactions (st : AI_Controller) (clock : nat -> Q)
  : list TransactionRecord :=
  transaction_records 0 clock (transactions (blockchain st)).

(* ------------------------------------------------------------------ *)
(** ** Statements of the specification, as predicates on the model *)
(* ------------------------------------------------------------------ *)

(** The state of charge lies within [0, capacity]. *)
Definition in_bounds (b : Battery) : Prop :=
  0 <= state_of_charge b /\ state_of_charge b <= capacity b.

(** A call of [charge] or [discharge]. *)
Inductive BatteryCall : Type :=
| Charge (power_kw time_step_h : Q)
| Discharge (power_kw time_step_h : Q).

Definition battery_call (b : Battery) (c : BatteryCall) : Battery :=
  match c with
  | Charge p t => Battery_charge b p t
  | Discharge p t => Battery_discharge b p t
  end.

Definition battery_calls (cs : list BatteryCall) (b : Battery) : Battery :=
  fold_left battery_call cs b.

(** The energy [power_kw * time_step_h] that a call moves. *)
Definition energy_of (c : BatteryCall) : Q :=
  match c with
  | Charge p t | Discharge p t => p * t
  end.

(** Sum of the power balances of the population. *)
Fixpoint total_balance (d : Population) : Q :=
  match d with
  | [] => 0
  | (_, ng) :: rest => current_power_balance ng + total_balance rest
  end.

(** The two-node scenario of the specification: seller [A] with a surplus of
    10, buyer [B] with a deficit of 4. *)
Definition node_A : Nanogrid :=
  mkNanogrid 1 (SolarPanel_init 1) (Battery_init 1 default_capacity_kwh) 5 10.

Definition node_B : Nanogrid :=
  mkNanogrid 2 (SolarPanel_init 2) (Battery_init 2 default_capacity_kwh) 5 (-4).

Definition two_nodes : AI_Controller :=
  mkAI_Controller [("A"%string, node_A); ("B"%string, node_B)] (Blockchain_init 1700000000).

(** A seller with nothing left to sell, met by a buyer: no trade. *)
Definition spent_seller : AI_Controller :=
  mkAI_Controller
    [("A"%string, mkNanogrid 1 (SolarPanel_init 1) (Battery_init 1 20) 5 0);
     ("B"%string, node_B)]
    (Blockchain_init 1700000000).

(** Samples of one iteration for two nanogrids: the first ends with a surplus
    of 10, the second with a deficit of 4. *)
Definition scenario_draws (i : nat) : Q * Q :=
  match i with
  | O => (60, 50)
  | _ => (50, 54)
  end.

(** The history as the specification words it: the trades of all sealed
    blocks, oldest first. *)
Definition sealed_transactions (bc : Blockchain) : list Transaction :=
  flat_map block_transactions (chain bc).

(** The trade that an item of the history reports. *)
Definition trade_of (r : TransactionRecord) : Transaction :=
  mkTransaction (sender r) (receiver r) (amountInKwh r).

(** A ledger with one sealed trade and nothing pending. *)
Definition sealed_trade : Blockchain :=
  fst (Blockchain_new_block
         (Blockchain_add_transaction (Blockchain_init 1700000000) "A" "B" 4)
         None 1700000001).

(** A call of a method of the ledger. *)
Inductive LedgerCall : Type :=
| AddTransaction (sender receiver : string) (amount : Q)
| NewBlock (previous_hash : option string) (now : Q).

Definition ledger_call (bc : Blockchain) (c : LedgerCall) : Blockchain :=
  match c with
  | AddTransaction s r a => Blockchain_add_transaction bc s r a
  | NewBlock p now => fst (Blockchain_new_block bc p now)
  end.

Definition ledger_calls (cs : list LedgerCall) (bc : Blockchain) : Blockchain :=
  fold_left ledger_call cs bc.

(** The call leaves the link to [new_block]: no argument, or an empty one. *)
Definition default_link (c : LedgerCall) : Prop :=
  match c with
  | AddTransaction _ _ _ => True
  | NewBlock p _ => p = None \/ p = Some EmptyString
  end.

(** The block as [new_block] hashes it: without the key [hash]. *)
Definition unhashed (b : Block) : Block :=
  mkBlock (block_index b) (block_timestamp b) (block_transactions b)
          (block_previous_hash b) None.

(** The stored hash is the hash of the other four fields. *)
Definition hash_reproducible (b : Block) : Prop :=
  block_hash b = Some (Blockchain_hash (unhashed b)).

(** Each block after the first holds the hash stored in the block before. *)
Definition linked_by_stored_hash (c : list Block) : Prop :=
  forall (i : nat) (p b : Block),
    nth_error c i = Some p -> nth_error c (S i) = Some b ->
    block_hash p = Some (block_previous_hash b).

(** Each block after the first holds [Blockchain.hash] of the block before,
    taken over the whole of that block, its key [hash] included. *)
Definition linked_by_block_hash (c : list Block) : Prop :=
  forall (i : nat) (p b : Block),
    nth_error c i = Some p -> nth_error c (S i) = Some b ->
    block_previous_hash b = Blockchain_hash p.

Definition is_genesis (g : Block) : Prop :=
  block_index g = 1%Z
  /\ block_transactions g = []
  /\ block_previous_hash g = "0"%string
  /\ hash_reproducible g.

(** What holds of a ledger between two calls. *)
Record chain_ok (g : Block) (bc : Blockchain) : Prop := mk_chain_ok
  { ok_first : nth_error (chain bc) 0 = Some g;
    ok_linked : linked_by_block_hash (chain bc);
    ok_hashes : Forall hash_reproducible (chain bc) }.

(* ------------------------------------------------------------------ *)
(** ** Further predicates on the model *)
(* ------------------------------------------------------------------ *)

(** The battery of a node is within its bounds and has the default capacity. *)
Definition battery_ok (ng : Nanogrid) : Prop :=
  in_bounds (battery ng) /\ capacity (battery ng) = default_capacity_kwh.

(** [y] lies between 0 and [x], on the side of [x]. *)
Definition between_zero_and (x y : Q) : Prop :=
  (0 <= y /\ y <= x) \/ (x <= y /\ y <= 0).

(** [l] is [l'] with some items left out, in the same order. *)
Inductive Subseq {A : Type} : list A -> list A -> Prop :=
| Subseq_nil : Subseq [] []
| Subseq_skip (x : A) (l l' : list A) : Subseq l l' -> Subseq l (x :: l')
| Subseq_take (x : A) (l l' : list A) : Subseq l l' -> Subseq (x :: l) (x :: l').

(** The transactions that a sequence of calls adds, in order. *)
Definition added_transactions (cs : list LedgerCall) : list Transaction :=
  flat_map (fun c => match c with
                     | AddTransaction s r a => [mkTransaction s r a]
                     | NewBlock _ _ => []
                     end) cs.

(** The number of [new_block] calls of a sequence. *)
Definition seal_count (cs : list LedgerCall) : nat :=
  List.length (filter (fun c => match c with NewBlock _ _ => true | _ => false end) cs).

(** A character of a lower-case hexadecimal numeral. *)
Definition is_lower_hex (c : ascii) : bool :=
  let n := Z.of_nat (nat_of_ascii c) in
  (((48 <=? n) && (n <=? 57)) || ((97 <=? n) && (n <=? 102)))%Z.

(** Value of a hexadecimal digit, and of a numeral read from the left. *)
Definition hex_value (c : ascii) : Z :=
  let n := Z.of_nat (nat_of_ascii c) in
  (if n <? 58 then n - 48 else n - 87)%Z.

Definition unhex (s : string) : Z :=
  fold_left (fun acc c => (acc * 16 + hex_value c)%Z) (list_ascii_of_string s) 0%Z.

(* ------------------------------------------------------------------ *)
(** ** The read-only endpoints of the offline mode *)
(* ------------------------------------------------------------------ *)

(** An item of the list that [get_grid_status] returns. *)
Record NanogridStatus : Type := mkNanogridStatus
  { status_nanogrid_id : Z;
    status_solar_output : Q;
    status_load_demand : Q;
    status_battery_soc : Q;
    status_address : string }.

(** [get_grid_status]: the list under the key [nanogrids]. *)
Definition get_grid_status (st : AI_Controller) : list NanogridStatus :=
  map (fun e =>
         mkNanogridStatus (nanogrid_id (snd e)) (output (solar_panel (snd e)))
                          (load_demand (snd e)) (state_of_charge (battery (snd e)))
                          (fst e))
      (nanogrids st).

(** [get_nanogrids_status] *)
Definition get_nanogrids_status (st : AI_Controller) : list NanogridStatus :=
  get_grid_status st.

(** What a trade leaves alone in a node: id, solar panel, load demand. *)
Definition fixed_part (ng : Nanogrid) : Z * SolarPanel * Q :=
  (nanogrid_id ng, solar_panel ng, load_demand ng).

(** The dict that [get_system_status] returns. *)
Record SystemStatus : Type := mkSystemStatus
  { sys_mode : string;
    sys_total_nanogrids : Z;
    sys_nanogrids_online : Z;
    sys_blockchain_connected : bool;
    sys_ai_controller_active : bool;
    sys_network_health : Q;
    sys_market_price : Q }.

(** [0.10 + (hash(...) % 100) / 10000] for the residue [r] of the hash. *)
Definition market_price_of (r : Z) : Q :=
  Float64.add (Float64.round (10 # 100)) (Float64.div (inject_Z r) 10000).

(** The residues of a division by 100. *)
Definition residues_100 : list Z := map Z.of_nat (seq 0 100).

(** [get_system_status] when [MODE] is not [live] and [init_simulation] has
    run.  [NUM_NANOGRIDS] is the module constant and [time_hash] the value of
    [hash(str(time.time()))].  The division of two ints raises when the
    divisor is 0.  The two floats of the result are computed in binary64:
    [85 + (len(...) / NUM_NANOGRIDS) * 15] and
    [0.10 + (hash(...) % 100) / 10000]. *)
Definition get_system_status (MODE : string) (NUM_NANOGRIDS : Z) (time_hash : Z)
           (st : AI_Controller) : Py.outcome SystemStatus :=
  let online := Z.of_nat (List.length (nanogrids st)) in
  if (NUM_NANOGRIDS =? 0)%Z then Py.Raised "ZeroDivisionError"
  else
    Py.Returned
      (mkSystemStatus MODE NUM_NANOGRIDS online true true
         (Float64.add 85
            (Float64.mul (Float64.div (inject_Z online) (inject_Z NUM_NANOGRIDS)) 15))
         (market_price_of (time_hash mod 100))).

(** An order of [get_market_orders]. *)
Record Order : Type := mkOrder
  { order_address : string;
    order_amount : Q;
    order_price : Q;
    order_timestamp : Z }.

(** [list.sort] by a key: the stable sort, written as an insertion sort.
    [before x y] tells that [x] must come before [y]; items that neither must
    come before the other keep their order, as Python guarantees it with and
    without [reverse=True]. *)
Fixpoint insert_order (before : Order -> Order -> bool) (x : Order) (l : list Order)
  : list Order :=
  match l with
  | [] => [x]
  | y :: l' => if before y x then y :: insert_order before x l' else x :: l
  end.

Definition stable_sort (before : Order -> Order -> bool) (l : list Order) : list Order :=
  fold_right (insert_order before) [] l.

(** The loop of [get_market_orders]: the buy orders and the sell orders in the
    order of the nanogrids.  [addr_hash] is [hash] on strings and [clock i]
    the reading of [time.time()] made for the [i]-th nanogrid. *)
Fixpoint collect_orders (addr_hash : string -> Z) (clock : nat -> Q) (i : nat)
         (d : Population) : list Order * list Order :=
  match d with
  | [] => ([], [])
  | (address, ng) :: rest =>
      let orders := collect_orders addr_hash clock (S i) rest in
      if Py.ltb (current_power_balance ng) 0 then
        (mkOrder address (Py.abs (current_power_balance ng))
                 ((8 # 100) + inject_Z (addr_hash address mod 40) / 1000)
                 (Py.int (clock i)) :: fst orders,
         snd orders)
      else if Py.ltb 0 (current_power_balance ng) then
        (fst orders,
         mkOrder address (current_power_balance ng)
                 ((11 # 100) + inject_Z (addr_hash address mod 40) / 1000)
                 (Py.int (clock i)) :: snd orders)
      else orders
  end.

(** [get_market_orders]: the pair of [buy_orders], highest price first, and
    [sell_orders], lowest price first. *)
Definition get_market_orders (addr_hash : string -> Z) (clock : nat -> Q)
           (st : AI_Controller) : list Order * list Order :=
  let orders := collect_orders addr_hash clock 0 (nanogrids st) in
  (stable_sort (fun x y => Py.ltb (order_price y) (order_price x)) (fst orders),
   stable_sort (fun x y => Py.ltb (order_price x) (order_price y)) (snd orders)).

(* ------------------------------------------------------------------ *)
(** ** The trades of the live mode *)
(* ------------------------------------------------------------------ *)

(** A call [executeP2PTrade(buyer, amount)] sent from [seller]. *)
Record TradeCall : Type := mkTradeCall
  { call_seller : string;
    call_buyer : string;
    call_amount : Z }.

(** [min] on ints. *)
Definition int_min (x y : Z) : Z := if (y <? x)%Z then y else x.

(** The inner loop of the trades of [run_live_simulation_thread] for one
    seller: the calls made to the contract, in order, when each call returns
    or raises [ContractLogicError] (which the loop logs). *)
Fixpoint live_calls_of_seller (d : Population) (seller_address : string)
         (seller_ng : Nanogrid) (buyers : list string) : list TradeCall :=
  match buyers with
  | [] => []
  | buyer_addr :: rest =>
      let later := live_calls_of_seller d seller_address seller_ng rest in
      match dict_get buyer_addr d with
      | Some buyer_ng =>
          if negb (String.eqb seller_address buyer_addr)
             && Py.ltb (current_power_balance buyer_ng) 0
          then
            let trade_amount :=
              int_min (Py.int (current_power_balance seller_ng))
                      (Py.int (Py.abs (current_power_balance buyer_ng))) in
            if (0 <? trade_amount)%Z
            then mkTradeCall seller_address buyer_addr trade_amount :: later
            else later
          else later
      | None => later
      end
  end.

(** The outer loop; [d] is the whole dict, [sellers] the items still to
    visit. *)
Fixpoint live_calls_from (d sellers : Population) : list TradeCall :=
  match sellers with
  | [] => []
  | (seller_address, ng) :: rest =>
      (if Py.ltb 0 (current_power_balance ng)
       then live_calls_of_seller d seller_address ng (map fst d)
       else [])
      ++ live_calls_from d rest
  end.

Definition live_trade_calls (d : Population) : list TradeCall :=
  live_calls_from d d.

(** What holds of a call made for a seller. *)
Definition sound_call (d : Population) (seller_ng : Nanogrid) (c : TradeCall) : Prop :=
  exists buyer_ng,
    dict_get (call_buyer c) d = Some buyer_ng
    /\ current_power_balance buyer_ng < 0
    /\ call_seller c <> call_buyer c
    /\ (1 <= call_amount c)%Z
    /\ inject_Z (call_amount c) <= current_power_balance seller_ng
    /\ inject_Z (call_amount c) <= - current_power_balance buyer_ng.

(** A seller with a surplus of 10 and two buyers with deficits of 8 and 9. *)
Definition one_seller_two_buyers : Population :=
  [("A"%string, mkNanogrid 1 (SolarPanel_init 1) (Battery_init 1 20) 5 10);
   ("B"%string, mkNanogrid 2 (SolarPanel_init 2) (Battery_init 2 20) 5 (-8));
   ("C"%string, mkNanogrid 3 (SolarPanel_init 3) (Battery_init 3 20) 5 (-9))].

(* ------------------------------------------------------------------ *)
(** ** The advisory endpoints *)
(* ------------------------------------------------------------------ *)

Record AIRecommendation : Type := mkAIRecommendation
  { rec_type : string;
    rec_priority : string;
    rec_message : string;
    rec_action : string;
    rec_estimated_benefit : Q }.

Definition balances (d : Population) : list Q :=
  map (fun e => current_power_balance (snd e)) d.

(** [total_surplus] and [total_deficit] of [get_ai_recommendations]. *)
Definition total_surplus (d : Population) : Q :=
  Py.sum (filter (fun b => Py.ltb 0 b) (balances d)).

Definition total_deficit (d : Population) : Q :=
  Py.sum (map Py.abs (filter (fun b => Py.ltb b 0) (balances d))).

Definition low_battery_count (d : Population) : Z :=
  Z.of_nat (List.length
              (filter (fun e => Py.ltb (state_of_charge (battery (snd e))) 5) d)).

(** [np.mean] of the balances, 0 for an empty population. *)
Definition avg_balance (d : Population) : Q :=
  match d with
  | [] => 0
  | _ :: _ => Py.sum (balances d) / inject_Z (Z.of_nat (List.length d))
  end.

Definition energy_trading (d : Population) : AIRecommendation :=
  mkAIRecommendation
    "Energy Trading" "high"
    "Significant energy surplus detected across the grid"
    "Consider selling excess energy to external markets or storing in community batteries"
    (Py.round2 ((total_surplus d - total_deficit d) * (12 # 100))).

Definition load_management (d : Population) : AIRecommendation :=
  mkAIRecommendation
    "Load Management" "high"
    "Grid deficit detected. Energy demand exceeds supply"
    "Activate demand response programs. Purchase energy from external sources"
    (Py.round2 (total_deficit d * (15 # 100))).

Definition battery_management (d : Population) : AIRecommendation :=
  mkAIRecommendation
    "Battery Management" "medium"
    (Py.repr_int (low_battery_count d) ++ " nanogrids have low battery charge")
    "Prioritize charging for critical loads. Implement battery balancing strategy"
    (Py.round2 (inject_Z (low_battery_count d) * (25 # 10))).

Definition market_optimization (d : Population) : AIRecommendation :=
  mkAIRecommendation
    "Market Optimization" "low"
    "Grid is well-balanced. Optimal time for peer-to-peer trading"
    "Enable P2P energy trading with dynamic pricing for maximum efficiency"
    (Py.round2 (inject_Z (Z.of_nat (List.length d)) * (12 # 10))).

(** [get_ai_recommendations] *)
Definition get_ai_recommendations (st : AI_Controller) : list AIRecommendation :=
  let d := nanogrids st in
  (if Py.ltb (total_deficit d * (15 # 10)) (total_surplus d) then [energy_trading d] else [])
  ++ (if Py.ltb (total_surplus d) (total_deficit d) then [load_management d] else [])
  ++ (if (0 <? low_battery_count d)%Z then [battery_management d] else [])
  ++ (if Py.ltb (Py.abs (avg_balance d)) 1 then [market_optimization d] else []).

Record FaultPrediction : Type := mkFaultPrediction
  { fault_nanogrid_id : Z;
    fault_probability : Q;
    fault_type : string;
    fault_severity : string;
    fault_recommendation : string }.

(** The nanogrids that a prediction endpoint looks at: all of them, or those
    with the id asked for. *)
Definition target_nanogrids (wanted_id : option Z) (d : Population) : Population :=
  match wanted_id with
  | None => d
  | Some id => filter (fun e => (nanogrid_id (snd e) =? id)%Z) d
  end.

(** The body of the loop of [predict_faults]; [u] is the sample of
    [random.uniform(0, 0.3)]. *)
Definition predict_fault (ng : Nanogrid) (u : Q) : FaultPrediction :=
  let battery_stress := (100 - health (battery ng)) / 100 in
  let load_stress := load_demand ng / 100 in
  let fault_prob :=
    Py.min (battery_stress * (3 # 10) + load_stress * (2 # 10) + u) (95 # 100) in
  if Py.ltb (7 # 10) fault_prob then
    mkFaultPrediction (nanogrid_id ng) (Py.round2 fault_prob)
      "Battery Degradation" "high"
      "Schedule immediate battery maintenance. Consider replacement."
  else if Py.ltb (4 # 10) fault_prob then
    mkFaultPrediction (nanogrid_id ng) (Py.round2 fault_prob)
      "Load Imbalance" "medium"
      "Optimize load distribution. Monitor battery discharge patterns."
  else
    mkFaultPrediction (nanogrid_id ng) (Py.round2 fault_prob)
      "Minor Fluctuations" "low"
      "Continue normal operation. Regular monitoring recommended.".

Fixpoint predict_faults_loop (i : nat) (uniforms : nat -> Q) (targets : Population)
  : list FaultPrediction :=
  match targets with
  | [] => []
  | (_, ng) :: rest =>
      predict_fault ng (uniforms i) :: predict_faults_loop (S i) uniforms rest
  end.

(** [predict_faults]; [wanted_id] is its argument [nanogrid_id] and
    [uniforms i] the sample drawn for the [i]-th nanogrid looked at. *)
Definition predict_faults (wanted_id : option Z) (uniforms : nat -> Q)
           (st : AI_Controller) : list FaultPrediction :=
  predict_faults_loop 0 uniforms (target_nanogrids wanted_id (nanogrids st)).

(** The health of the battery is as constructed and the load demand is at
    most the largest one that the simulation loop draws. *)
Definition nominal (ng : Nanogrid) : Prop :=
  health (battery ng) = 100 /\ load_demand ng <= 55.

(* ------------------------------------------------------------------ *)
(** ** [ml/models.py] and the loop of [ml/main.py] *)
(* ------------------------------------------------------------------ *)

Module ML.

(** [SolarPanel]; [get_output] (a cosine of the hour plus noise) is an input
    of the loop below. *)
Record SolarPanel : Type := mkSolarPanel
  { capacity_kw : Q }.

(** [Battery]: the state of charge is a fraction of the capacity. *)
Record Battery : Type := mkBattery
  { capacity_kwh : Q;
    state_of_charge : Q;
    health : Q }.

Definition Battery_init (capacity_kwh : Q) : Battery :=
  mkBattery capacity_kwh (1 # 2) 1.

Definition epsilon : Q := 1 # 1000000000.

(** [kw * hours / (self.capacity_kwh + 1e-9)]; the division raises on 0. *)
Definition delta_of (b : Battery) (kw hours : Q) : Py.outcome Q :=
  if Qeq_bool (capacity_kwh b + epsilon) 0 then Py.Raised "ZeroDivisionError"
  else Py.Returned (kw * hours / (capacity_kwh b + epsilon)).

Definition clamp (x : Q) : Q := Py.min 1 (Py.max 0 x).

Definition Battery_charge (b : Battery) (kw hours : Q) : Py.outcome Battery :=
  match delta_of b kw hours with
  | Py.Returned delta =>
      Py.Returned (mkBattery (capacity_kwh b) (clamp (state_of_charge b + delta)) (health b))
  | Py.Raised e => Py.Raised e
  end.

Definition Battery_discharge (b : Battery) (kw hours : Q) : Py.outcome Battery :=
  match delta_of b kw hours with
  | Py.Returned delta =>
      Py.Returned (mkBattery (capacity_kwh b) (clamp (state_of_charge b - delta)) (health b))
  | Py.Raised e => Py.Raised e
  end.

Record Nanogrid : Type := mkNanogrid
  { nanogrid_id : Z;
    solar_panel : SolarPanel;
    battery : Battery;
    load_demand : Q;
    current_power_balance : Q }.

Definition Nanogrid_init (nanogrid_id : Z) : Nanogrid :=
  mkNanogrid nanogrid_id (mkSolarPanel 5) (Battery_init 10) 5 0.

(** [update_state]: the node after the call and the exception raised, if
    any.  The balance is assigned before the battery is touched. *)
Definition Nanogrid_update_state (ng : Nanogrid) (solar_kw hours : Q)
  : Nanogrid * option string :=
  let balance := solar_kw - load_demand ng in
  let ng' :=
    mkNanogrid (nanogrid_id ng) (solar_panel ng) (battery ng) (load_demand ng) balance in
  let result :=
    if Py.ltb 0 balance
    then Battery_charge (battery ng) balance hours
    else Battery_discharge (battery ng)
                           (Py.min (- balance) (capacity_kwh (battery ng))) hours in
  match result with
  | Py.Returned b =>
      (mkNanogrid (nanogrid_id ng) (solar_panel ng) b (load_demand ng) balance, None)
  | Py.Raised e => (ng', Some e)
  end.

(** The features given to the forecaster. *)
Record Features : Type := mkFeatures
  { total_solar : Q;
    hour : Z;
    lag_1 : Q;
    lag_2 : Q;
    lag_3 : Q;
    lag_24 : Q;
    lag_48 : Q }.

(** An entry of [NANOGRIDS] whose model was created. *)
Record Entry : Type := mkEntry
  { model : Nanogrid;
    history : list Q;
    last_prediction : option Q;
    last_fault : option (option Z * option (list Q)) }.

(** [history[-k] if len(history) >= k else demand] *)
Definition lag (k : nat) (history : list Q) (demand : Q) : Q :=
  if (k <=? List.length history)%nat
  then nth (List.length history - k) history demand
  else demand.

(** [history[-48:]] when the list is longer than 48. *)
Definition window (history : list Q) : list Q :=
  if (48 <? List.length history)%nat
  then skipn (List.length history - 48) history
  else history.

(** The body of the loop of [simulation_loop] for one entry.  Inputs: the
    hour of the clock, the output [solar] of the panel for it, the sample
    [u] of [np.random.uniform(-1, 1)], the forecaster [rf] ([None] when it
    returns [None] or raises, as the loop catches what it raises) and
    [fault]: [None] when the fault detector is not run in this pass, else the
    outcome of [predict_fault_from_waveform], whose call is not guarded.  The
    result carries the exception that ends the loop, if any: that of
    [update_state], raised before the history is touched, or that of the
    fault detector, raised once the history and the prediction are
    recorded. *)
Definition simulation_step (clock_hour : Z) (solar u : Q)
           (rf : Features -> option Q)
           (fault : option (Py.outcome (option Z * option (list Q))))
           (entry : Entry) : Entry * option string :=
  let m := model entry in
  let demand := Py.max (1 # 10) (load_demand m + u) in
  let m1 := mkNanogrid (nanogrid_id m) (solar_panel m) (battery m) demand
                       (current_power_balance m) in
  match Nanogrid_update_state m1 solar 1 with
  | (m2, Some e) =>
      (mkEntry m2 (history entry) (last_prediction entry) (last_fault entry), Some e)
  | (m2, None) =>
      let h := window (history entry ++ [demand]) in
      let features :=
        mkFeatures solar clock_hour (lag 1 h demand) (lag 2 h demand) (lag 3 h demand)
                   (lag 24 h demand) (lag 48 h demand) in
      let pred :=
        match rf features with
        | Some p => p
        | None => match h with [] => demand | _ :: _ => last h demand end
        end in
      match fault with
      | Some (Py.Raised e) => (mkEntry m2 h (Some pred) (last_fault entry), Some e)
      | Some (Py.Returned f) => (mkEntry m2 h (Some pred) (Some f), None)
      | None => (mkEntry m2 h (Some pred) (last_fault entry), None)
      end
  end.

End ML.

(** [x] brought back into [0, cap]. *)
Definition saturate (cap x : Q) : Q := Py.max 0 (Py.min cap x).

(** An entry of the ML server with two demands in its history. *)
Definition ml_entry : ML.Entry :=
  ML.mkEntry (ML.Nanogrid_init 1) [5; 5 + (1 # 2)] None None.

(** An entry whose history is full: the 48 demands 1, 2, ..., 48. *)
Definition ml_entry_full : ML.Entry :=
  ML.mkEntry (ML.Nanogrid_init 1)
             (map (fun k => inject_Z (Z.of_nat k)) (seq 1 48)) None None.

(* ------------------------------------------------------------------ *)
(** ** The trade in binary64 arithmetic *)
(* ------------------------------------------------------------------ *)

(** [Battery.charge] and [Battery.discharge] with the rounding of each
    operation: the product [power_kw * time_step_h], then the sum or the
    difference. *)
Definition Battery_charge_f64 (b : Battery) (power_kw time_step_h : Q) : Battery :=
  set_state_of_charge b
    (Py.min (capacity b)
            (Float64.add (state_of_charge b) (Float64.mul power_kw time_step_h))).

Definition Battery_discharge_f64 (b : Battery) (power_kw time_step_h : Q) : Battery :=
  set_state_of_charge b
    (Py.max 0
            (Float64.sub (state_of_charge b) (Float64.mul power_kw time_step_h))).

(** [Nanogrid.set_energy_trade] with the rounding of
    [self.current_power_balance -= amount]. *)
Definition Nanogrid_set_energy_trade_f64 (ng : Nanogrid) (amount : Q) : Nanogrid :=
  let battery' :=
    if Py.ltb 0 amount
    then Battery_discharge_f64 (battery ng) amount default_time_step_h
    else Battery_charge_f64 (battery ng) (Py.abs amount) default_time_step_h in
  mkNanogrid (nanogrid_id ng) (solar_panel ng) battery' (load_demand ng)
             (Float64.sub (current_power_balance ng) amount).

(** The body of the loop of [manage_energy_market] for one buyer, as
    [market_trade], with the method [set_energy_trade] as [trade]. *)
Definition market_trade_by (trade : Nanogrid -> Q -> Nanogrid)
           (self : AI_Controller) (sellers : list string)
           (seller_id buyer_id : string) : AI_Controller * list string :=
  match dict_get seller_id (nanogrids self), dict_get buyer_id (nanogrids self) with
  | Some seller_ng, Some buyer_ng =>
      let trade_amount := trade_amount_of buyer_ng seller_ng in
      if Py.leb trade_amount 0 then (self, sellers)
      else
        let sold :=
          dict_update seller_id (fun ng => trade ng trade_amount) (nanogrids self) in
        let bought :=
          dict_update buyer_id (fun ng => trade ng (- trade_amount)) sold in
        let bc :=
          Blockchain_add_transaction (blockchain self) seller_id buyer_id trade_amount in
        let fully_sold :=
          match dict_get seller_id bought with
          | Some ng => Py.leb (current_power_balance ng) 0
          | None => false
          end in
        (mkAI_Controller bought bc,
         if fully_sold then dict_pop seller_id sellers else sellers)
  | _, _ => (self, sellers)
  end.

Fixpoint market_loop_by (trade : Nanogrid -> Q -> Nanogrid) (buyers : list string)
         (st : AI_Controller * list string) : AI_Controller * list string :=
  match buyers with
  | [] => st
  | buyer_id :: rest =>
      match snd st with
      | [] => st
      | seller_id :: _ =>
          market_loop_by trade rest (market_trade_by trade (fst st) (snd st) seller_id buyer_id)
      end
  end.

(** [manage_energy_market] in binary64 arithmetic. *)
Definition market_trade_f64 : AI_Controller -> list string -> string -> string
                              -> AI_Controller * list string :=
  market_trade_by Nanogrid_set_energy_trade_f64.

Definition manage_energy_market_f64 (self : AI_Controller) : AI_Controller :=
  fst (market_loop_by Nanogrid_set_energy_trade_f64
         (buyers_of (nanogrids self)) (self, sellers_of (nanogrids self))).


(** Seller [A] with a surplus of 1e17, buyer [B] with a deficit of 1. *)
Definition large_surplus : AI_Controller :=
  mkAI_Controller
    [("A"%string, mkNanogrid 1 (SolarPanel_init 1) (Battery_init 1 20) 5
                             (inject_Z (10 ^ 17)));
     ("B"%string, mkNanogrid 2 (SolarPanel_init 2) (Battery_init 2 20) 5 (-1))]
    (Blockchain_init 1700000000).


(* ------------------------------------------------------------------ *)
(** ** The trade loop of the live mode with the results of the calls *)
(* ------------------------------------------------------------------ *)

(** What [executeP2PTrade(...).transact(...)] followed by
    [wait_for_transaction_receipt] does: it returns, it raises
    [ContractLogicError], which the loop catches and logs, or it raises
    another exception, which nothing in the thread catches. *)
Inductive CallResult : Type :=
| Mined
| ContractLogicError
| OtherException (name : string).

(** The inner loop for one seller.  [contract i c] is the result of the call
    [c] when [i] calls were made before it.  The result holds the calls made,
    in order, and the exception that ends the thread, if any. *)
Fixpoint live_trades_of_seller (contract : nat -> TradeCall -> CallResult)
         (d : Population) (seller_address : string) (seller_ng : Nanogrid)
         (buyers : list string) (i : nat) : list TradeCall * option string :=
  match buyers with
  | [] => ([], None)
  | buyer_addr :: rest =>
      match dict_get buyer_addr d with
      | Some buyer_ng =>
          if negb (String.eqb seller_address buyer_addr)
             && Py.ltb (current_power_balance buyer_ng) 0
          then
            let trade_amount :=
              int_min (Py.int (current_power_balance seller_ng))
                      (Py.int (Py.abs (current_power_balance buyer_ng))) in
            if (0 <? trade_amount)%Z
            then
              let c := mkTradeCall seller_address buyer_addr trade_amount in
              match contract i c with
              | OtherException e => ([c], Some e)
              | Mined | ContractLogicError =>
                  let later :=
                    live_trades_of_seller contract d seller_address seller_ng rest (S i) in
                  (c :: fst later, snd later)
              end
            else live_trades_of_seller contract d seller_address seller_ng rest i
          else live_trades_of_seller contract d seller_address seller_ng rest i
      | None => live_trades_of_seller contract d seller_address seller_ng rest i
      end
  end.

(** The outer loop; [d] is the whole dict, [sellers] the items still to
    visit. *)
Fixpoint live_trades_from (contract : nat -> TradeCall -> CallResult)
         (d sellers : Population) (i : nat) : list TradeCall * option string :=
  match sellers with
  | [] => ([], None)
  | (seller_address, ng) :: rest =>
      if Py.ltb 0 (current_power_balance ng)
      then
        match live_trades_of_seller contract d seller_address ng (map fst d) i with
        | (calls, Some e) => (calls, Some e)
        | (calls, None) =>
            let later := live_trades_from contract d rest (i + List.length calls) in
            (calls ++ fst later, snd later)
        end
      else live_trades_from contract d rest i
  end.

Definition run_live_trades (contract : nat -> TradeCall -> CallResult)
           (d : Population) : list TradeCall * option string :=
  live_trades_from contract d d 0.


(** A node that has lost its connection at the second call. *)
Definition second_call_fails (i : nat) (c : TradeCall) : CallResult :=
  match i with
  | 1%nat => OtherException "ConnectionError"
  | _ => Mined
  end.

(* ------------------------------------------------------------------ *)
(** ** Facts on the built-ins *)
(* ------------------------------------------------------------------ *)

(** Test vectors of the standard for [SHA256]. *)
Example sha256_abc :
  SHA256.hexdigest "abc"
  = "ba7816bf8f01cfea414140de5dae2223b00361a396177a9cb410ff61f20015ad".
Proof. vm_compute. reflexivity. Qed.

Example sha256_empty :
  SHA256.hexdigest ""
  = "e3b0c44298fc1c149afbf4c8996fb92427ae41e4649b934ca495991b7852b855".
Proof. vm_compute. reflexivity. Qed.

Example sha256_two_blocks :
  SHA256.hexdigest "abcdbcdecdefdefgefghfghighijhijkijkljklmklmnlmnomnopnopq"
  = "248d6a61d20638b8e5c026930c3e6039a33ce45964ff2167f6ecedd419db06c1".
Proof. vm_compute. reflexivity. Qed.

Example sha256_constants :
  (nth 0 SHA256.K 0 = 0x428a2f98 /\ nth 63 SHA256.K 0 = 0xc67178f2
   /\ nth 0 SHA256.H0 0 = 0x6a09e667 /\ nth 7 SHA256.H0 0 = 0x5be0cd19)%Z.
Proof. repeat split. Qed.

(** Values of [Float64.round]: the literals 0.1 and 0.3, the sum
    [0.1 + 0.2], ties on integers above [2^53] and below the least
    subnormal. *)
Example float64_values :
  Float64.round (1 # 10) == 3602879701896397 # 36028797018963968
  /\ Float64.round (3 # 10) == 5404319552844595 # 18014398509481984
  /\ Float64.add (Float64.round (1 # 10)) (Float64.round (2 # 10))
     == 5404319552844596 # 18014398509481984
  /\ Float64.round (inject_Z (2 ^ 53 + 1)) == inject_Z (2 ^ 53)
  /\ Float64.round (inject_Z (2 ^ 53 + 3)) == inject_Z (2 ^ 53 + 4)
  /\ Float64.round (Float64.pow2 (-1075)) == 0
  /\ Float64.round (3 * Float64.pow2 (-1075)) == Float64.pow2 (-1073)
  /\ Float64.round (- (1 # 3)) == - (6004799503160661 # 18014398509481984).
Proof. repeat split; vm_compute; reflexivity. Qed.

(** Rounding does not depend on how the rational is written. *)
Lemma round_proper (x y : Q) : x == y -> Float64.round x = Float64.round y.
Proof.
  intro H. unfold Float64.round. rewrite (Qred_complete x y H). reflexivity.
Qed.

Lemma ltb_true (x y : Q) : Py.ltb x y = true <-> x < y.
Proof.
  unfold Py.ltb. rewrite negb_true_iff.
  split; intro H.
  - apply Qnot_le_lt. intro Hle. apply Qle_bool_iff in Hle. congruence.
  - destruct (Qle_bool y x) eqn:E; [|reflexivity].
    apply Qle_bool_iff in E. exfalso. apply (Qlt_not_le _ _ H E).
Qed.

Lemma ltb_false (x y : Q) : Py.ltb x y = false <-> y <= x.
Proof.
  unfold Py.ltb. rewrite negb_false_iff. apply Qle_bool_iff.
Qed.

Lemma leb_true (x y : Q) : Py.leb x y = true <-> x <= y.
Proof. apply Qle_bool_iff. Qed.

Lemma leb_false (x y : Q) : Py.leb x y = false <-> y < x.
Proof.
  unfold Py.leb. split; intro H.
  - apply Qnot_le_lt. intro Hle. apply Qle_bool_iff in Hle. congruence.
  - destruct (Qle_bool x y) eqn:E; [|reflexivity].
    apply Qle_bool_iff in E. exfalso. apply (Qlt_not_le _ _ H E).
Qed.

(** Case analysis on a comparison of the program. *)
Ltac cases_ltb x y :=
  let E := fresh "E" in
  destruct (Py.ltb x y) eqn:E;
  [apply ltb_true in E | apply ltb_false in E].

Ltac cases_leb x y :=
  let E := fresh "E" in
  destruct (Py.leb x y) eqn:E;
  [apply leb_true in E | apply leb_false in E].

Lemma min_le_l (x y : Q) : Py.min x y <= x.
Proof. unfold Py.min. cases_ltb y x; lra. Qed.

Lemma min_glb (x y z : Q) : z <= x -> z <= y -> z <= Py.min x y.
Proof. unfold Py.min. intros. cases_ltb y x; lra. Qed.

Lemma max_ge_l (x y : Q) : x <= Py.max x y.
Proof. unfold Py.max. cases_ltb x y; lra. Qed.

Lemma max_lub (x y z : Q) : x <= z -> y <= z -> Py.max x y <= z.
Proof. unfold Py.max. intros. cases_ltb x y; lra. Qed.

(** [Py.min] is the minimum of the order on the rationals. *)
Lemma min_is_Qmin (x y : Q) : Py.min x y == Qmin x y.
Proof.
  unfold Py.min. cases_ltb y x.
  - rewrite Q.min_r; lra.
  - rewrite Q.min_l; lra.
Qed.

Lemma abs_opp_pos (a : Q) : 0 < a -> Py.abs (- a) = a.
Proof.
  destruct a as [n d]. unfold Qlt, Py.abs, Qabs, Qopp. simpl.
  intro H. f_equal. lia.
Qed.

Lemma ltb_opp_pos (a : Q) : 0 < a -> Py.ltb 0 (- a) = false.
Proof. intro H. apply ltb_false. lra. Qed.

(* ------------------------------------------------------------------ *)
(** ** Battery *)
(* ------------------------------------------------------------------ *)

Lemma Battery_charge_in_bounds (b : Battery) (p t : Q) :
  in_bounds b -> 0 <= p * t -> in_bounds (Battery_charge b p t).
Proof.
  unfold in_bounds. simpl. intros [Hlo Hhi] He. split.
  - apply min_glb; lra.
  - apply min_le_l.
Qed.

Lemma Battery_discharge_in_bounds (b : Battery) (p t : Q) :
  in_bounds b -> 0 <= p * t -> in_bounds (Battery_discharge b p t).
Proof.
  unfold in_bounds. simpl. intros [Hlo Hhi] He. split.
  - apply max_ge_l.
  - apply max_lub; lra.
Qed.

Lemma battery_calls_capacity (cs : list BatteryCall) (b : Battery) :
  capacity (battery_calls cs b) = capacity b.
Proof.
  revert b. induction cs as [|c cs IH]; intro b; simpl; [reflexivity|].
  unfold battery_calls in IH. rewrite IH. destruct c; reflexivity.
Qed.

Lemma battery_calls_in_bounds (cs : list BatteryCall) (b : Battery) :
  in_bounds b -> Forall (fun c => 0 <= energy_of c) cs ->
  in_bounds (battery_calls cs b).
Proof.
  revert b. induction cs as [|c cs IH]; intros b Hb Hcs; simpl; [exact Hb|].
  inversion Hcs as [|c' cs' Hc Hrest]; subst.
  apply IH; [|exact Hrest].
  destruct c; simpl in *.
  - apply Battery_charge_in_bounds; assumption.
  - apply Battery_discharge_in_bounds; assumption.
Qed.

Lemma Forall_prefix {A : Type} (P : A -> Prop) (n : nat) (l : list A) :
  Forall P l -> Forall P (firstn n l).
Proof.
  revert l. induction n as [|n IH]; intros l Hl; simpl; [constructor|].
  destruct l as [|x l]; [constructor|].
  inversion Hl; subst. constructor; auto.
Qed.

Lemma Battery_init_in_bounds (id : Z) (cap : Q) :
  in_bounds (Battery_init id cap) <-> 0 <= cap.
Proof.
  unfold in_bounds, Battery_init. simpl.
  assert (Hhalf : cap / 2 == cap * (1 # 2)) by (unfold Qdiv; reflexivity).
  rewrite Hhalf. split; [intros [H1 H2]|intro H; split]; lra.
Qed.

Lemma max_is_Qmax (x y : Q) : Py.max x y == Qmax x y.
Proof.
  unfold Py.max. cases_ltb x y.
  - rewrite Q.max_r; lra.
  - rewrite Q.max_l; lra.
Qed.

(** C6 (as amended): from a battery constructed with a positive capacity, every
    sequence of [charge] and [discharge] calls that move a non-negative energy
    [power_kw * time_step_h] keeps the state of charge within [0, capacity]
    after each call, and leaves the capacity as constructed.  A further
    [charge] leaves the smaller of the capacity and the state of charge plus
    the energy, so the capacity when the sum reaches it; a further
    [discharge] leaves the larger of 0 and the state of charge less the
    energy, so 0 when the difference is not positive; neither changes
    anything else of the battery. *)
Theorem C6_charge_bounds (id : Z) (cap : Q) (cs : list BatteryCall) (n : nat)
        (power_kw time_step_h : Q) :
  0 < cap ->
  Forall (fun c => 0 <= energy_of c) cs ->
  let b := battery_calls (firstn n cs) (Battery_init id cap) in
  let soc := state_of_charge b in
  let energy := power_kw * time_step_h in
  (in_bounds b /\ capacity b = cap)
  /\ (state_of_charge (Battery_charge b power_kw time_step_h) == Qmin cap (soc + energy)
      /\ (cap <= soc + energy ->
          state_of_charge (Battery_charge b power_kw time_step_h) == cap)
      /\ (soc + energy <= cap ->
          state_of_charge (Battery_charge b power_kw time_step_h) == soc + energy)
      /\ Battery_charge b power_kw time_step_h
         = mkBattery (battery_id b) (capacity b)
                     (state_of_charge (Battery_charge b power_kw time_step_h)) (health b))
  /\ (state_of_charge (Battery_discharge b power_kw time_step_h) == Qmax 0 (soc - energy)
      /\ (soc - energy <= 0 ->
          state_of_charge (Battery_discharge b power_kw time_step_h) == 0)
      /\ (0 <= soc - energy ->
          state_of_charge (Battery_discharge b power_kw time_step_h) == soc - energy)
      /\ Battery_discharge b power_kw time_step_h
         = mkBattery (battery_id b) (capacity b)
                     (state_of_charge (Battery_discharge b power_kw time_step_h))
                     (health b)).
Proof.
  intros Hcap Hcs. cbv zeta.
  set (b := battery_calls (firstn n cs) (Battery_init id cap)).
  assert (Hc : capacity b = cap) by apply battery_calls_capacity.
  split; [split; [|exact Hc]|].
  - apply battery_calls_in_bounds.
    + apply Battery_init_in_bounds. lra.
    + apply Forall_prefix. exact Hcs.
  - unfold Battery_charge, Battery_discharge, set_state_of_charge.
    cbn [state_of_charge]. rewrite Hc. split; split.
    + apply min_is_Qmin.
    + split; [|split; [|reflexivity]]; intro H; unfold Py.min;
        cases_ltb (state_of_charge b + power_kw * time_step_h) cap; lra.
    + apply max_is_Qmax.
    + split; [|split; [|reflexivity]]; intro H; unfold Py.max;
        cases_ltb 0 (state_of_charge b - power_kw * time_step_h); lra.
Qed.

Lemma C6_charge_bounds_witness :
  let b := battery_calls (firstn 2 [Charge 50 1; Discharge 7 (1 # 2); Charge 3 1])
                         (Battery_init 1 20) in
  (in_bounds b /\ capacity b = 20)
  /\ (state_of_charge (Battery_charge b 9 (1 # 2)) == Qmin 20 (state_of_charge b + 9 * (1 # 2))
      /\ (20 <= state_of_charge b + 9 * (1 # 2) ->
          state_of_charge (Battery_charge b 9 (1 # 2)) == 20)
      /\ (state_of_charge b + 9 * (1 # 2) <= 20 ->
          state_of_charge (Battery_charge b 9 (1 # 2)) == state_of_charge b + 9 * (1 # 2))
      /\ Battery_charge b 9 (1 # 2)
         = mkBattery (battery_id b) (capacity b)
                     (state_of_charge (Battery_charge b 9 (1 # 2))) (health b))
  /\ (state_of_charge (Battery_discharge b 9 (1 # 2))
      == Qmax 0 (state_of_charge b - 9 * (1 # 2))
      /\ (state_of_charge b - 9 * (1 # 2) <= 0 ->
          state_of_charge (Battery_discharge b 9 (1 # 2)) == 0)
      /\ (0 <= state_of_charge b - 9 * (1 # 2) ->
          state_of_charge (Battery_discharge b 9 (1 # 2))
          == state_of_charge b - 9 * (1 # 2))
      /\ Battery_discharge b 9 (1 # 2)
         = mkBattery (battery_id b) (capacity b)
                     (state_of_charge (Battery_discharge b 9 (1 # 2))) (health b)).
Proof.
  apply (C6_charge_bounds 1 20 [Charge 50 1; Discharge 7 (1 # 2); Charge 3 1] 2 9 (1 # 2)).
  - reflexivity.
  - repeat constructor; simpl; unfold Qle; simpl; lia.
Defined.

(** C6 (as stated) fails: [charge] with a negative power takes the state of
    charge of a battery of capacity 20 from 10 to -20. *)
Lemma C6_counterexample :
  state_of_charge (battery_calls [Charge (-30) 1] (Battery_init 1 20)) == -20
  /\ ~ in_bounds (battery_calls [Charge (-30) 1] (Battery_init 1 20)).
Proof.
  split.
  - vm_compute. reflexivity.
  - intros [Hlo _]. vm_compute in Hlo. apply Hlo. reflexivity.
Qed.

(** The scenario of the specification: capacity 20, state of charge 10,
    [charge(50, 1)] leaves 20. *)
Example charge_clamps :
  state_of_charge (Battery_charge (Battery_init 1 20) 50 1) == 20.
Proof. vm_compute. reflexivity. Qed.

(** C9 (as amended): constructing a battery validates nothing.  For every
    capacity the call returns a battery with that capacity, half of it as
    state of charge and health 100; the state of charge is within
    [0, capacity] exactly when the capacity is not negative. *)
Theorem C9_construction_accepts_any_capacity (id : Z) (cap : Q) :
  exists b : Battery,
    Battery_new id cap = Py.Returned b
    /\ battery_id b = id
    /\ capacity b = cap
    /\ state_of_charge b == cap / 2
    /\ health b == 100
    /\ (in_bounds b <-> 0 <= cap).
Proof.
  exists (Battery_init id cap).
  split; [reflexivity|]. split; [reflexivity|]. split; [reflexivity|].
  split; [reflexivity|]. split; [reflexivity|].
  apply Battery_init_in_bounds.
Qed.

(** C9 (as stated) fails: a battery of capacity -20 is constructed, with a
    state of charge of -10, and no exception is raised. *)
Lemma C9_counterexample :
  Battery_new 1 (-20) = Py.Returned (mkBattery 1 (-20) (-20 / 2) 100)
  /\ (forall e, Battery_new 1 (-20) <> Py.Raised e)
  /\ Battery_new 7 0 = Py.Returned (mkBattery 7 0 (0 / 2) 100).
Proof.
  repeat split. intros e H. discriminate H.
Qed.

(* ------------------------------------------------------------------ *)
(** ** Nanogrid *)
(* ------------------------------------------------------------------ *)

(** C7 (as amended): [update_state] computes [net = solar_output - load_demand],
    charges the battery by [net] when [net > 0] and otherwise discharges it by
    [abs(net)], sets the power balance to [net] whatever the battery absorbed,
    records [solar_output] as the output of the node's solar panel, changes
    nothing else, and returns the snapshot of id, solar output, load demand,
    state of charge after the update and power balance. *)
Theorem C7_update_state (ng : Nanogrid) (solar_output : Q) :
  let net := solar_output - load_demand ng in
  let ng' := fst (Nanogrid_update_state ng solar_output) in
  let snap := snd (Nanogrid_update_state ng solar_output) in
  battery ng' =
    (if Qlt_le_dec 0 net
     then Battery_charge (battery ng) net default_time_step_h
     else Battery_discharge (battery ng) (Py.abs net) default_time_step_h)
  /\ current_power_balance ng' = net
  /\ output (solar_panel ng') = solar_output
  /\ panel_id (solar_panel ng') = panel_id (solar_panel ng)
  /\ nanogrid_id ng' = nanogrid_id ng
  /\ load_demand ng' = load_demand ng
  /\ snap = mkSnapshot (nanogrid_id ng) solar_output (load_demand ng)
                       (state_of_charge (battery ng')) net.
Proof.
  cbv zeta. unfold Nanogrid_update_state. simpl.
  repeat split.
  set (net := solar_output - load_demand ng).
  cases_ltb 0 net; destruct (Qlt_le_dec 0 net); try reflexivity; lra.
Qed.

(** C7 (as stated) fails on "no other state change": the update also
    overwrites the cached output of the node's solar panel. *)
Lemma C7_counterexample :
  solar_panel (Nanogrid_init 1) = mkSolarPanel 1 0
  /\ solar_panel (fst (Nanogrid_update_state (Nanogrid_init 1) 8)) = mkSolarPanel 1 8
  /\ solar_panel (fst (Nanogrid_update_state (Nanogrid_init 1) 8))
     <> solar_panel (Nanogrid_init 1).
Proof.
  repeat split. intro H. discriminate H.
Qed.

(* ------------------------------------------------------------------ *)
(** ** The dict of nanogrids *)
(* ------------------------------------------------------------------ *)

Lemma dict_get_update (k k' : string) (f : Nanogrid -> Nanogrid) (d : Population)
      (ng : Nanogrid) :
  dict_get k d = Some ng ->
  dict_get k (dict_update k' f d) = Some (if String.eqb k k' then f ng else ng).
Proof.
  induction d as [|[k0 v] rest IH]; simpl; [discriminate|].
  intro Hget.
  destruct (String.eqb k' k0) eqn:E'; simpl.
  - apply String.eqb_eq in E'. subst k0.
    destruct (String.eqb k k') eqn:E.
    + injection Hget as ->. reflexivity.
    + exact Hget.
  - destruct (String.eqb k k0) eqn:E0.
    + apply String.eqb_eq in E0. subst k0.
      rewrite String.eqb_sym, E'. exact Hget.
    + apply IH. exact Hget.
Qed.

Lemma total_balance_update (k : string) (f : Nanogrid -> Nanogrid) (d : Population)
      (ng : Nanogrid) :
  dict_get k d = Some ng ->
  total_balance (dict_update k f d)
  == total_balance d - current_power_balance ng + current_power_balance (f ng).
Proof.
  induction d as [|[k0 v] rest IH]; simpl; [discriminate|].
  destruct (String.eqb k k0) eqn:E; intro Hget; simpl.
  - injection Hget as ->. lra.
  - rewrite (IH Hget). lra.
Qed.

Lemma dict_update_keys (k : string) (f : Nanogrid -> Nanogrid) (d : Population) :
  map fst (dict_update k f d) = map fst d.
Proof.
  induction d as [|[k0 v] rest IH]; simpl; [reflexivity|].
  destruct (String.eqb k k0); simpl; [reflexivity|]. rewrite IH. reflexivity.
Qed.

Lemma dict_pop_head (k : string) (pool : list string) :
  dict_pop k (k :: pool) = pool.
Proof. simpl. rewrite String.eqb_refl. reflexivity. Qed.

(* ------------------------------------------------------------------ *)
(** ** The matching engine *)
(* ------------------------------------------------------------------ *)

Lemma balance_after_sale (ng : Nanogrid) (a : Q) :
  current_power_balance (Nanogrid_set_energy_trade ng a)
  = current_power_balance ng - a.
Proof. reflexivity. Qed.

(** What one trade does, when the amount is positive. *)
Lemma market_trade_settles (self : AI_Controller) (pool : list string)
      (seller_id buyer_id : string) (seller_ng buyer_ng : Nanogrid) :
  dict_get seller_id (nanogrids self) = Some seller_ng ->
  dict_get buyer_id (nanogrids self) = Some buyer_ng ->
  0 < trade_amount_of buyer_ng seller_ng ->
  exists (bought : Population) (seller_ng' : Nanogrid),
    market_trade self pool seller_id buyer_id
    = (mkAI_Controller bought
         (Blockchain_add_transaction (blockchain self) seller_id buyer_id
            (trade_amount_of buyer_ng seller_ng)),
       if Py.leb (current_power_balance seller_ng') 0
       then dict_pop seller_id pool else pool)
    /\ dict_get seller_id bought = Some seller_ng'
    /\ bought
       = dict_update buyer_id
           (fun ng => Nanogrid_set_energy_trade ng (- trade_amount_of buyer_ng seller_ng))
           (dict_update seller_id
              (fun ng => Nanogrid_set_energy_trade ng (trade_amount_of buyer_ng seller_ng))
              (nanogrids self)).
Proof.
  intros Hs Hb Ha. unfold market_trade. rewrite Hs, Hb.
  assert (E : Py.leb (trade_amount_of buyer_ng seller_ng) 0 = false)
    by (apply leb_false; exact Ha).
  rewrite E.
  set (a := trade_amount_of buyer_ng seller_ng) in *.
  set (sold := dict_update seller_id _ (nanogrids self)).
  set (bought := dict_update buyer_id _ sold).
  assert (Hsold : dict_get seller_id sold
                  = Some (Nanogrid_set_energy_trade seller_ng a)).
  { unfold sold. rewrite (dict_get_update _ _ _ _ _ Hs), String.eqb_refl. reflexivity. }
  pose proof (dict_get_update seller_id buyer_id
                (fun ng => Nanogrid_set_energy_trade ng (- a)) sold _ Hsold) as Hbought.
  fold bought in Hbought.
  eexists bought, _. rewrite Hbought. split; [reflexivity|].
  split; reflexivity.
Qed.

(** A trade whose amount is not positive changes nothing. *)
Lemma market_trade_skips (self : AI_Controller) (pool : list string)
      (seller_id buyer_id : string) (seller_ng buyer_ng : Nanogrid) :
  dict_get seller_id (nanogrids self) = Some seller_ng ->
  dict_get buyer_id (nanogrids self) = Some buyer_ng ->
  trade_amount_of buyer_ng seller_ng <= 0 ->
  market_trade self pool seller_id buyer_id = (self, pool).
Proof.
  intros Hs Hb Ha. unfold market_trade. rewrite Hs, Hb.
  apply leb_true in Ha. rewrite Ha. reflexivity.
Qed.

(** The effect of one trade on the ledger and on the total balance. *)
Lemma market_trade_effect (self : AI_Controller) (pool : list string)
      (seller_id buyer_id : string) :
  let self' := fst (market_trade self pool seller_id buyer_id) in
  chain (blockchain self') = chain (blockchain self)
  /\ (exists new : list Transaction,
         transactions (blockchain self') = transactions (blockchain self) ++ new
         /\ Forall (fun tx => 0 < tx_amount tx) new)
  /\ total_balance (nanogrids self') == total_balance (nanogrids self)
  /\ map fst (nanogrids self') = map fst (nanogrids self).
Proof.
  cbv zeta.
  assert (Hsame : forall st : AI_Controller * list string,
             st = (self, pool) ->
             chain (blockchain (fst st)) = chain (blockchain self)
             /\ (exists new : list Transaction,
                    transactions (blockchain (fst st))
                    = transactions (blockchain self) ++ new
                    /\ Forall (fun tx => 0 < tx_amount tx) new)
             /\ total_balance (nanogrids (fst st)) == total_balance (nanogrids self)
             /\ map fst (nanogrids (fst st)) = map fst (nanogrids self)).
  { intros st ->. simpl. split; [reflexivity|]. split.
    - exists []. rewrite app_nil_r. split; [reflexivity|constructor].
    - split; reflexivity. }
  destruct (dict_get seller_id (nanogrids self)) as [seller_ng|] eqn:Hs;
    [|apply Hsame; unfold market_trade; rewrite Hs; reflexivity].
  destruct (dict_get buyer_id (nanogrids self)) as [buyer_ng|] eqn:Hb;
    [|apply Hsame; unfold market_trade; rewrite Hs, Hb; reflexivity].
  destruct (Qlt_le_dec 0 (trade_amount_of buyer_ng seller_ng)) as [Ha|Ha];
    [|apply Hsame; eapply market_trade_skips; eassumption].
  destruct (market_trade_settles self pool _ _ _ _ Hs Hb Ha)
    as (bought & seller_ng' & -> & _ & Hbought).
  simpl. split; [reflexivity|]. split.
  - eexists. split; [reflexivity|]. repeat constructor. exact Ha.
  - set (a := trade_amount_of buyer_ng seller_ng) in *.
    pose proof (dict_get_update buyer_id seller_id
                  (fun ng => Nanogrid_set_energy_trade ng a) _ _ Hb) as Hb'.
    split.
    + rewrite Hbought.
      rewrite (total_balance_update _ _ _ _ Hb').
      rewrite (total_balance_update _ _ _ _ Hs).
      rewrite !balance_after_sale. lra.
    + rewrite Hbought, !dict_update_keys. reflexivity.
Qed.

Lemma market_loop_effect (buyers : list string) (st : AI_Controller * list string) :
  let self := fst st in
  let self' := fst (market_loop buyers st) in
  chain (blockchain self') = chain (blockchain self)
  /\ (exists new : list Transaction,
         transactions (blockchain self') = transactions (blockchain self) ++ new
         /\ Forall (fun tx => 0 < tx_amount tx) new)
  /\ total_balance (nanogrids self') == total_balance (nanogrids self)
  /\ map fst (nanogrids self') = map fst (nanogrids self).
Proof.
  cbv zeta. revert st.
  induction buyers as [|buyer_id rest IH]; intros [self pool]; simpl.
  - split; [reflexivity|]. split; [|split; reflexivity].
    exists []. rewrite app_nil_r. split; [reflexivity|constructor].
  - destruct pool as [|seller_id pool'].
    + simpl. split; [reflexivity|]. split; [|split; reflexivity].
      exists []. rewrite app_nil_r. split; [reflexivity|constructor].
    + destruct (market_trade_effect self (seller_id :: pool') seller_id buyer_id)
        as (Hc & (new1 & Ht1 & Hp1) & Hb1 & Hk1).
      destruct (IH (market_trade self (seller_id :: pool') seller_id buyer_id))
        as (Hc2 & (new2 & Ht2 & Hp2) & Hb2 & Hk2).
      split; [congruence|]. split; [|split].
      * exists (new1 ++ new2). split.
        -- rewrite Ht2, Ht1, app_assoc. reflexivity.
        -- apply Forall_app. split; assumption.
      * rewrite Hb2. exact Hb1.
      * congruence.
Qed.

(** C4: when a buyer meets the first seller of the pool and the amount
    [min(abs(buyer balance), seller balance)] is positive, the loop records
    one trade of exactly that amount, takes it off the seller's balance and
    adds it to the buyer's, and goes on to the next buyers with the seller
    removed from the pool when its remaining balance is [<= 0] and still first
    in the pool otherwise.  On seller [A] at +10 and buyer [B] at -4 one call
    records the single trade (A, B, 4), leaves [A] at 6 and in the pool, and
    [B] at 0. *)
Theorem C4_matching :
  (forall (self : AI_Controller) (pool rest : list string)
          (seller_id buyer_id : string) (seller_ng buyer_ng : Nanogrid),
      dict_get seller_id (nanogrids self) = Some seller_ng ->
      dict_get buyer_id (nanogrids self) = Some buyer_ng ->
      seller_id <> buyer_id ->
      ~ In seller_id pool ->
      let a := trade_amount_of buyer_ng seller_ng in
      0 < a ->
      a == Qmin (Qabs (current_power_balance buyer_ng)) (current_power_balance seller_ng)
      /\ exists (self' : AI_Controller) (pool' : list string)
                (seller_ng' buyer_ng' : Nanogrid),
          market_loop (buyer_id :: rest) (self, seller_id :: pool)
          = market_loop rest (self', pool')
          /\ transactions (blockchain self')
             = transactions (blockchain self) ++ [mkTransaction seller_id buyer_id a]
          /\ dict_get seller_id (nanogrids self') = Some seller_ng'
          /\ current_power_balance seller_ng' == current_power_balance seller_ng - a
          /\ dict_get buyer_id (nanogrids self') = Some buyer_ng'
          /\ current_power_balance buyer_ng' == current_power_balance buyer_ng + a
          /\ (current_power_balance seller_ng' <= 0 -> pool' = pool)
          /\ (0 < current_power_balance seller_ng' -> pool' = seller_id :: pool)
          /\ (~ In seller_id pool' <-> current_power_balance seller_ng' <= 0))
  /\
  (exists (A' B' : Nanogrid),
      manage_energy_market_pool two_nodes
      = (mkAI_Controller [("A"%string, A'); ("B"%string, B')]
           (mkBlockchain (chain (blockchain two_nodes))
                         [mkTransaction "A" "B" 4]),
         ["A"%string])
      /\ current_power_balance A' == 6
      /\ current_power_balance B' == 0).
Proof.
  split.
  - intros self pool rest seller_id buyer_id seller_ng buyer_ng Hs Hb Hne Hnin a Ha.
    split; [apply min_is_Qmin|].
    destruct (market_trade_settles self (seller_id :: pool) _ _ _ _ Hs Hb Ha)
      as (bought & seller_ng' & Hstep & Hget & Hbought).
    fold a in Hstep, Hbought.
    assert (Hsb : String.eqb seller_id buyer_id = false)
      by (apply String.eqb_neq; exact Hne).
    assert (Hbs : String.eqb buyer_id seller_id = false)
      by (rewrite String.eqb_sym; exact Hsb).
    pose proof (dict_get_update seller_id seller_id
                  (fun ng => Nanogrid_set_energy_trade ng a) _ _ Hs) as Hs1.
    rewrite String.eqb_refl in Hs1.
    pose proof (dict_get_update seller_id buyer_id
                  (fun ng => Nanogrid_set_energy_trade ng (- a)) _ _ Hs1) as Hs2.
    rewrite Hsb, <- Hbought, Hget in Hs2. injection Hs2 as Hs2.
    pose proof (dict_get_update buyer_id seller_id
                  (fun ng => Nanogrid_set_energy_trade ng a) _ _ Hb) as Hb1.
    rewrite Hbs in Hb1.
    pose proof (dict_get_update buyer_id buyer_id
                  (fun ng => Nanogrid_set_energy_trade ng (- a)) _ _ Hb1) as Hb2.
    rewrite String.eqb_refl, <- Hbought in Hb2.
    rewrite dict_pop_head in Hstep.
    eexists _, _, seller_ng', _.
    split; [simpl; rewrite Hstep; reflexivity|].
    split; [reflexivity|].
    split; [exact Hget|].
    split; [subst seller_ng'; rewrite balance_after_sale; reflexivity|].
    split; [exact Hb2|].
    split; [rewrite balance_after_sale; lra|].
    cases_leb (current_power_balance seller_ng') 0.
    + split; [reflexivity|]. split; [intro; lra|]. tauto.
    + split; [intro; lra|]. split; [reflexivity|].
      split; [intro Hn; exfalso; apply Hn; left; reflexivity|intro; lra].
  - eexists _, _. split; [vm_compute; reflexivity|].
    split; reflexivity.
Qed.

(** The general part of C4 at the scenario: [A] sells 4 to [B] and stays
    first in the pool. *)
Lemma C4_matching_witness :
  trade_amount_of node_B node_A == Qmin (Qabs (-4)) 10
  /\ exists (self' : AI_Controller) (pool' : list string)
            (seller_ng' buyer_ng' : Nanogrid),
      market_loop ["B"%string] (two_nodes, ["A"%string]) = market_loop [] (self', pool')
      /\ transactions (blockchain self')
         = transactions (blockchain two_nodes)
           ++ [mkTransaction "A" "B" (trade_amount_of node_B node_A)]
      /\ dict_get "A" (nanogrids self') = Some seller_ng'
      /\ current_power_balance seller_ng' == 10 - trade_amount_of node_B node_A
      /\ dict_get "B" (nanogrids self') = Some buyer_ng'
      /\ current_power_balance buyer_ng' == -4 + trade_amount_of node_B node_A
      /\ (current_power_balance seller_ng' <= 0 -> pool' = [])
      /\ (0 < current_power_balance seller_ng' -> pool' = ["A"%string])
      /\ (~ In "A"%string pool' <-> current_power_balance seller_ng' <= 0).
Proof.
  refine (proj1 C4_matching two_nodes [] [] "A"%string "B"%string node_A node_B
                eq_refl eq_refl _ _ eq_refl).
  - intro H. discriminate H.
  - intro H. exact H.
Defined.

(** C8: a buyer whose computed trade amount is [<= 0] is skipped, leaving the
    nanogrids, the ledger and the pool of sellers as they were; and every
    transaction that a call of [manage_energy_market] appends to the ledger
    has a strictly positive amount. *)
Theorem C8_no_nonpositive_trade :
  (forall (self : AI_Controller) (pool : list string) (seller_id buyer_id : string)
          (seller_ng buyer_ng : Nanogrid),
      dict_get seller_id (nanogrids self) = Some seller_ng ->
      dict_get buyer_id (nanogrids self) = Some buyer_ng ->
      trade_amount_of buyer_ng seller_ng <= 0 ->
      market_trade self pool seller_id buyer_id = (self, pool))
  /\
  (forall self : AI_Controller,
      exists new : list Transaction,
        transactions (blockchain (manage_energy_market self))
        = transactions (blockchain self) ++ new
        /\ Forall (fun tx => 0 < tx_amount tx) new).
Proof.
  split.
  - intros. eapply market_trade_skips; eassumption.
  - intro self. unfold manage_energy_market, manage_energy_market_pool.
    destruct (market_loop_effect (buyers_of (nanogrids self))
                                 (self, sellers_of (nanogrids self)))
      as (_ & Hnew & _).
    exact Hnew.
Qed.

Lemma C8_no_nonpositive_trade_witness :
  market_trade spent_seller ["A"%string] "A" "B" = (spent_seller, ["A"%string]).
Proof.
  refine (proj1 C8_no_nonpositive_trade spent_seller ["A"%string] "A"%string "B"%string
                _ _ eq_refl eq_refl _).
  vm_compute. discriminate.
Defined.

(** With exact arithmetic a trade leaves the sum of the power balances of the
    population unchanged, and so does a whole call of the loop. *)
Lemma exact_total_balance_preserved (self : AI_Controller) :
  (forall (pool : list string) (seller_id buyer_id : string),
      total_balance (nanogrids (fst (market_trade self pool seller_id buyer_id)))
      == total_balance (nanogrids self))
  /\ total_balance (nanogrids (manage_energy_market self))
     == total_balance (nanogrids self).
Proof.
  split.
  - intros pool seller_id buyer_id.
    apply (market_trade_effect self pool seller_id buyer_id).
  - unfold manage_energy_market, manage_energy_market_pool.
    apply (market_loop_effect (buyers_of (nanogrids self))
                              (self, sellers_of (nanogrids self))).
Qed.

Example total_balance_two_nodes :
  total_balance (nanogrids two_nodes) == 6
  /\ total_balance (nanogrids (manage_energy_market two_nodes)) == 6.
Proof. split; vm_compute; reflexivity. Qed.

(* ------------------------------------------------------------------ *)
(** ** The trade in binary64 arithmetic *)
(* ------------------------------------------------------------------ *)

Lemma dict_get_update_other (k k' : string) (f : Nanogrid -> Nanogrid) (d : Population) :
  k <> k' -> dict_get k (dict_update k' f d) = dict_get k d.
Proof.
  intro Hne. induction d as [|[k0 v] rest IH]; simpl; [reflexivity|].
  destruct (String.eqb k' k0) eqn:E'; simpl.
  - apply String.eqb_eq in E'. subst k0.
    destruct (String.eqb k k') eqn:E; [|reflexivity].
    apply String.eqb_eq in E. contradiction.
  - destruct (String.eqb k k0); [reflexivity | exact IH].
Qed.

(** With the exact [set_energy_trade] the loop body is [market_trade]. *)
Lemma market_trade_by_exact :
  market_trade_by Nanogrid_set_energy_trade = market_trade.
Proof. reflexivity. Qed.

(** What one trade does, when the amount is positive, whatever the
    arithmetic of [set_energy_trade]. *)
Lemma market_trade_by_settles (trade : Nanogrid -> Q -> Nanogrid)
      (self : AI_Controller) (pool : list string)
      (seller_id buyer_id : string) (seller_ng buyer_ng : Nanogrid) :
  dict_get seller_id (nanogrids self) = Some seller_ng ->
  dict_get buyer_id (nanogrids self) = Some buyer_ng ->
  seller_id <> buyer_id ->
  0 < trade_amount_of buyer_ng seller_ng ->
  let a := trade_amount_of buyer_ng seller_ng in
  let self' := fst (market_trade_by trade self pool seller_id buyer_id) in
  nanogrids self'
  = dict_update buyer_id (fun ng => trade ng (- a))
      (dict_update seller_id (fun ng => trade ng a) (nanogrids self))
  /\ dict_get seller_id (nanogrids self') = Some (trade seller_ng a)
  /\ dict_get buyer_id (nanogrids self') = Some (trade buyer_ng (- a))
  /\ (forall k, k <> seller_id -> k <> buyer_id ->
                dict_get k (nanogrids self') = dict_get k (nanogrids self))
  /\ transactions (blockchain self')
     = transactions (blockchain self) ++ [mkTransaction seller_id buyer_id a].
Proof.
  intros Hs Hb Hne Ha. cbv zeta. unfold market_trade_by. rewrite Hs, Hb.
  assert (E : Py.leb (trade_amount_of buyer_ng seller_ng) 0 = false)
    by (apply leb_false; exact Ha).
  rewrite E. cbn [fst nanogrids blockchain].
  set (a := trade_amount_of buyer_ng seller_ng) in *.
  assert (Hsb : String.eqb seller_id buyer_id = false)
    by (apply String.eqb_neq; exact Hne).
  assert (Hbs : String.eqb buyer_id seller_id = false)
    by (rewrite String.eqb_sym; exact Hsb).
  pose proof (dict_get_update seller_id seller_id (fun ng => trade ng a) _ _ Hs) as Hs1.
  rewrite String.eqb_refl in Hs1.
  pose proof (dict_get_update seller_id buyer_id (fun ng => trade ng (- a)) _ _ Hs1) as Hs2.
  rewrite Hsb in Hs2.
  pose proof (dict_get_update buyer_id seller_id (fun ng => trade ng a) _ _ Hb) as Hb1.
  rewrite Hbs in Hb1.
  pose proof (dict_get_update buyer_id buyer_id (fun ng => trade ng (- a)) _ _ Hb1) as Hb2.
  rewrite String.eqb_refl in Hb2.
  split; [reflexivity|]. split; [exact Hs2|]. split; [exact Hb2|].
  split; [|reflexivity].
  intros k Hks Hkb. rewrite !dict_get_update_other by assumption. reflexivity.
Qed.

(** C5 (as amended): a trade of [manage_energy_market], of amount [a > 0]
    between a seller and a buyer, sets the seller's power balance to the float
    difference [balance - a] and discharges its battery by [a]; it sets the
    buyer's power balance to the float sum [balance + a] and charges its
    battery by [a]; id, solar panel and load demand of both nodes, and every
    other node, are unchanged.  The differences are rounded to the nearest
    double, so that a balance moves by exactly [a] only when the result is
    a double. *)
Theorem C5_trade_settlement
        (self : AI_Controller) (pool : list string) (seller_id buyer_id : string)
        (seller_ng buyer_ng : Nanogrid) :
  dict_get seller_id (nanogrids self) = Some seller_ng ->
  dict_get buyer_id (nanogrids self) = Some buyer_ng ->
  seller_id <> buyer_id ->
  0 < trade_amount_of buyer_ng seller_ng ->
  let a := trade_amount_of buyer_ng seller_ng in
  let after := nanogrids (fst (market_trade_f64 self pool seller_id buyer_id)) in
  exists seller' buyer' : Nanogrid,
    dict_get seller_id after = Some seller'
    /\ dict_get buyer_id after = Some buyer'
    /\ (current_power_balance seller'
        = Float64.round (current_power_balance seller_ng - a)
        /\ battery seller' = Battery_discharge_f64 (battery seller_ng) a default_time_step_h
        /\ state_of_charge (battery seller')
           = Py.max 0 (Float64.round (state_of_charge (battery seller_ng)
                                      - Float64.round (a * 1)))
        /\ fixed_part seller' = fixed_part seller_ng)
    /\ (current_power_balance buyer'
        = Float64.round (current_power_balance buyer_ng + a)
        /\ battery buyer' = Battery_charge_f64 (battery buyer_ng) a default_time_step_h
        /\ state_of_charge (battery buyer')
           = Py.min (capacity (battery buyer_ng))
                    (Float64.round (state_of_charge (battery buyer_ng)
                                    + Float64.round (a * 1)))
        /\ fixed_part buyer' = fixed_part buyer_ng)
    /\ (forall k, k <> seller_id -> k <> buyer_id ->
                  dict_get k after = dict_get k (nanogrids self))
    /\ (Float64.round (current_power_balance seller_ng - a)
        == current_power_balance seller_ng - a ->
        current_power_balance seller' == current_power_balance seller_ng - a)
    /\ (Float64.round (current_power_balance buyer_ng + a)
        == current_power_balance buyer_ng + a ->
        current_power_balance buyer' == current_power_balance buyer_ng + a).
Proof.
  intros Hs Hb Hne Ha. cbv zeta.
  destruct (market_trade_by_settles Nanogrid_set_energy_trade_f64 self pool
              seller_id buyer_id seller_ng buyer_ng Hs Hb Hne Ha)
    as (_ & Hs' & Hb' & Hother & _).
  set (a := trade_amount_of buyer_ng seller_ng) in *.
  exists (Nanogrid_set_energy_trade_f64 seller_ng a),
         (Nanogrid_set_energy_trade_f64 buyer_ng (- a)).
  split; [exact Hs'|]. split; [exact Hb'|].
  unfold Nanogrid_set_energy_trade_f64.
  assert (Hpos : Py.ltb 0 a = true) by (apply ltb_true; exact Ha).
  rewrite Hpos, (ltb_opp_pos a Ha), (abs_opp_pos a Ha).
  cbn [current_power_balance battery fixed_part nanogrid_id solar_panel load_demand].
  assert (Hplus : Float64.sub (current_power_balance buyer_ng) (- a)
                  = Float64.round (current_power_balance buyer_ng + a)).
  { unfold Float64.sub. apply round_proper. lra. }
  rewrite Hplus.
  split; [repeat split|]. split; [repeat split|].
  split; [exact Hother|].
  split; intro H; exact H.
Qed.

Lemma C5_trade_settlement_witness :
  exists seller' buyer' : Nanogrid,
    dict_get "A" (nanogrids (fst (market_trade_f64 two_nodes ["A"%string] "A" "B")))
    = Some seller'
    /\ dict_get "B" (nanogrids (fst (market_trade_f64 two_nodes ["A"%string] "A" "B")))
       = Some buyer'
    /\ (current_power_balance seller'
        = Float64.round (current_power_balance node_A - trade_amount_of node_B node_A)
        /\ battery seller'
           = Battery_discharge_f64 (battery node_A) (trade_amount_of node_B node_A)
                                   default_time_step_h
        /\ state_of_charge (battery seller')
           = Py.max 0 (Float64.round
                         (state_of_charge (battery node_A)
                          - Float64.round (trade_amount_of node_B node_A * 1)))
        /\ fixed_part seller' = fixed_part node_A)
    /\ (current_power_balance buyer'
        = Float64.round (current_power_balance node_B + trade_amount_of node_B node_A)
        /\ battery buyer'
           = Battery_charge_f64 (battery node_B) (trade_amount_of node_B node_A)
                                default_time_step_h
        /\ state_of_charge (battery buyer')
           = Py.min (capacity (battery node_B))
                    (Float64.round
                       (state_of_charge (battery node_B)
                        + Float64.round (trade_amount_of node_B node_A * 1)))
        /\ fixed_part buyer' = fixed_part node_B)
    /\ (forall k, k <> "A"%string -> k <> "B"%string ->
                  dict_get k (nanogrids (fst (market_trade_f64 two_nodes ["A"%string] "A" "B")))
                  = dict_get k (nanogrids two_nodes))
    /\ (Float64.round (current_power_balance node_A - trade_amount_of node_B node_A)
        == current_power_balance node_A - trade_amount_of node_B node_A ->
        current_power_balance seller'
        == current_power_balance node_A - trade_amount_of node_B node_A)
    /\ (Float64.round (current_power_balance node_B + trade_amount_of node_B node_A)
        == current_power_balance node_B + trade_amount_of node_B node_A ->
        current_power_balance buyer'
        == current_power_balance node_B + trade_amount_of node_B node_A).
Proof.
  refine (C5_trade_settlement two_nodes ["A"%string] "A"%string "B"%string node_A node_B
                              eq_refl eq_refl _ eq_refl).
  intro H. discriminate H.
Defined.

(** The scenario of the specification in binary64: [A] at 10 sells 4 to [B]
    at -4 and is left with 6; here the difference is a double and the
    balances move by exactly 4. *)
Example trade_of_the_scenario_f64 :
  exists A' B' : Nanogrid,
    nanogrids (manage_energy_market_f64 two_nodes) = [("A"%string, A'); ("B"%string, B')]
    /\ current_power_balance A' == 6 /\ current_power_balance B' == 0
    /\ state_of_charge (battery A') == 6 /\ state_of_charge (battery B') == 14.
Proof.
  eexists _, _. split; [vm_compute; reflexivity|].
  repeat split; vm_compute; reflexivity.
Qed.

(** C5 (as stated) fails on "by exactly [a]": a seller with a surplus of
    1e17 sells 1 to a buyer with a deficit of 1; the trade of amount 1 is
    recorded and the seller's balance is still 1e17, as [1e17 - 1] is not a
    double and rounds back to 1e17. *)
Lemma C5_counterexample :
  exists seller' : Nanogrid,
    dict_get "A" (nanogrids (manage_energy_market_f64 large_surplus)) = Some seller'
    /\ transactions (blockchain (manage_energy_market_f64 large_surplus))
       = [mkTransaction "A" "B" (Py.abs (-1))]
    /\ current_power_balance seller' == inject_Z (10 ^ 17)
    /\ ~ current_power_balance seller' == inject_Z (10 ^ 17) - 1.
Proof.
  eexists. split; [vm_compute; reflexivity|].
  split; [vm_compute; reflexivity|].
  split; [vm_compute; reflexivity|].
  intro H. vm_compute in H. discriminate H.
Qed.




(* ------------------------------------------------------------------ *)
(** ** The tick loop and the transaction history *)
(* ------------------------------------------------------------------ *)

Lemma simulation_tick_effect (draws : nat -> Q * Q) (st : AI_Controller) :
  chain (blockchain (simulation_tick draws st)) = chain (blockchain st)
  /\ exists new : list Transaction,
       transactions (blockchain (simulation_tick draws st))
       = transactions (blockchain st) ++ new
       /\ Forall (fun tx => 0 < tx_amount tx) new.
Proof.
  unfold simulation_tick, manage_energy_market, manage_energy_market_pool.
  set (self := mkAI_Controller (update_nanogrids 0 draws (nanogrids st)) (blockchain st)).
  destruct (market_loop_effect (buyers_of (nanogrids self))
                               (self, sellers_of (nanogrids self)))
    as (Hc & Hnew & _).
  split; [exact Hc | exact Hnew].
Qed.

(** C2 (as amended): no iteration of the simulation loop seals a block.  An
    iteration updates the nanogrids and runs the matching engine, whose
    trades are appended to the pending transactions of the ledger; after any
    number of iterations the chain is the one the loop started with, so from
    [init_simulation] it is the genesis block alone, unchanged. *)
Theorem C2_tick_seals_no_block (iterations t : nat) (draws : nat -> nat -> Q * Q)
        (st : AI_Controller) :
  chain (blockchain (run_simulation_thread iterations t draws st))
  = chain (blockchain st)
  /\ (exists new : list Transaction,
         transactions (blockchain (run_simulation_thread iterations t draws st))
         = transactions (blockchain st) ++ new
         /\ Forall (fun tx => 0 < tx_amount tx) new)
  /\ (forall (num_nanogrids : nat) (now : Q),
         st = init_simulation num_nanogrids now ->
         chain (blockchain (run_simulation_thread iterations t draws st))
         = chain (Blockchain_init now)
         /\ List.length (chain (blockchain (run_simulation_thread iterations t draws st)))
            = 1%nat).
Proof.
  assert (Hrun : chain (blockchain (run_simulation_thread iterations t draws st))
                 = chain (blockchain st)
                 /\ exists new : list Transaction,
                      transactions (blockchain (run_simulation_thread iterations t draws st))
                      = transactions (blockchain st) ++ new
                      /\ Forall (fun tx => 0 < tx_amount tx) new).
  { revert t st. induction iterations as [|n IH]; intros t st; simpl.
    - split; [reflexivity|]. exists []. rewrite app_nil_r.
      split; [reflexivity|constructor].
    - destruct (IH (S t) (simulation_tick (draws t) st)) as (Hc & new2 & Ht2 & Hp2).
      destruct (simulation_tick_effect (draws t) st) as (Hc1 & new1 & Ht1 & Hp1).
      split; [congruence|].
      exists (new1 ++ new2). split.
      + rewrite Ht2, Ht1, app_assoc. reflexivity.
      + apply Forall_app. split; assumption. }
  destruct Hrun as (Hc & Hnew).
  split; [exact Hc|]. split; [exact Hnew|].
  intros num_nanogrids now ->. rewrite Hc. split; reflexivity.
Qed.

Lemma C2_tick_seals_no_block_witness :
  chain (blockchain (run_simulation_thread 1 0 (fun _ => scenario_draws)
                                           (init_simulation 2 1700000000)))
  = chain (Blockchain_init 1700000000)
  /\ List.length
       (chain (blockchain (run_simulation_thread 1 0 (fun _ => scenario_draws)
                                                 (init_simulation 2 1700000000))))
     = 1%nat.
Proof.
  exact (proj2 (proj2 (C2_tick_seals_no_block 1 0 (fun _ => scenario_draws)
                                               (init_simulation 2 1700000000)))
               2%nat 1700000000 eq_refl).
Defined.

(** C2 (as stated) fails: after one iteration that produced one trade the
    ledger still holds the genesis block alone, not two blocks; the trade is
    in the pending transactions. *)
Lemma C2_counterexample :
  transactions (blockchain (simulation_tick scenario_draws (init_simulation 2 1700000000)))
  = [mkTransaction (address_of 0) (address_of 1) 4]
  /\ List.length
       (chain (blockchain (simulation_tick scenario_draws (init_simulation 2 1700000000))))
     = 1%nat
  /\ List.length
       (chain (blockchain (simulation_tick scenario_draws (init_simulation 2 1700000000))))
     <> 2%nat.
Proof.
  split; [vm_compute; reflexivity|].
  split; [vm_compute; reflexivity|].
  vm_compute. discriminate.
Qed.

Lemma transaction_records_trades (i : nat) (clock : nat -> Q) (txs : list Transaction) :
  map trade_of (transaction_records i clock txs) = txs.
Proof.
  revert i. induction txs as [|[s r a] txs IH]; intro i; simpl; [reflexivity|].
  rewrite IH. reflexivity.
Qed.

Lemma transaction_records_timestamps (i : nat) (clock : nat -> Q) (txs : list Transaction) :
  map timestamp (transaction_records i clock txs)
  = map (fun j => Py.int (clock j)) (seq i (List.length txs)).
Proof.
  revert i. induction txs as [|tx txs IH]; intro i; simpl; [reflexivity|].
  rewrite IH. reflexivity.
Qed.

(** C3 (as amended): in simulation mode the history query returns, in the
    order in which they were added (oldest first), one record per transaction
    of the ledger's pending list, with the sender, receiver and amount of the
    transaction and the time of the query as timestamp; the sealed blocks of
    the chain are not read. *)
Theorem C3_history_is_pending_list (st : AI_Controller) (clock : nat -> Q) :
  map trade_of (get_blockchain_transactions st clock) = transactions (blockchain st)
  /\ map timestamp (get_blockchain_transactions st clock)
     = map (fun i => Py.int (clock i))
           (seq 0 (List.length (transactions (blockchain st))))
  /\ (forall (sealed : list Block) (d : Population),
         get_blockchain_transactions
           (mkAI_Controller d (mkBlockchain sealed (transactions (blockchain st)))) clock
         = get_blockchain_transactions st clock).
Proof.
  unfold get_blockchain_transactions. split; [|split].
  - apply transaction_records_trades.
  - apply transaction_records_timestamps.
  - intros sealed d. reflexivity.
Qed.

(** C3 (as stated) fails.  After one iteration with one trade no sealed block
    holds a transaction, yet the query returns the trade; and a trade that is
    sealed in a block is not returned. *)
Lemma C3_counterexample :
  (sealed_transactions
     (blockchain (simulation_tick scenario_draws (init_simulation 2 1700000000))) = []
   /\ get_blockchain_transactions
        (simulation_tick scenario_draws (init_simulation 2 1700000000))
        (fun _ => 1700000002 + (1 # 2))
      = [mkTransactionRecord (address_of 0) (address_of 1) 4 1700000002])
  /\
  (sealed_transactions sealed_trade = [mkTransaction "A" "B" 4]
   /\ get_blockchain_transactions (mkAI_Controller [] sealed_trade)
                                  (fun _ => 1700000002 + (1 # 2)) = []).
Proof.
  split; split; vm_compute; reflexivity.
Qed.

(* ------------------------------------------------------------------ *)
(** ** The chain of blocks *)
(* ------------------------------------------------------------------ *)

Lemma last_block_snoc (c : list Block) (b : Block) : last_block (c ++ [b]) = Some b.
Proof. unfold last_block. rewrite rev_unit. reflexivity. Qed.

Lemma linked_snoc (c : list Block) (b : Block) :
  linked_by_block_hash c ->
  (forall last, last_block c = Some last -> block_previous_hash b = Blockchain_hash last) ->
  linked_by_block_hash (c ++ [b]).
Proof.
  intros Hc Hlast i p b0 Hp Hb0.
  destruct (Nat.lt_ge_cases (S i) (List.length c)) as [Hlt|Hge].
  - rewrite nth_error_app1 in Hp by lia. rewrite nth_error_app1 in Hb0 by lia.
    eapply Hc; eassumption.
  - assert (Hlen : S i = List.length c).
    { assert (Hsome : nth_error (c ++ [b]) (S i) <> None) by congruence.
      apply nth_error_Some in Hsome. rewrite length_app in Hsome. simpl in Hsome. lia. }
    rewrite nth_error_app2 in Hb0 by lia.
    rewrite Hlen, Nat.sub_diag in Hb0. simpl in Hb0. injection Hb0 as <-.
    apply Hlast.
    destruct (exists_last (l := c)) as (c' & x & ->).
    { intro Hnil. subst c. simpl in Hlen. discriminate. }
    rewrite last_block_snoc.
    rewrite length_app in Hlen. simpl in Hlen.
    rewrite nth_error_app1 in Hp by (rewrite length_app; simpl; lia).
    rewrite nth_error_app2 in Hp by lia.
    replace (i - List.length c')%nat with 0%nat in Hp by lia.
    simpl in Hp. exact Hp.
Qed.

Lemma new_block_hash_reproducible (bc : Blockchain) (p : option string) (now : Q) :
  hash_reproducible (snd (Blockchain_new_block bc p now)).
Proof. reflexivity. Qed.

Lemma new_block_chain (bc : Blockchain) (p : option string) (now : Q) :
  chain (fst (Blockchain_new_block bc p now))
  = chain bc ++ [snd (Blockchain_new_block bc p now)].
Proof. reflexivity. Qed.

Lemma new_block_default_link (bc : Blockchain) (p : option string) (now : Q)
      (last : Block) :
  p = None \/ p = Some EmptyString ->
  last_block (chain bc) = Some last ->
  block_previous_hash (snd (Blockchain_new_block bc p now)) = Blockchain_hash last.
Proof.
  intros Hp Hlast. unfold Blockchain_new_block. simpl. rewrite Hlast.
  destruct Hp as [-> | ->]; reflexivity.
Qed.

Lemma ledger_call_ok (g : Block) (bc : Blockchain) (c : LedgerCall) :
  chain_ok g bc -> default_link c -> chain_ok g (ledger_call bc c).
Proof.
  intros [Hfirst Hlinked Hhashes] Hc. destruct c as [s r a|p now].
  - constructor; assumption.
  - unfold ledger_call. constructor; rewrite new_block_chain.
    + rewrite nth_error_app1; [exact Hfirst|].
      apply nth_error_Some. congruence.
    + apply linked_snoc; [exact Hlinked|].
      intros last Hlast. apply new_block_default_link; assumption.
    + apply Forall_app. split; [exact Hhashes|].
      constructor; [|constructor]. apply new_block_hash_reproducible.
Qed.

Lemma ledger_calls_ok (g : Block) (cs : list LedgerCall) (bc : Blockchain) :
  chain_ok g bc -> Forall default_link cs -> chain_ok g (ledger_calls cs bc).
Proof.
  revert bc. induction cs as [|c cs IH]; intros bc Hok Hcs; simpl; [exact Hok|].
  inversion Hcs; subst. apply IH; [|assumption].
  apply ledger_call_ok; assumption.
Qed.

(** C1 (as amended): a ledger is constructed with one sealed genesis block,
    of index 1, without transactions and with previous hash ["0"], and
    nothing pending.  After any sequence of [add_transaction] and
    [new_block()] calls (no previous hash passed) the genesis block is still
    the first of the chain, each later block holds as previous hash
    [Blockchain.hash] of the whole block before it (its stored hash
    included), and the stored hash of every block is the hash of its own
    index, timestamp, transactions and previous hash. *)
Theorem C1_chain_integrity (now : Q) (cs : list LedgerCall) :
  Forall default_link cs ->
  exists g : Block,
    Blockchain_init now = mkBlockchain [g] []
    /\ is_genesis g
    /\ nth_error (chain (ledger_calls cs (Blockchain_init now))) 0 = Some g
    /\ linked_by_block_hash (chain (ledger_calls cs (Blockchain_init now)))
    /\ Forall hash_reproducible (chain (ledger_calls cs (Blockchain_init now))).
Proof.
  intro Hcs.
  set (g := snd (Blockchain_new_block (mkBlockchain [] []) (Some "0"%string) now)).
  exists g.
  assert (Hinit : Blockchain_init now = mkBlockchain [g] []) by reflexivity.
  assert (Hg : is_genesis g) by (repeat split).
  assert (Hok : chain_ok g (Blockchain_init now)).
  { rewrite Hinit. constructor; simpl.
    - reflexivity.
    - intros i p b Hp Hb. destruct i; simpl in Hb; [discriminate|].
      destruct i; discriminate.
    - constructor; [apply Hg|constructor]. }
  destruct (ledger_calls_ok g cs _ Hok Hcs) as [H1 H2 H3].
  repeat split; try assumption; apply Hg.
Qed.

Lemma C1_chain_integrity_witness :
  exists g : Block,
    Blockchain_init 1700000000 = mkBlockchain [g] []
    /\ is_genesis g
    /\ nth_error
         (chain (ledger_calls [AddTransaction "A" "B" 4; NewBlock None (17000000015 # 10)]
                              (Blockchain_init 1700000000))) 0 = Some g
    /\ linked_by_block_hash
         (chain (ledger_calls [AddTransaction "A" "B" 4; NewBlock None (17000000015 # 10)]
                              (Blockchain_init 1700000000)))
    /\ Forall hash_reproducible
         (chain (ledger_calls [AddTransaction "A" "B" 4; NewBlock None (17000000015 # 10)]
                              (Blockchain_init 1700000000))).
Proof.
  apply (C1_chain_integrity 1700000000
           [AddTransaction "A" "B" 4; NewBlock None (17000000015 # 10)]).
  constructor; [exact I|]. constructor; [left; reflexivity|]. constructor.
Defined.

(** C1 (as stated) fails on the link: the block that [new_block()] appends
    after the genesis block holds as previous hash the hash of the whole
    genesis block, which is not the hash stored in the genesis block. *)
Lemma C1_counterexample :
  chain (ledger_calls [NewBlock None 1700000001] (Blockchain_init 1700000000))
  = [ mkBlock 1 1700000000 [] "0"
        (Some "1718876881ea475b8c3db05cbf0c606241fe2f9b0b92d0da2e7b22dac8af49b1"%string);
      mkBlock 2 1700000001 []
        "a8def4618baee8ae772e8b8f2eddf848c11c702fc3403b16241faa9549bf90d5"
        (Some "5c2acc47e167eae3398153f604df85e65ab3ae0f4ce6c48281848e5a92f9d933"%string) ]
  /\ ~ linked_by_stored_hash
         (chain (ledger_calls [NewBlock None 1700000001] (Blockchain_init 1700000000))).
Proof.
  assert (Hc : chain (ledger_calls [NewBlock None 1700000001] (Blockchain_init 1700000000))
               = [ mkBlock 1 1700000000 [] "0"
                     (Some "1718876881ea475b8c3db05cbf0c606241fe2f9b0b92d0da2e7b22dac8af49b1"%string);
                   mkBlock 2 1700000001 []
                     "a8def4618baee8ae772e8b8f2eddf848c11c702fc3403b16241faa9549bf90d5"
                     (Some "5c2acc47e167eae3398153f604df85e65ab3ae0f4ce6c48281848e5a92f9d933"%string) ])
    by (vm_compute; reflexivity).
  split; [exact Hc|].
  rewrite Hc. intro H.
  specialize (H 0%nat _ _ eq_refl eq_refl). simpl in H. discriminate H.
Qed.

(* ------------------------------------------------------------------ *)
(** ** Batteries in the running simulation *)
(* ------------------------------------------------------------------ *)

Lemma abs_nonneg (x : Q) : 0 <= Py.abs x.
Proof. apply Qabs_nonneg. Qed.

Lemma update_state_battery_ok (ng : Nanogrid) (solar_output : Q) :
  battery_ok ng -> battery_ok (fst (Nanogrid_update_state ng solar_output)).
Proof.
  intros [Hb Hc]. unfold Nanogrid_update_state. cbn [fst battery]. split.
  - set (net := solar_output - load_demand ng).
    unfold default_time_step_h.
    cases_ltb 0 net.
    + apply Battery_charge_in_bounds; [exact Hb | lra].
    + apply Battery_discharge_in_bounds; [exact Hb|].
      pose proof (abs_nonneg net). lra.
  - destruct (Py.ltb 0 (solar_output - load_demand ng)); exact Hc.
Qed.

Lemma set_energy_trade_battery_ok (ng : Nanogrid) (amount : Q) :
  battery_ok ng -> battery_ok (Nanogrid_set_energy_trade ng amount).
Proof.
  intros [Hb Hc]. unfold Nanogrid_set_energy_trade. cbn [battery]. split.
  - unfold default_time_step_h. cases_ltb 0 amount.
    + apply Battery_discharge_in_bounds; [exact Hb | lra].
    + apply Battery_charge_in_bounds; [exact Hb|].
      pose proof (abs_nonneg amount). lra.
  - destruct (Py.ltb 0 amount); exact Hc.
Qed.

(** X1: whatever the solar output or the traded amount, [update_state] and
    [set_energy_trade] keep the state of charge of the node's battery within
    [0, capacity] and leave the capacity alone: both pass a non-negative
    power to the battery. *)
Theorem node_operations_keep_battery_in_bounds (ng : Nanogrid) (x : Q) :
  in_bounds (battery ng) ->
  (in_bounds (battery (fst (Nanogrid_update_state ng x)))
   /\ capacity (battery (fst (Nanogrid_update_state ng x))) = capacity (battery ng))
  /\ (in_bounds (battery (Nanogrid_set_energy_trade ng x))
      /\ capacity (battery (Nanogrid_set_energy_trade ng x)) = capacity (battery ng)).
Proof.
  intro Hb. unfold Nanogrid_update_state, Nanogrid_set_energy_trade.
  cbn [fst battery]. unfold default_time_step_h.
  pose proof (abs_nonneg x) as Hx.
  pose proof (abs_nonneg (x - load_demand ng)) as Hn.
  split; split.
  - cases_ltb 0 (x - load_demand ng).
    + apply Battery_charge_in_bounds; [exact Hb | lra].
    + apply Battery_discharge_in_bounds; [exact Hb | lra].
  - destruct (Py.ltb 0 (x - load_demand ng)); reflexivity.
  - cases_ltb 0 x.
    + apply Battery_discharge_in_bounds; [exact Hb | lra].
    + apply Battery_charge_in_bounds; [exact Hb | lra].
  - destruct (Py.ltb 0 x); reflexivity.
Qed.

Lemma node_operations_keep_battery_in_bounds_witness :
  (in_bounds (battery (fst (Nanogrid_update_state node_A (-300))))
   /\ capacity (battery (fst (Nanogrid_update_state node_A (-300))))
      = capacity (battery node_A))
  /\ (in_bounds (battery (Nanogrid_set_energy_trade node_A (-300)))
      /\ capacity (battery (Nanogrid_set_energy_trade node_A (-300)))
         = capacity (battery node_A)).
Proof.
  apply (node_operations_keep_battery_in_bounds node_A (-300)).
  split; vm_compute; discriminate.
Defined.

Lemma Forall_dict_update (P : Nanogrid -> Prop) (k : string)
      (f : Nanogrid -> Nanogrid) (d : Population) :
  (forall ng, P ng -> P (f ng)) ->
  Forall (fun e => P (snd e)) d ->
  Forall (fun e => P (snd e)) (dict_update k f d).
Proof.
  intros Hf. induction d as [|[k0 v] rest IH]; intro Hd; simpl; [constructor|].
  inversion Hd as [|e l Hv Hrest]; subst. simpl in Hv.
  destruct (String.eqb k k0).
  - constructor; [apply Hf; exact Hv | exact Hrest].
  - constructor; [exact Hv | apply IH; exact Hrest].
Qed.

Lemma Forall_dict_set (P : Nanogrid -> Prop) (k : string) (ng : Nanogrid)
      (d : Population) :
  P ng -> Forall (fun e => P (snd e)) d -> Forall (fun e => P (snd e)) (dict_set k ng d).
Proof.
  intro Hng. induction d as [|[k0 v] rest IH]; intro Hd; simpl.
  - constructor; [exact Hng | constructor].
  - inversion Hd as [|e l Hv Hrest]; subst.
    destruct (String.eqb k k0); constructor; auto.
Qed.

(** A property of the nodes that trades keep is kept by the matching loop. *)
Lemma market_trade_keeps (P : Nanogrid -> Prop) (self : AI_Controller)
      (pool : list string) (seller_id buyer_id : string) :
  (forall ng a, P ng -> P (Nanogrid_set_energy_trade ng a)) ->
  Forall (fun e => P (snd e)) (nanogrids self) ->
  Forall (fun e => P (snd e))
         (nanogrids (fst (market_trade self pool seller_id buyer_id))).
Proof.
  intros HP Hd. unfold market_trade.
  destruct (dict_get seller_id (nanogrids self)); [|exact Hd].
  destruct (dict_get buyer_id (nanogrids self)); [|exact Hd].
  destruct (Py.leb _ 0); [exact Hd|].
  cbn [fst nanogrids].
  apply Forall_dict_update; [intros; apply HP; assumption|].
  apply Forall_dict_update; [intros; apply HP; assumption|].
  exact Hd.
Qed.

Lemma market_loop_keeps (P : Nanogrid -> Prop) (buyers : list string)
      (st : AI_Controller * list string) :
  (forall ng a, P ng -> P (Nanogrid_set_energy_trade ng a)) ->
  Forall (fun e => P (snd e)) (nanogrids (fst st)) ->
  Forall (fun e => P (snd e)) (nanogrids (fst (market_loop buyers st))).
Proof.
  intro HP. revert st.
  induction buyers as [|b rest IH]; intros [self pool] Hd; simpl; [exact Hd|].
  destruct pool as [|s pool']; [exact Hd|].
  apply IH. apply market_trade_keeps; assumption.
Qed.

Lemma update_nanogrids_battery_ok (i : nat) (draws : nat -> Q * Q) (d : Population) :
  Forall (fun e => battery_ok (snd e)) d ->
  Forall (fun e => battery_ok (snd e)) (update_nanogrids i draws d).
Proof.
  revert i. induction d as [|[k v] rest IH]; intros i Hd;
    cbn [update_nanogrids]; [constructor|].
  inversion Hd as [|e l Hv Hrest]; subst. cbn [snd] in Hv.
  constructor; [|apply IH; exact Hrest].
  cbn [snd]. apply update_state_battery_ok. exact Hv.
Qed.

Lemma simulation_tick_battery_ok (draws : nat -> Q * Q) (st : AI_Controller) :
  Forall (fun e => battery_ok (snd e)) (nanogrids st) ->
  Forall (fun e => battery_ok (snd e)) (nanogrids (simulation_tick draws st)).
Proof.
  intro Hd. unfold simulation_tick, manage_energy_market, manage_energy_market_pool.
  apply market_loop_keeps.
  - intros ng a. apply set_energy_trade_battery_ok.
  - cbn [fst nanogrids]. apply update_nanogrids_battery_ok. exact Hd.
Qed.

Lemma init_nanogrids_battery_ok (num i : nat) (d : Population) :
  Forall (fun e => battery_ok (snd e)) d ->
  Forall (fun e => battery_ok (snd e)) (init_nanogrids num i d).
Proof.
  revert i d. induction num as [|num IH]; intros i d Hd; simpl; [exact Hd|].
  apply IH. apply Forall_dict_set; [|exact Hd].
  split; [apply Battery_init_in_bounds; vm_compute; discriminate | reflexivity].
Qed.

(** X2: in the offline simulation the state of charge of every battery stays
    within [0, 20]: from [init_simulation], after any number of iterations
    of the loop, with any samples of solar output and load demand. *)
Theorem simulation_keeps_batteries_in_bounds
        (num_nanogrids iterations t : nat) (now : Q) (draws : nat -> nat -> Q * Q) :
  Forall (fun e => 0 <= state_of_charge (battery (snd e))
                   /\ state_of_charge (battery (snd e)) <= 20
                   /\ capacity (battery (snd e)) = 20)
         (nanogrids (run_simulation_thread iterations t draws
                                           (init_simulation num_nanogrids now))).
Proof.
  assert (Hrun : forall n t st,
             Forall (fun e => battery_ok (snd e)) (nanogrids st) ->
             Forall (fun e => battery_ok (snd e))
                    (nanogrids (run_simulation_thread n t draws st))).
  { induction n as [|n IH]; intros t' st Hst; simpl; [exact Hst|].
    apply IH. apply simulation_tick_battery_ok. exact Hst. }
  eapply Forall_impl; [|apply Hrun; apply init_nanogrids_battery_ok; constructor].
  intros [k ng] [[Hlo Hhi] Hc]. simpl in *.
  rewrite Hc in Hhi. unfold default_capacity_kwh in *. auto.
Qed.

(* ------------------------------------------------------------------ *)
(** ** What the matching engine keeps *)
(* ------------------------------------------------------------------ *)

Lemma dict_get_In (k : string) (ng : Nanogrid) (d : Population) :
  NoDup (map fst d) -> In (k, ng) d -> dict_get k d = Some ng.
Proof.
  induction d as [|[k0 v] rest IH]; simpl; intros Hnd Hin; [contradiction|].
  inversion Hnd as [|x l Hnotin Hnd']; subst.
  destruct Hin as [Heq | Hin].
  - injection Heq as -> ->. rewrite String.eqb_refl. reflexivity.
  - destruct (String.eqb k k0) eqn:E.
    + apply String.eqb_eq in E. subst k0. exfalso. apply Hnotin.
      apply (in_map fst) in Hin. exact Hin.
    + apply IH; assumption.
Qed.

Lemma filter_keys_In (f : string * Nanogrid -> bool) (k : string) (d : Population) :
  In k (map fst (filter f d)) -> exists ng, In (k, ng) d /\ f (k, ng) = true.
Proof.
  intro Hin. apply in_map_iff in Hin. destruct Hin as ([k' ng] & Hk & Hf).
  simpl in Hk. subst k'. apply filter_In in Hf. exists ng. exact Hf.
Qed.

Lemma filter_keys_NoDup (f : string * Nanogrid -> bool) (d : Population) :
  NoDup (map fst d) -> NoDup (map fst (filter f d)).
Proof.
  induction d as [|[k v] rest IH]; simpl; intro Hnd; [constructor|].
  inversion Hnd as [|x l Hnotin Hnd']; subst.
  destruct (f (k, v)); simpl; [|apply IH; exact Hnd'].
  constructor; [|apply IH; exact Hnd'].
  intro Hin. apply Hnotin. apply in_map_iff in Hin.
  destruct Hin as (e & He & Hf). apply filter_In in Hf.
  apply in_map_iff. exists e. split; [exact He | apply Hf].
Qed.

Lemma sellers_of_surplus (k : string) (d : Population) :
  NoDup (map fst d) -> In k (sellers_of d) ->
  exists ng, dict_get k d = Some ng /\ 0 < current_power_balance ng.
Proof.
  intros Hnd Hin. apply filter_keys_In in Hin. destruct Hin as (ng & Hin & Hf).
  exists ng. split; [apply dict_get_In; assumption|].
  apply ltb_true. exact Hf.
Qed.

Lemma buyers_of_deficit (k : string) (d : Population) :
  NoDup (map fst d) -> In k (buyers_of d) ->
  exists ng, dict_get k d = Some ng /\ current_power_balance ng < 0.
Proof.
  intros Hnd Hin. apply filter_keys_In in Hin. destruct Hin as (ng & Hin & Hf).
  exists ng. split; [apply dict_get_In; assumption|].
  apply ltb_true. exact Hf.
Qed.

Lemma between_refl (x : Q) : between_zero_and x x.
Proof.
  unfold between_zero_and. destruct (Qlt_le_dec x 0); [right | left]; lra.
Qed.

Lemma between_trans (x y z : Q) :
  between_zero_and x y -> between_zero_and y z -> between_zero_and x z.
Proof. unfold between_zero_and. intros [H|H] [H'|H']; lra. Qed.

Lemma min_le_r_val (x y : Q) : Py.min x y <= y.
Proof. unfold Py.min. cases_ltb y x; lra. Qed.

Lemma trade_amount_bounds (buyer_ng seller_ng : Nanogrid) :
  current_power_balance buyer_ng < 0 ->
  trade_amount_of buyer_ng seller_ng <= current_power_balance seller_ng
  /\ trade_amount_of buyer_ng seller_ng <= - current_power_balance buyer_ng.
Proof.
  intro Hb. unfold trade_amount_of. split; [apply min_le_r_val|].
  eapply Qle_trans; [apply min_le_l|].
  unfold Py.abs. rewrite Qabs_neg; lra.
Qed.

(** One pass of the loop body on a buyer in deficit: every node stays between
    0 and the balance it had, and the other nodes in deficit are not touched. *)
Lemma market_trade_between (self : AI_Controller) (pool : list string)
      (seller_id buyer_id : string) :
  (forall ng, dict_get buyer_id (nanogrids self) = Some ng ->
              current_power_balance ng < 0) ->
  forall (k : string) (ng : Nanogrid),
    dict_get k (nanogrids self) = Some ng ->
    exists ng',
      dict_get k (nanogrids (fst (market_trade self pool seller_id buyer_id))) = Some ng'
      /\ between_zero_and (current_power_balance ng) (current_power_balance ng')
      /\ (k <> buyer_id -> current_power_balance ng < 0 -> ng' = ng).
Proof.
  intros Hdef k ng Hk.
  assert (Hsame : exists ng',
             dict_get k (nanogrids self) = Some ng'
             /\ between_zero_and (current_power_balance ng) (current_power_balance ng')
             /\ (k <> buyer_id -> current_power_balance ng < 0 -> ng' = ng)).
  { exists ng. split; [exact Hk|]. split; [apply between_refl | reflexivity]. }
  unfold market_trade.
  destruct (dict_get seller_id (nanogrids self)) as [seller_ng|] eqn:Hs; [|exact Hsame].
  destruct (dict_get buyer_id (nanogrids self)) as [buyer_ng|] eqn:Hb; [|exact Hsame].
  cases_leb (trade_amount_of buyer_ng seller_ng) 0; [exact Hsame|].
  clear Hsame. cbn [fst nanogrids].
  set (a := trade_amount_of buyer_ng seller_ng) in *.
  pose proof (Hdef buyer_ng eq_refl) as Hneg.
  destruct (trade_amount_bounds buyer_ng seller_ng Hneg) as [Has Hab]. fold a in Has, Hab.
  pose proof (dict_get_update k seller_id
                (fun ng => Nanogrid_set_energy_trade ng a) _ _ Hk) as H1.
  pose proof (dict_get_update k buyer_id
                (fun ng => Nanogrid_set_energy_trade ng (- a)) _ _ H1) as H2.
  rewrite H2. eexists. split; [reflexivity|].
  destruct (String.eqb k seller_id) eqn:Eks; destruct (String.eqb k buyer_id) eqn:Ekb.
  - apply String.eqb_eq in Eks, Ekb. subst. rewrite Hs in Hb. injection Hb as ->.
    exfalso. lra.
  - apply String.eqb_eq in Eks. subst k. rewrite Hs in Hk. injection Hk as ->.
    split.
    + rewrite balance_after_sale. left. lra.
    + intros _ Hlt. exfalso. lra.
  - apply String.eqb_eq in Ekb. subst k. rewrite Hb in Hk. injection Hk as ->.
    split.
    + rewrite balance_after_sale. right. lra.
    + intros Hne. exfalso. apply Hne. reflexivity.
  - split; [apply between_refl | reflexivity].
Qed.

Lemma market_loop_between (orig : Population) (buyers : list string)
      (st : AI_Controller * list string) :
  NoDup buyers ->
  (forall b, In b buyers ->
             exists ng, dict_get b (nanogrids (fst st)) = Some ng
                        /\ current_power_balance ng < 0) ->
  (forall k ng0, dict_get k orig = Some ng0 ->
                 exists ng, dict_get k (nanogrids (fst st)) = Some ng
                            /\ between_zero_and (current_power_balance ng0)
                                                (current_power_balance ng)) ->
  forall k ng0, dict_get k orig = Some ng0 ->
                exists ng, dict_get k (nanogrids (fst (market_loop buyers st))) = Some ng
                           /\ between_zero_and (current_power_balance ng0)
                                               (current_power_balance ng).
Proof.
  revert st. induction buyers as [|b rest IH]; intros [self pool] Hnd Hdef Horig;
    cbn [market_loop]; [exact Horig|].
  cbn [snd fst] in *.
  destruct pool as [|s pool']; [exact Horig|].
  inversion Hnd as [|x l Hnotin Hnd']; subst.
  assert (Hb : forall ng, dict_get b (nanogrids self) = Some ng ->
                          current_power_balance ng < 0).
  { intros ng Hng. destruct (Hdef b (or_introl eq_refl)) as (ng' & Hng' & Hlt).
    congruence. }
  apply IH; [exact Hnd' | |].
  - intros b' Hin. destruct (Hdef b' (or_intror Hin)) as (ng & Hng & Hlt).
    destruct (market_trade_between self (s :: pool') s b Hb b' ng Hng)
      as (ng' & Hng' & _ & Hkeep).
    exists ng'. split; [exact Hng'|].
    rewrite (Hkeep (fun E => Hnotin (eq_ind b' (fun x => In x rest) Hin b E)) Hlt).
    exact Hlt.
  - intros k ng0 Hk. destruct (Horig k ng0 Hk) as (ng & Hng & Hbt).
    destruct (market_trade_between self (s :: pool') s b Hb k ng Hng)
      as (ng' & Hng' & Hbt' & _).
    exists ng'. split; [exact Hng'|]. eapply between_trans; eassumption.
Qed.

(** X3: with one entry per address, a call of [manage_energy_market] never
    takes a node past zero: a node in surplus ends with a balance between 0
    and its surplus, a node in deficit with a balance between its deficit and
    0, a node at 0 stays at 0. *)
Theorem market_never_oversells (self : AI_Controller) (k : string) (ng : Nanogrid) :
  NoDup (map fst (nanogrids self)) ->
  dict_get k (nanogrids self) = Some ng ->
  exists ng',
    dict_get k (nanogrids (manage_energy_market self)) = Some ng'
    /\ ((0 <= current_power_balance ng'
         /\ current_power_balance ng' <= current_power_balance ng)
        \/ (current_power_balance ng <= current_power_balance ng'
            /\ current_power_balance ng' <= 0)).
Proof.
  intros Hnd Hk.
  unfold manage_energy_market, manage_energy_market_pool.
  apply (market_loop_between (nanogrids self)); try assumption.
  - apply filter_keys_NoDup. exact Hnd.
  - intros b Hin. apply buyers_of_deficit; assumption.
  - intros k' ng0 Hk'. exists ng0. split; [exact Hk' | apply between_refl].
Qed.

Lemma market_never_oversells_witness :
  exists ng',
    dict_get "A" (nanogrids (manage_energy_market two_nodes)) = Some ng'
    /\ ((0 <= current_power_balance ng'
         /\ current_power_balance ng' <= current_power_balance node_A)
        \/ (current_power_balance node_A <= current_power_balance ng'
            /\ current_power_balance ng' <= 0)).
Proof.
  apply (market_never_oversells two_nodes "A"%string node_A).
  - repeat constructor; simpl; intuition discriminate.
  - reflexivity.
Defined.

Lemma Subseq_nil_l {A : Type} (l : list A) : Subseq [] l.
Proof. induction l; constructor; assumption. Qed.

Lemma Subseq_length {A : Type} (l l' : list A) :
  Subseq l l' -> (List.length l <= List.length l')%nat.
Proof. induction 1; simpl; lia. Qed.

Lemma Subseq_In {A : Type} (l l' : list A) (x : A) :
  Subseq l l' -> In x l -> In x l'.
Proof.
  induction 1; simpl; intro Hin; [contradiction| right; auto |].
  destruct Hin; [left; assumption | right; auto].
Qed.

Lemma Subseq_NoDup {A : Type} (l l' : list A) :
  Subseq l l' -> NoDup l' -> NoDup l.
Proof.
  induction 1; intro Hnd; [constructor| |].
  - inversion Hnd; subst. auto.
  - inversion Hnd as [|y m Hnotin Hnd']; subst. constructor; [|auto].
    intro Hin. apply Hnotin. eapply Subseq_In; eassumption.
Qed.

Lemma dict_pop_incl (k : string) (pool : list string) :
  incl (dict_pop k pool) pool.
Proof.
  induction pool as [|x rest IH]; simpl; [apply incl_refl|].
  destruct (String.eqb k x).
  - apply incl_tl, incl_refl.
  - intros y [Hy|Hy]; [left; exact Hy | right; apply IH; exact Hy].
Qed.

(** What one pass of the loop body records: nothing, or one trade from the
    seller to the buyer; the pool of sellers can only lose members. *)
Lemma market_trade_records (self : AI_Controller) (pool : list string)
      (seller_id buyer_id : string) :
  exists new : list Transaction,
    transactions (blockchain (fst (market_trade self pool seller_id buyer_id)))
    = transactions (blockchain self) ++ new
    /\ (new = [] \/ exists a, new = [mkTransaction seller_id buyer_id a])
    /\ incl (snd (market_trade self pool seller_id buyer_id)) pool.
Proof.
  assert (Hsame : exists new : list Transaction,
             transactions (blockchain self) = transactions (blockchain self) ++ new
             /\ (new = [] \/ exists a, new = [mkTransaction seller_id buyer_id a])
             /\ incl pool pool).
  { exists []. rewrite app_nil_r. split; [reflexivity|].
    split; [left; reflexivity | apply incl_refl]. }
  unfold market_trade.
  destruct (dict_get seller_id (nanogrids self)); [|exact Hsame].
  destruct (dict_get buyer_id (nanogrids self)); [|exact Hsame].
  destruct (Py.leb _ 0); [exact Hsame|].
  cbn [fst snd blockchain]. eexists. split; [reflexivity|].
  split; [right; eexists; reflexivity|].
  match goal with |- incl (if ?c then _ else _) _ => destruct c end;
    [apply dict_pop_incl | apply incl_refl].
Qed.

Lemma market_loop_records (buyers : list string) (st : AI_Controller * list string) :
  exists new : list Transaction,
    transactions (blockchain (fst (market_loop buyers st)))
    = transactions (blockchain (fst st)) ++ new
    /\ Subseq (map tx_receiver new) buyers
    /\ Forall (fun tx => In (tx_sender tx) (snd st)) new.
Proof.
  revert st. induction buyers as [|b rest IH]; intros [self pool]; cbn [market_loop fst snd].
  - exists []. rewrite app_nil_r. repeat split; constructor.
  - destruct pool as [|s pool'].
    + exists []. rewrite app_nil_r. cbn [fst]. split; [reflexivity|].
      split; [apply Subseq_nil_l | constructor].
    + destruct (market_trade_records self (s :: pool') s b) as (new1 & Ht1 & Hnew1 & Hincl).
      destruct (IH (market_trade self (s :: pool') s b)) as (new2 & Ht2 & Hsub & Hsend).
      exists (new1 ++ new2). split; [rewrite Ht2, Ht1, app_assoc; reflexivity|].
      split.
      * destruct Hnew1 as [-> | (a & ->)]; simpl.
        -- apply Subseq_skip. exact Hsub.
        -- apply Subseq_take. exact Hsub.
      * apply Forall_app. split.
        -- destruct Hnew1 as [-> | (a & ->)]; repeat constructor.
        -- eapply Forall_impl; [|exact Hsend]. intros tx Hin. apply Hincl. exact Hin.
Qed.

(** X4: with one entry per address, the trades that a call of
    [manage_energy_market] records go from a node that had a surplus to a node
    that had a deficit, no node buys twice, and there are at most as many
    trades as nodes in deficit. *)
Theorem market_serves_each_buyer_once (self : AI_Controller) :
  NoDup (map fst (nanogrids self)) ->
  exists new : list Transaction,
    transactions (blockchain (manage_energy_market self))
    = transactions (blockchain self) ++ new
    /\ (List.length new <= List.length (buyers_of (nanogrids self)))%nat
    /\ NoDup (map tx_receiver new)
    /\ Forall (fun tx =>
                 (exists ng, dict_get (tx_sender tx) (nanogrids self) = Some ng
                             /\ 0 < current_power_balance ng)
                 /\ (exists ng, dict_get (tx_receiver tx) (nanogrids self) = Some ng
                                /\ current_power_balance ng < 0)) new.
Proof.
  intro Hnd. unfold manage_energy_market, manage_energy_market_pool.
  destruct (market_loop_records (buyers_of (nanogrids self))
                                (self, sellers_of (nanogrids self)))
    as (new & Ht & Hsub & Hsend).
  exists new. split; [exact Ht|]. split; [|split].
  - rewrite <- (length_map tx_receiver). apply Subseq_length. exact Hsub.
  - eapply Subseq_NoDup; [exact Hsub|]. apply filter_keys_NoDup. exact Hnd.
  - apply Forall_forall. intros tx Hin. split.
    + apply sellers_of_surplus; [exact Hnd|].
      rewrite Forall_forall in Hsend. apply Hsend. exact Hin.
    + apply buyers_of_deficit; [exact Hnd|].
      eapply Subseq_In; [exact Hsub|]. apply in_map. exact Hin.
Qed.

Lemma market_serves_each_buyer_once_witness :
  exists new : list Transaction,
    transactions (blockchain (manage_energy_market two_nodes))
    = transactions (blockchain two_nodes) ++ new
    /\ (List.length new <= List.length (buyers_of (nanogrids two_nodes)))%nat
    /\ NoDup (map tx_receiver new)
    /\ Forall (fun tx =>
                 (exists ng, dict_get (tx_sender tx) (nanogrids two_nodes) = Some ng
                             /\ 0 < current_power_balance ng)
                 /\ (exists ng, dict_get (tx_receiver tx) (nanogrids two_nodes) = Some ng
                                /\ current_power_balance ng < 0)) new.
Proof.
  apply (market_serves_each_buyer_once two_nodes).
  repeat constructor; simpl; intuition discriminate.
Defined.

Lemma filter_none {A : Type} (f : A -> bool) (l : list A) :
  Forall (fun x => f x = false) l -> filter f l = [].
Proof.
  induction 1 as [|x l Hx Hl IH]; simpl; [reflexivity|]. rewrite Hx. exact IH.
Qed.

Lemma market_loop_no_seller (buyers : list string) (self : AI_Controller) :
  market_loop buyers (self, []) = (self, []).
Proof. destruct buyers; reflexivity. Qed.

(** X5: when no node has a surplus, or no node has a deficit (an empty
    population included), a call of [manage_energy_market] changes neither the
    nanogrids nor the ledger. *)
Theorem market_idle_without_counterparty (self : AI_Controller) :
  Forall (fun e => current_power_balance (snd e) <= 0) (nanogrids self)
  \/ Forall (fun e => 0 <= current_power_balance (snd e)) (nanogrids self) ->
  manage_energy_market self = self.
Proof.
  intros [H|H]; unfold manage_energy_market, manage_energy_market_pool.
  - unfold sellers_of. rewrite filter_none.
    + simpl. rewrite market_loop_no_seller. reflexivity.
    + eapply Forall_impl; [|exact H]. intros e He. apply ltb_false. exact He.
  - unfold buyers_of. rewrite filter_none.
    + reflexivity.
    + eapply Forall_impl; [|exact H]. intros e He. apply ltb_false. exact He.
Qed.

Lemma market_idle_without_counterparty_witness :
  manage_energy_market spent_seller = spent_seller.
Proof.
  apply (market_idle_without_counterparty spent_seller).
  left. repeat constructor; simpl; unfold Qle; simpl; lia.
Defined.

(* ------------------------------------------------------------------ *)
(** ** What the ledger keeps *)
(* ------------------------------------------------------------------ *)

Lemma ledger_call_chain (bc : Blockchain) (c : LedgerCall) :
  exists more : list Block,
    chain (ledger_call bc c) = chain bc ++ more
    /\ List.length more = seal_count [c]
    /\ map block_index more
       = map (fun i => (Z.of_nat i + 1)%Z) (seq (List.length (chain bc)) (List.length more))
    /\ sealed_transactions (ledger_call bc c) ++ transactions (ledger_call bc c)
       = sealed_transactions bc ++ transactions bc ++ added_transactions [c].
Proof.
  destruct c as [s r a|p now].
  - exists []. simpl. rewrite !app_nil_r. repeat split.
  - exists [snd (Blockchain_new_block bc p now)].
    split; [apply new_block_chain|]. split; [reflexivity|]. split; [reflexivity|].
    unfold sealed_transactions, ledger_call. rewrite new_block_chain, flat_map_app.
    simpl. rewrite !app_nil_r. reflexivity.
Qed.

Lemma ledger_calls_chain (cs : list LedgerCall) (bc : Blockchain) :
  exists more : list Block,
    chain (ledger_calls cs bc) = chain bc ++ more
    /\ List.length more = seal_count cs
    /\ map block_index more
       = map (fun i => (Z.of_nat i + 1)%Z) (seq (List.length (chain bc)) (List.length more))
    /\ sealed_transactions (ledger_calls cs bc) ++ transactions (ledger_calls cs bc)
       = sealed_transactions bc ++ transactions bc ++ added_transactions cs.
Proof.
  revert bc. induction cs as [|c cs IH]; intro bc.
  - exists []. simpl. rewrite !app_nil_r. repeat split.
  - destruct (ledger_call_chain bc c) as (m1 & Hc1 & Hl1 & Hi1 & Ht1).
    destruct (IH (ledger_call bc c)) as (m2 & Hc2 & Hl2 & Hi2 & Ht2).
    exists (m1 ++ m2). cbn [ledger_calls fold_left]. fold (ledger_calls cs (ledger_call bc c)).
    split; [rewrite Hc2, Hc1, app_assoc; reflexivity|].
    split.
    { rewrite length_app, Hl1, Hl2. unfold seal_count. simpl.
      destruct c; simpl; lia. }
    split.
    { rewrite map_app, Hi1, Hi2, Hc1, !length_app, seq_app, map_app. reflexivity. }
    rewrite Ht2, app_assoc, Ht1.
    replace (added_transactions (c :: cs))
      with (added_transactions [c] ++ added_transactions cs)
      by (unfold added_transactions; simpl; rewrite app_nil_r; reflexivity).
    rewrite <- !app_assoc. reflexivity.
Qed.

(** X6: the chain is append-only.  Whatever calls of [add_transaction] and
    [new_block] follow (with any [previous_hash] argument), the blocks already
    in the chain stay as they are and in place, and one block is appended per
    [new_block] call. *)
Theorem chain_is_append_only (cs : list LedgerCall) (bc : Blockchain) :
  exists more : list Block,
    chain (ledger_calls cs bc) = chain bc ++ more
    /\ List.length more = seal_count cs.
Proof.
  destruct (ledger_calls_chain cs bc) as (more & Hc & Hl & _).
  exists more. split; assumption.
Qed.

(** X7: from construction on, after any calls, the blocks carry the indices
    1, 2, 3, ... in chain order, and the chain holds the genesis block plus
    one block per [new_block] call. *)
Theorem block_indices_count_from_one (now : Q) (cs : list LedgerCall) :
  List.length (chain (ledger_calls cs (Blockchain_init now))) = S (seal_count cs)
  /\ map block_index (chain (ledger_calls cs (Blockchain_init now)))
     = map (fun i => (Z.of_nat i + 1)%Z) (seq 0 (S (seal_count cs))).
Proof.
  destruct (ledger_calls_chain cs (Blockchain_init now)) as (more & Hc & Hl & Hi & _).
  rewrite Hc. split.
  - rewrite length_app, Hl. reflexivity.
  - rewrite map_app, Hi, Hl. reflexivity.
Qed.

(** X8: sealing loses and duplicates nothing.  From construction on, after
    any calls, the transactions of the sealed blocks in chain order followed
    by the pending ones are exactly the transactions added, in the order of
    the [add_transaction] calls; [new_block] empties the pending list. *)
Theorem ledger_conserves_transactions (now : Q) (cs : list LedgerCall) :
  sealed_transactions (ledger_calls cs (Blockchain_init now))
  ++ transactions (ledger_calls cs (Blockchain_init now))
  = added_transactions cs
  /\ (forall p t, transactions (ledger_calls (cs ++ [NewBlock p t]) (Blockchain_init now))
                  = []).
Proof.
  split.
  - destruct (ledger_calls_chain cs (Blockchain_init now)) as (more & _ & _ & _ & Ht).
    rewrite Ht. reflexivity.
  - intros p t. unfold ledger_calls. rewrite fold_left_app. reflexivity.
Qed.

(* ------------------------------------------------------------------ *)
(** ** The format of a block hash *)
(* ------------------------------------------------------------------ *)

Lemma compress_length (h block : list Z) :
  List.length h = 8%nat -> List.length (SHA256.compress h block) = 8%nat.
Proof.
  intro Hh. unfold SHA256.compress. rewrite length_map, length_combine, Hh.
  reflexivity.
Qed.

Lemma blocks_length (n : nat) (h bs : list Z) :
  List.length h = 8%nat -> List.length (SHA256.blocks n h bs) = 8%nat.
Proof.
  revert h bs. induction n as [|n IH]; intros h bs Hh; simpl; [exact Hh|].
  apply IH. apply compress_length. exact Hh.
Qed.

Lemma be_bytes_length (n : nat) (x : Z) : List.length (SHA256.be_bytes n x) = n.
Proof. induction n as [|n IH]; simpl; [reflexivity|]. rewrite IH. reflexivity. Qed.

Lemma be_bytes_range (n : nat) (x : Z) :
  Forall (fun b => (0 <= b < 256)%Z) (SHA256.be_bytes n x).
Proof.
  induction n as [|n IH]; simpl; constructor; [|exact IH].
  apply Z.mod_pos_bound. lia.
Qed.

Lemma word_bytes_length (ws : list Z) :
  List.length (List.concat (map (SHA256.be_bytes 4) ws)) = (4 * List.length ws)%nat.
Proof.
  induction ws as [|w ws IH]; [reflexivity|].
  cbn [map List.concat]. rewrite length_app, be_bytes_length, IH. simpl. lia.
Qed.

Lemma word_bytes_range (ws : list Z) :
  Forall (fun b => (0 <= b < 256)%Z) (List.concat (map (SHA256.be_bytes 4) ws)).
Proof.
  induction ws as [|w ws IH]; [constructor|].
  cbn [map List.concat]. apply Forall_app. split; [apply be_bytes_range | exact IH].
Qed.

Lemma hex_digit_lower (d : Z) :
  (0 <= d < 16)%Z -> is_lower_hex (SHA256.hex_digit d) = true.
Proof.
  intro Hd. rewrite <- (Z2Nat.id d) by lia.
  assert (Hn : (Z.to_nat d < 16)%nat) by lia.
  remember (Z.to_nat d) as n eqn:En. clear En Hd.
  do 16 (destruct n as [|n]; [reflexivity|]). lia.
Qed.

Lemma hex_length (bs : list Z) :
  String.length (SHA256.hex bs) = (2 * List.length bs)%nat.
Proof. induction bs as [|b bs IH]; simpl; [reflexivity|]. rewrite IH. lia. Qed.

Lemma hex_lower (bs : list Z) :
  Forall (fun b => (0 <= b < 256)%Z) bs ->
  forallb is_lower_hex (list_ascii_of_string (SHA256.hex bs)) = true.
Proof.
  induction 1 as [|b bs Hb Hbs IH]; [reflexivity|].
  cbn [SHA256.hex list_ascii_of_string forallb].
  rewrite IH, !hex_digit_lower; [reflexivity| |].
  - apply Z.mod_pos_bound. lia.
  - split; [apply Z.div_pos; lia | apply Z.div_lt_upper_bound; lia].
Qed.

(** X9: [Blockchain.hash] returns 64 lower-case hexadecimal digits, whatever
    the block. *)
Theorem block_hash_is_64_hex_digits (b : Block) :
  String.length (Blockchain_hash b) = 64%nat
  /\ forallb is_lower_hex (list_ascii_of_string (Blockchain_hash b)) = true.
Proof.
  unfold Blockchain_hash, SHA256.hexdigest, SHA256.digest. split.
  - rewrite hex_length, word_bytes_length, blocks_length; reflexivity.
  - apply hex_lower, word_bytes_range.
Qed.

(* ------------------------------------------------------------------ *)
(** ** The population that [init_simulation] creates *)
(* ------------------------------------------------------------------ *)

Lemma hex_value_digit (d : Z) :
  (0 <= d < 16)%Z -> hex_value (SHA256.hex_digit d) = d.
Proof.
  intro Hd. rewrite <- (Z2Nat.id d) at 2 by lia.
  rewrite <- (Z2Nat.id d) at 1 by lia.
  assert (Hn : (Z.to_nat d < 16)%nat) by lia.
  remember (Z.to_nat d) as n eqn:En. clear En Hd.
  do 16 (destruct n as [|n]; [reflexivity|]). lia.
Qed.

Lemma unhex_digits (n : Z) (w : nat) (acc : Z) :
  fold_left (fun a c => (a * 16 + hex_value c)%Z)
            (map (fun k => SHA256.hex_digit ((n / 16 ^ Z.of_nat k) mod 16)%Z)
                 (rev (seq 0 w))) acc
  = (acc * 16 ^ Z.of_nat w + n mod 16 ^ Z.of_nat w)%Z.
Proof.
  revert acc. induction w as [|w IH]; intro acc.
  - simpl. rewrite Z.mod_1_r. lia.
  - rewrite seq_S, rev_app_distr. cbn [rev app map fold_left Nat.add].
    rewrite IH, hex_value_digit by (apply Z.mod_pos_bound; lia).
    rewrite Nat2Z.inj_succ, Z.pow_succ_r by lia.
    rewrite (Z.mul_comm 16 (16 ^ Z.of_nat w)).
    rewrite (Z.rem_mul_r n (16 ^ Z.of_nat w) 16) by lia.
    ring.
Qed.

(** Reading back the digits of [hex40] gives the number, below [16^40]. *)
Lemma unhex_hex40 (n : Z) : unhex (hex40 n) = (n mod 16 ^ 40)%Z.
Proof.
  unfold unhex, hex40. rewrite list_ascii_of_string_of_list_ascii.
  rewrite (unhex_digits n 40 0). reflexivity.
Qed.

Lemma address_of_inj (i j : nat) :
  (Z.of_nat i + 1 < 16 ^ 40)%Z -> (Z.of_nat j + 1 < 16 ^ 40)%Z ->
  address_of i = address_of j -> i = j.
Proof.
  intros Hi Hj Heq. unfold address_of in Heq.
  assert (Hdigits : hex40 (Z.of_nat i + 1) = hex40 (Z.of_nat j + 1)).
  { revert Heq. generalize (hex40 (Z.of_nat i + 1)) (hex40 (Z.of_nat j + 1)).
    intros a b H. injection H as H. exact H. }
  clear Heq. rename Hdigits into Heq.
  apply (f_equal unhex) in Heq. rewrite !unhex_hex40 in Heq.
  rewrite !Z.mod_small in Heq by lia. lia.
Qed.

Lemma dict_set_fresh (k : string) (ng : Nanogrid) (d : Population) :
  ~ In k (map fst d) -> dict_set k ng d = d ++ [(k, ng)].
Proof.
  induction d as [|[k0 v] rest IH]; simpl; intro Hnotin; [reflexivity|].
  destruct (String.eqb k k0) eqn:E.
  - apply String.eqb_eq in E. exfalso. apply Hnotin. left. symmetry. exact E.
  - rewrite IH; [reflexivity|]. intro Hin. apply Hnotin. right. exact Hin.
Qed.

Lemma init_nanogrids_appends (num i : nat) (d : Population) :
  (Z.of_nat (i + num) < 16 ^ 40)%Z ->
  (forall j, (i <= j < i + num)%nat -> ~ In (address_of j) (map fst d)) ->
  init_nanogrids num i d
  = d ++ map (fun j => (address_of j, Nanogrid_init (Z.of_nat j + 1))) (seq i num).
Proof.
  revert i d. induction num as [|num IH]; intros i d Hbound Hfresh.
  - simpl. rewrite app_nil_r. reflexivity.
  - cbn [init_nanogrids seq map].
    rewrite dict_set_fresh by (apply Hfresh; lia).
    rewrite IH.
    + rewrite <- app_assoc. reflexivity.
    + lia.
    + intros j Hj. rewrite map_app, in_app_iff. intros [Hin | Hin].
      * apply (Hfresh j); [lia | exact Hin].
      * simpl in Hin. destruct Hin as [Heq|[]].
        apply address_of_inj in Heq; lia.
Qed.

Lemma addresses_NoDup (i num : nat) :
  (Z.of_nat (i + num) < 16 ^ 40)%Z -> NoDup (map address_of (seq i num)).
Proof.
  revert i. induction num as [|num IH]; intros i Hbound; simpl; [constructor|].
  constructor; [|apply IH; lia].
  intro Hin. apply in_map_iff in Hin. destruct Hin as (j & Heq & Hj).
  apply in_seq in Hj. apply address_of_inj in Heq; lia.
Qed.

(** X10: [init_simulation(n)] (for [n] below [16^40]) registers [n]
    nanogrids under [n] different addresses: the [i]-th, in insertion order,
    has the address [0x] followed by the 40 hexadecimal digits of [i + 1],
    the id [i + 1] and the state that the constructor gives. *)
Theorem init_simulation_population (num_nanogrids : nat) (now : Q) :
  (Z.of_nat num_nanogrids < 16 ^ 40)%Z ->
  nanogrids (init_simulation num_nanogrids now)
  = map (fun i => (address_of i, Nanogrid_init (Z.of_nat i + 1))) (seq 0 num_nanogrids)
  /\ NoDup (map fst (nanogrids (init_simulation num_nanogrids now)))
  /\ List.length (nanogrids (init_simulation num_nanogrids now)) = num_nanogrids
  /\ (forall i, (i < num_nanogrids)%nat -> unhex (hex40 (Z.of_nat i + 1)) = (Z.of_nat i + 1)%Z).
Proof.
  intro Hbound. unfold init_simulation. cbn [nanogrids].
  rewrite init_nanogrids_appends; [|simpl; exact Hbound | intros j _ []].
  cbn [app]. split; [reflexivity|]. split; [|split].
  - rewrite map_map. cbn [fst]. apply addresses_NoDup. exact Hbound.
  - rewrite length_map, length_seq. reflexivity.
  - intros i Hi. rewrite unhex_hex40. apply Z.mod_small. lia.
Qed.

Lemma init_simulation_population_witness :
  nanogrids (init_simulation 3 1700000000)
  = map (fun i => (address_of i, Nanogrid_init (Z.of_nat i + 1))) (seq 0 3)
  /\ NoDup (map fst (nanogrids (init_simulation 3 1700000000)))
  /\ List.length (nanogrids (init_simulation 3 1700000000)) = 3%nat
  /\ (forall i, (i < 3)%nat -> unhex (hex40 (Z.of_nat i + 1)) = (Z.of_nat i + 1)%Z).
Proof.
  apply (init_simulation_population 3 1700000000). reflexivity.
Defined.

(* ------------------------------------------------------------------ *)
(** ** The status endpoints *)
(* ------------------------------------------------------------------ *)

Lemma dict_update_fixed (k : string) (f : Nanogrid -> Nanogrid) (d : Population) :
  (forall ng, fixed_part (f ng) = fixed_part ng) ->
  map (fun e => (fst e, fixed_part (snd e))) (dict_update k f d)
  = map (fun e => (fst e, fixed_part (snd e))) d.
Proof.
  intro Hf. induction d as [|[k0 v] rest IH]; simpl; [reflexivity|].
  destruct (String.eqb k k0); simpl.
  - rewrite Hf. reflexivity.
  - rewrite IH. reflexivity.
Qed.

Lemma market_trade_fixed (self : AI_Controller) (pool : list string)
      (seller_id buyer_id : string) :
  map (fun e => (fst e, fixed_part (snd e)))
      (nanogrids (fst (market_trade self pool seller_id buyer_id)))
  = map (fun e => (fst e, fixed_part (snd e))) (nanogrids self).
Proof.
  unfold market_trade.
  destruct (dict_get seller_id (nanogrids self)); [|reflexivity].
  destruct (dict_get buyer_id (nanogrids self)); [|reflexivity].
  destruct (Py.leb _ 0); [reflexivity|].
  cbn [fst nanogrids]. rewrite !dict_update_fixed; reflexivity.
Qed.

Lemma market_loop_fixed (buyers : list string) (st : AI_Controller * list string) :
  map (fun e => (fst e, fixed_part (snd e))) (nanogrids (fst (market_loop buyers st)))
  = map (fun e => (fst e, fixed_part (snd e))) (nanogrids (fst st)).
Proof.
  revert st. induction buyers as [|b rest IH]; intros [self pool]; cbn [market_loop fst snd];
    [reflexivity|].
  destruct pool as [|s pool']; [reflexivity|].
  rewrite IH. apply market_trade_fixed.
Qed.

Lemma update_nanogrids_fixed (i : nat) (draws : nat -> Q * Q) (d : Population) :
  map (fun e => (fst e, fixed_part (snd e))) (update_nanogrids i draws d)
  = map (fun p => (fst (snd p),
                   (nanogrid_id (snd (snd p)),
                    mkSolarPanel (panel_id (solar_panel (snd (snd p)))) (fst (draws (fst p))),
                    snd (draws (fst p)))))
        (combine (seq i (List.length d)) d).
Proof.
  revert i. induction d as [|[k v] rest IH]; intro i; [reflexivity|].
  cbn [update_nanogrids List.length seq combine map]. rewrite IH. reflexivity.
Qed.

(** X11: after an iteration of the simulation loop the status endpoint
    reports the nanogrids in the order of the population, each with its
    address and id and with the solar output and load demand drawn for it in
    that iteration; the trades of the iteration do not alter them. *)
Theorem status_reports_the_samples_of_the_tick (draws : nat -> Q * Q)
        (st : AI_Controller) :
  map (fun s => (status_address s, status_nanogrid_id s,
                 status_solar_output s, status_load_demand s))
      (get_nanogrids_status (simulation_tick draws st))
  = map (fun p => (fst (snd p), nanogrid_id (snd (snd p)),
                   fst (draws (fst p)), snd (draws (fst p))))
        (combine (seq 0 (List.length (nanogrids st))) (nanogrids st)).
Proof.
  unfold get_nanogrids_status, get_grid_status. rewrite map_map. cbn [status_address
    status_nanogrid_id status_solar_output status_load_demand].
  pose proof (market_loop_fixed
                (buyers_of (update_nanogrids 0 draws (nanogrids st)))
                (mkAI_Controller (update_nanogrids 0 draws (nanogrids st)) (blockchain st),
                 sellers_of (update_nanogrids 0 draws (nanogrids st)))) as Hm.
  cbn [fst nanogrids] in Hm. rewrite update_nanogrids_fixed in Hm.
  unfold simulation_tick, manage_energy_market, manage_energy_market_pool.
  cbn [nanogrids].
  apply (f_equal (map (fun q : string * (Z * SolarPanel * Q) =>
                         (fst q, fst (fst (snd q)), output (snd (fst (snd q))), snd (snd q)))))
    in Hm.
  rewrite !map_map in Hm. exact Hm.
Qed.

Lemma update_nanogrids_keys (i : nat) (draws : nat -> Q * Q) (d : Population) :
  map fst (update_nanogrids i draws d) = map fst d.
Proof.
  revert i. induction d as [|[k v] rest IH]; intro i; [reflexivity|].
  cbn [update_nanogrids map fst]. rewrite IH. reflexivity.
Qed.

Lemma status_keys_of_tick (draws : nat -> Q * Q) (st : AI_Controller) :
  map fst (nanogrids (simulation_tick draws st)) = map fst (nanogrids st).
Proof.
  unfold simulation_tick, manage_energy_market, manage_energy_market_pool.
  pose proof (market_loop_fixed
                (buyers_of (update_nanogrids 0 draws (nanogrids st)))
                (mkAI_Controller (update_nanogrids 0 draws (nanogrids st)) (blockchain st),
                 sellers_of (update_nanogrids 0 draws (nanogrids st)))) as Hm.
  apply (f_equal (map fst)) in Hm. rewrite !map_map in Hm. cbn [fst] in Hm.
  etransitivity; [exact Hm|]. cbn [nanogrids].
  apply update_nanogrids_keys.
Qed.

Lemma run_simulation_thread_keys (iterations t : nat) (draws : nat -> nat -> Q * Q)
      (st : AI_Controller) :
  map fst (nanogrids (run_simulation_thread iterations t draws st))
  = map fst (nanogrids st).
Proof.
  revert t st. induction iterations as [|n IH]; intros t st; simpl; [reflexivity|].
  rewrite IH.
  pose proof (status_keys_of_tick (draws t) st) as H. exact H.
Qed.

Lemma div_by_constant (m : Z) (p : positive) :
  inject_Z m / inject_Z (Zpos p) == inject_Z m * (1 # p).
Proof. unfold Qdiv. reflexivity. Qed.

Lemma market_price_of_residues :
  forallb (fun r => Py.leb (Float64.round (10 # 100)) (market_price_of r)
                    && Py.leb (market_price_of r) (market_price_of 99))
          residues_100 = true.
Proof. vm_compute. reflexivity. Qed.

Lemma market_price_range (time_hash : Z) :
  Float64.round (10 # 100) <= market_price_of (time_hash mod 100)
  /\ market_price_of (time_hash mod 100) <= market_price_of 99.
Proof.
  assert (Hm : (0 <= time_hash mod 100 < 100)%Z) by (apply Z.mod_pos_bound; lia).
  pose proof market_price_of_residues as Hall.
  rewrite forallb_forall in Hall.
  specialize (Hall (time_hash mod 100)%Z).
  rewrite andb_true_iff, !leb_true in Hall. apply Hall.
  unfold residues_100. apply in_map_iff.
  exists (Z.to_nat (time_hash mod 100)). split; [lia|].
  apply in_seq. lia.
Qed.

(** The largest market price, at residue 99, is the double
    0.10990000000000001, which is above 0.1099. *)
Example market_price_at_99 :
  market_price_of 99 == 7919129584768281 # 72057594037927936
  /\ (1099 # 10000) < market_price_of 99
  /\ market_price_of 99 < (11 # 100)
  /\ (10 # 100) < Float64.round (10 # 100).
Proof. repeat split; vm_compute; reflexivity. Qed.

(** X12: [get_system_status] raises [ZeroDivisionError] when [NUM_NANOGRIDS]
    is 0; otherwise it returns, whatever the hash of the time, a market price
    from the double 0.10 to the double 0.10990000000000001 (the float sum
    [0.10 + 99 / 10000]), so at least 0.10 and below 0.11, and the number of
    registered nanogrids as [nanogrids_online]. *)
Theorem system_status_price_and_zero_division (MODE : string) (NUM_NANOGRIDS time_hash : Z)
        (st : AI_Controller) :
  (NUM_NANOGRIDS = 0%Z ->
   get_system_status MODE NUM_NANOGRIDS time_hash st = Py.Raised "ZeroDivisionError")
  /\ (NUM_NANOGRIDS <> 0%Z ->
      exists s : SystemStatus,
        get_system_status MODE NUM_NANOGRIDS time_hash st = Py.Returned s
        /\ Float64.round (10 # 100) <= sys_market_price s
        /\ sys_market_price s
           <= Float64.add (Float64.round (10 # 100)) (Float64.div 99 10000)
        /\ (10 # 100) <= sys_market_price s
        /\ sys_market_price s < (11 # 100)
        /\ sys_nanogrids_online s = Z.of_nat (List.length (nanogrids st))
        /\ sys_total_nanogrids s = NUM_NANOGRIDS).
Proof.
  unfold get_system_status. split.
  - intros ->. reflexivity.
  - intro Hne. apply Z.eqb_neq in Hne. rewrite Hne.
    eexists. split; [reflexivity|]. cbn [sys_market_price sys_nanogrids_online
      sys_total_nanogrids].
    destruct (market_price_range time_hash) as [Hlo Hhi].
    destruct market_price_at_99 as (_ & _ & H99 & H10).
    split; [exact Hlo|]. split; [exact Hhi|].
    split; [lra|]. split; [lra|]. split; reflexivity.
Qed.

Lemma system_status_price_and_zero_division_witness :
  get_system_status "simulation" 0 (-7) two_nodes = Py.Raised "ZeroDivisionError"
  /\ exists s : SystemStatus,
       get_system_status "simulation" 2 (-7) two_nodes = Py.Returned s
       /\ Float64.round (10 # 100) <= sys_market_price s
       /\ sys_market_price s
          <= Float64.add (Float64.round (10 # 100)) (Float64.div 99 10000)
       /\ (10 # 100) <= sys_market_price s
       /\ sys_market_price s < (11 # 100)
       /\ sys_nanogrids_online s = Z.of_nat (List.length (nanogrids two_nodes))
       /\ sys_total_nanogrids s = 2%Z.
Proof.
  split.
  - exact (proj1 (system_status_price_and_zero_division "simulation" 0 (-7) two_nodes)
                 eq_refl).
  - apply (proj2 (system_status_price_and_zero_division "simulation" 2 (-7) two_nodes)).
    discriminate.
Defined.

Lemma init_simulation_keys_length (num_nanogrids : nat) (now : Q) :
  (Z.of_nat num_nanogrids < 16 ^ 40)%Z ->
  NoDup (map fst (nanogrids (init_simulation num_nanogrids now)))
  /\ List.length (nanogrids (init_simulation num_nanogrids now)) = num_nanogrids.
Proof.
  intro Hbound. unfold init_simulation. cbn [nanogrids].
  rewrite init_nanogrids_appends; [|simpl; exact Hbound | intros j _ []].
  cbn [app]. split.
  - rewrite map_map. cbn [fst]. apply addresses_NoDup. exact Hbound.
  - rewrite length_map, length_seq. reflexivity.
Qed.

(** X13: in the offline simulation started with a positive [NUM_NANOGRIDS]
    (below [16^40]) the status stays at full health: after any number of
    iterations [nanogrids_online] is [NUM_NANOGRIDS] and [network_health] is
    100. *)
Theorem system_status_full_health (MODE : string) (NUM_NANOGRIDS time_hash : Z)
        (now : Q) (iterations t : nat) (draws : nat -> nat -> Q * Q) :
  (0 < NUM_NANOGRIDS < 16 ^ 40)%Z ->
  exists s : SystemStatus,
    get_system_status MODE NUM_NANOGRIDS time_hash
      (run_simulation_thread iterations t draws
                             (init_simulation (Z.to_nat NUM_NANOGRIDS) now))
    = Py.Returned s
    /\ sys_nanogrids_online s = NUM_NANOGRIDS
    /\ sys_network_health s == 100.
Proof.
  intro Hnum.
  assert (Hlen : Z.of_nat (List.length
                   (nanogrids (run_simulation_thread iterations t draws
                                 (init_simulation (Z.to_nat NUM_NANOGRIDS) now))))
                 = NUM_NANOGRIDS).
  { rewrite <- (length_map fst), run_simulation_thread_keys, length_map.
    destruct (init_simulation_keys_length (Z.to_nat NUM_NANOGRIDS) now) as [_ ->]; lia. }
  unfold get_system_status. rewrite Hlen.
  assert (Hne : (NUM_NANOGRIDS =? 0)%Z = false) by (apply Z.eqb_neq; lia).
  rewrite Hne. eexists. split; [reflexivity|]. split; [reflexivity|].
  cbn [sys_network_health]. unfold Float64.div.
  rewrite (round_proper (inject_Z NUM_NANOGRIDS / inject_Z NUM_NANOGRIDS) 1).
  - vm_compute. reflexivity.
  - unfold Qdiv. apply Qmult_inv_r.
    intro H. unfold Qeq in H. simpl in H. lia.
Qed.

Lemma system_status_full_health_witness :
  exists s : SystemStatus,
    get_system_status "simulation" 2 12345
      (run_simulation_thread 1 0 (fun _ => scenario_draws)
                             (init_simulation (Z.to_nat 2) 1700000000))
    = Py.Returned s
    /\ sys_nanogrids_online s = 2%Z
    /\ sys_network_health s == 100.
Proof.
  apply (system_status_full_health "simulation" 2 12345 1700000000 1 0
                                   (fun _ => scenario_draws)).
  split; reflexivity.
Defined.

(* ------------------------------------------------------------------ *)
(** ** The order book *)
(* ------------------------------------------------------------------ *)

Section StableSort.

Variable before : Order -> Order -> bool.

(** [x] may stand before [y]: [y] need not come before [x]. *)
Let may_precede (x y : Order) : Prop := before y x = false.

Hypothesis before_asym : forall x y, before x y = true -> before y x = false.
Hypothesis may_precede_trans :
  forall x y z, may_precede x y -> may_precede y z -> may_precede x z.

Lemma insert_order_perm (x : Order) (l : list Order) :
  Permutation (insert_order before x l) (x :: l).
Proof.
  induction l as [|y l IH]; simpl; [apply Permutation_refl|].
  destruct (before y x); [|apply Permutation_refl].
  eapply Permutation_trans; [apply perm_skip, IH | apply perm_swap].
Qed.

Lemma stable_sort_perm (l : list Order) : Permutation (stable_sort before l) l.
Proof.
  induction l as [|x l IH]; simpl; [apply Permutation_refl|].
  eapply Permutation_trans; [apply insert_order_perm | apply perm_skip, IH].
Qed.

Lemma insert_order_sorted (x : Order) (l : list Order) :
  StronglySorted may_precede l -> StronglySorted may_precede (insert_order before x l).
Proof.
  induction 1 as [|y l Hl IH Hy]; simpl.
  - constructor; constructor.
  - destruct (before y x) eqn:E.
    + constructor; [exact IH|].
      eapply Permutation_Forall; [apply Permutation_sym, insert_order_perm|].
      constructor; [apply before_asym; exact E | exact Hy].
    + constructor; [constructor; assumption|].
      constructor; [exact E|].
      eapply Forall_impl; [|exact Hy]. intros z Hz.
      eapply may_precede_trans; [exact E | exact Hz].
Qed.

Lemma stable_sort_sorted (l : list Order) : StronglySorted may_precede (stable_sort before l).
Proof.
  induction l as [|x l IH]; simpl; [constructor|].
  apply insert_order_sorted. exact IH.
Qed.

End StableSort.

Lemma StronglySorted_weaken {A : Type} (R R' : A -> A -> Prop) (l : list A) :
  (forall x y, R x y -> R' x y) -> StronglySorted R l -> StronglySorted R' l.
Proof.
  intro HR. induction 1 as [|x l Hl IH Hx]; constructor; [exact IH|].
  eapply Forall_impl; [|exact Hx]. intros y. apply HR.
Qed.

Lemma hash_price_range (base : Q) (h : Z) :
  base <= base + inject_Z (h mod 40) / 1000
  /\ base + inject_Z (h mod 40) / 1000 <= base + (39 # 1000).
Proof.
  assert (Hm : (0 <= h mod 40 < 40)%Z) by (apply Z.mod_pos_bound; lia).
  change 1000 with (inject_Z 1000). rewrite div_by_constant.
  assert (H0 : inject_Z 0 <= inject_Z (h mod 40)) by (rewrite <- Zle_Qle; lia).
  assert (H39 : inject_Z (h mod 40) <= inject_Z 39) by (rewrite <- Zle_Qle; lia).
  change (inject_Z 0) with 0 in H0. change (inject_Z 39) with 39 in H39.
  split; lra.
Qed.

Lemma abs_pos_of_neg (x : Q) : x < 0 -> 0 < Py.abs x.
Proof. intro H. unfold Py.abs. rewrite Qabs_neg; lra. Qed.

Lemma collect_orders_books (addr_hash : string -> Z) (clock : nat -> Q) (i : nat)
      (d : Population) :
  map order_address (fst (collect_orders addr_hash clock i d)) = buyers_of d
  /\ map order_address (snd (collect_orders addr_hash clock i d)) = sellers_of d
  /\ Forall (fun o => (exists ng, In (order_address o, ng) d
                                  /\ current_power_balance ng < 0
                                  /\ order_amount o = Py.abs (current_power_balance ng))
                      /\ 0 < order_amount o
                      /\ (8 # 100) <= order_price o /\ order_price o <= (119 # 1000))
            (fst (collect_orders addr_hash clock i d))
  /\ Forall (fun o => (exists ng, In (order_address o, ng) d
                                  /\ 0 < current_power_balance ng
                                  /\ order_amount o = current_power_balance ng)
                      /\ 0 < order_amount o
                      /\ (11 # 100) <= order_price o /\ order_price o <= (149 # 1000))
            (snd (collect_orders addr_hash clock i d)).
Proof.
  revert i. induction d as [|[address ng] rest IH]; intro i.
  - simpl. repeat split; constructor.
  - destruct (IH (S i)) as (Hb & Hs & Hfb & Hfs).
    assert (Hfb' : Forall (fun o => (exists ng0, In (order_address o, ng0) ((address, ng) :: rest)
                                  /\ current_power_balance ng0 < 0
                                  /\ order_amount o = Py.abs (current_power_balance ng0))
                      /\ 0 < order_amount o
                      /\ (8 # 100) <= order_price o /\ order_price o <= (119 # 1000))
            (fst (collect_orders addr_hash clock (S i) rest))).
    { eapply Forall_impl; [|exact Hfb]. intros o ((ng0 & Hin & H1 & H2) & H3).
      split; [|exact H3]. exists ng0. split; [right; exact Hin | split; assumption]. }
    assert (Hfs' : Forall (fun o => (exists ng0, In (order_address o, ng0) ((address, ng) :: rest)
                                  /\ 0 < current_power_balance ng0
                                  /\ order_amount o = current_power_balance ng0)
                      /\ 0 < order_amount o
                      /\ (11 # 100) <= order_price o /\ order_price o <= (149 # 1000))
            (snd (collect_orders addr_hash clock (S i) rest))).
    { eapply Forall_impl; [|exact Hfs]. intros o ((ng0 & Hin & H1 & H2) & H3).
      split; [|exact H3]. exists ng0. split; [right; exact Hin | split; assumption]. }
    clear Hfb Hfs.
    cbn [collect_orders]. unfold buyers_of, sellers_of in *. cbn [filter snd].
    cases_ltb (current_power_balance ng) 0.
    + assert (E0 : Py.ltb 0 (current_power_balance ng) = false) by (apply ltb_false; lra).
      rewrite E0. cbn [fst snd map order_address]. rewrite Hb, Hs.
      split; [reflexivity|]. split; [reflexivity|]. split; [|exact Hfs'].
      constructor; [|exact Hfb']. cbn [order_address order_amount order_price].
      destruct (hash_price_range (8 # 100) (addr_hash address)) as [Hlo Hhi].
      split; [exists ng; split; [left; reflexivity | split; [exact E | reflexivity]]|].
      split; [apply abs_pos_of_neg; exact E|]. split; [exact Hlo | lra].
    + cases_ltb 0 (current_power_balance ng).
      * cbn [fst snd map order_address]. rewrite Hb, Hs.
        split; [reflexivity|]. split; [reflexivity|]. split; [exact Hfb'|].
        constructor; [|exact Hfs']. cbn [order_address order_amount order_price].
        destruct (hash_price_range (11 # 100) (addr_hash address)) as [Hlo Hhi].
        split; [exists ng; split; [left; reflexivity | split; [exact E0 | reflexivity]]|].
        split; [exact E0|]. split; [exact Hlo | lra].
      * rewrite Hb, Hs. repeat split; assumption.
Qed.

(** X14: [get_market_orders] lists one buy order per node in deficit, for the
    size of the deficit, and one sell order per node in surplus, for the
    surplus, and no order for a node at 0; all amounts are positive; buy
    prices lie in [0.08, 0.119] and sell prices in [0.11, 0.149] whatever the
    hash of the address; the buy orders come highest price first and the sell
    orders lowest price first. *)
Theorem market_orders_book (addr_hash : string -> Z) (clock : nat -> Q)
        (st : AI_Controller) :
  let buy_orders := fst (get_market_orders addr_hash clock st) in
  let sell_orders := snd (get_market_orders addr_hash clock st) in
  Permutation (map order_address buy_orders) (buyers_of (nanogrids st))
  /\ Permutation (map order_address sell_orders) (sellers_of (nanogrids st))
  /\ StronglySorted (fun x y => order_price y <= order_price x) buy_orders
  /\ StronglySorted (fun x y => order_price x <= order_price y) sell_orders
  /\ Forall (fun o => (exists ng, In (order_address o, ng) (nanogrids st)
                                  /\ current_power_balance ng < 0
                                  /\ order_amount o = Py.abs (current_power_balance ng))
                      /\ 0 < order_amount o
                      /\ (8 # 100) <= order_price o /\ order_price o <= (119 # 1000))
            buy_orders
  /\ Forall (fun o => (exists ng, In (order_address o, ng) (nanogrids st)
                                  /\ 0 < current_power_balance ng
                                  /\ order_amount o = current_power_balance ng)
                      /\ 0 < order_amount o
                      /\ (11 # 100) <= order_price o /\ order_price o <= (149 # 1000))
            sell_orders.
Proof.
  cbv zeta. unfold get_market_orders. cbn [fst snd].
  destruct (collect_orders_books addr_hash clock 0 (nanogrids st)) as (Hb & Hs & Hfb & Hfs).
  set (desc := fun x y : Order => Py.ltb (order_price y) (order_price x)).
  set (asc := fun x y : Order => Py.ltb (order_price x) (order_price y)).
  split; [|split; [|split; [|split; [|split]]]].
  - rewrite <- Hb. apply Permutation_map, stable_sort_perm.
  - rewrite <- Hs. apply Permutation_map, stable_sort_perm.
  - eapply StronglySorted_weaken; [|apply (stable_sort_sorted desc)].
    + intros x y H. unfold desc in H. apply ltb_false in H. exact H.
    + intros x y H. unfold desc in *. apply ltb_true in H. apply ltb_false. lra.
    + intros x y z H1 H2. unfold desc in *. apply ltb_false in H1, H2.
      apply ltb_false. lra.
  - eapply StronglySorted_weaken; [|apply (stable_sort_sorted asc)].
    + intros x y H. unfold asc in H. apply ltb_false in H. exact H.
    + intros x y H. unfold asc in *. apply ltb_true in H. apply ltb_false. lra.
    + intros x y z H1 H2. unfold asc in *. apply ltb_false in H1, H2.
      apply ltb_false. lra.
  - eapply Permutation_Forall; [apply Permutation_sym, stable_sort_perm | exact Hfb].
  - eapply Permutation_Forall; [apply Permutation_sym, stable_sort_perm | exact Hfs].
Qed.

(* ------------------------------------------------------------------ *)
(** ** The trades of the live mode *)
(* ------------------------------------------------------------------ *)

Lemma int_le_of_pos (x : Q) : (0 < Py.int x)%Z -> inject_Z (Py.int x) <= x.
Proof.
  destruct x as [n d]. unfold Py.int, Qle. simpl. intro H.
  assert (Hn : (0 <= n)%Z).
  { destruct (Z.lt_ge_cases n 0) as [Hneg|]; [|assumption].
    exfalso. pose proof (Z.quot_opp_l n (Zpos d)) as Ho.
    assert (Hq : (0 <= Z.quot (- n) (Zpos d))%Z) by (apply Z.quot_pos; lia).
    rewrite Ho in Hq by lia. lia. }
  rewrite Z.quot_div_nonneg by lia.
  rewrite Z.mul_1_r, Z.mul_comm. apply Z.mul_div_le. lia.
Qed.


Lemma int_min_le (x y : Z) : (int_min x y <= x /\ int_min x y <= y)%Z.
Proof. unfold int_min. destruct (Z.ltb_spec y x); lia. Qed.


Lemma live_calls_of_seller_sound (d : Population) (seller_address : string)
      (seller_ng : Nanogrid) (buyers : list string) :
  Forall (fun c => call_seller c = seller_address /\ sound_call d seller_ng c)
         (live_calls_of_seller d seller_address seller_ng buyers).
Proof.
  induction buyers as [|b rest IH]; cbn [live_calls_of_seller]; [constructor|].
  destruct (dict_get b d) as [buyer_ng|] eqn:Hb; [|exact IH].
  destruct (negb (String.eqb seller_address b)) eqn:Hne; cbn [andb]; [|exact IH].
  cases_ltb (current_power_balance buyer_ng) 0; [|exact IH].
  set (a := int_min _ _).
  destruct (Z.ltb_spec 0 a) as [Ha|Ha]; [|exact IH].
  constructor; [|exact IH].
  split; [reflexivity|]. exists buyer_ng. cbn [call_buyer call_seller call_amount].
  destruct (int_min_le (Py.int (current_power_balance seller_ng))
                       (Py.int (Py.abs (current_power_balance buyer_ng)))) as [H1 H2].
  fold a in H1, H2.
  split; [exact Hb|]. split; [exact E|].
  split; [apply String.eqb_neq, negb_true_iff; exact Hne|].
  split; [lia|]. split.
  - eapply Qle_trans; [|apply int_le_of_pos; lia]. rewrite <- Zle_Qle. exact H1.
  - eapply Qle_trans; [rewrite <- Zle_Qle; exact H2|].
    eapply Qle_trans; [apply int_le_of_pos; lia|].
    unfold Py.abs. rewrite Qabs_neg; lra.
Qed.

(** X15: every contract call of the trade loop of the live mode goes from a
    node in surplus to a different node in deficit, for a whole number of kWh
    that is at least 1 and exceeds neither the seller's surplus nor the
    buyer's deficit. *)
Theorem live_trades_are_sound (d : Population) :
  Forall (fun c =>
            exists seller_ng,
              In (call_seller c, seller_ng) d
              /\ 0 < current_power_balance seller_ng
              /\ sound_call d seller_ng c)
         (live_trade_calls d).
Proof.
  unfold live_trade_calls.
  assert (H : forall sellers, incl sellers d ->
              Forall (fun c => exists seller_ng,
                          In (call_seller c, seller_ng) d
                          /\ 0 < current_power_balance seller_ng
                          /\ sound_call d seller_ng c)
                     (live_calls_from d sellers)).
  { induction sellers as [|[s ng] rest IH]; intro Hincl; cbn [live_calls_from];
      [constructor|].
    apply Forall_app. split.
    - cases_ltb 0 (current_power_balance ng); [|constructor].
      eapply Forall_impl; [|apply live_calls_of_seller_sound].
      intros c [Hs Hc]. exists ng. rewrite Hs.
      split; [apply Hincl; left; reflexivity|]. split; assumption.
    - apply IH. intros e He. apply Hincl. right. exact He. }
  apply H, incl_refl.
Qed.











(** A call that raises another exception is the last one: the call to [C]
    is never sent. *)
Example live_trades_end_at_another_exception :
  run_live_trades (fun _ _ => Mined) one_seller_two_buyers
  = ([mkTradeCall "A" "B" 8; mkTradeCall "A" "C" 9], None)
  /\ run_live_trades second_call_fails one_seller_two_buyers
     = ([mkTradeCall "A" "B" 8; mkTradeCall "A" "C" 9], Some "ConnectionError")
  /\ run_live_trades (fun _ _ => OtherException "ConnectionError") one_seller_two_buyers
     = ([mkTradeCall "A" "B" 8], Some "ConnectionError").
Proof. repeat split. Qed.

Example live_trades_oversell :
  live_trade_calls one_seller_two_buyers
  = [mkTradeCall "A" "B" 8; mkTradeCall "A" "C" 9].
Proof. reflexivity. Qed.

(* ------------------------------------------------------------------ *)
(** ** The advisory endpoints *)
(* ------------------------------------------------------------------ *)

Lemma fold_sum_nonneg (l : list Q) (acc : Q) :
  0 <= acc -> Forall (fun x => 0 <= x) l -> 0 <= fold_left Qplus l acc.
Proof.
  revert acc. induction l as [|x l IH]; intros acc Hacc Hl; simpl; [exact Hacc|].
  inversion Hl; subst. apply IH; [lra | assumption].
Qed.

Lemma total_surplus_nonneg (d : Population) : 0 <= total_surplus d.
Proof.
  unfold total_surplus, Py.sum. apply fold_sum_nonneg; [lra|].
  apply Forall_forall. intros x Hx. apply filter_In in Hx.
  destruct Hx as [_ Hx]. apply ltb_true in Hx. lra.
Qed.

Lemma total_deficit_nonneg (d : Population) : 0 <= total_deficit d.
Proof.
  unfold total_deficit, Py.sum. apply fold_sum_nonneg; [lra|].
  apply Forall_forall. intros x Hx. apply in_map_iff in Hx.
  destruct Hx as (y & <- & _). apply abs_nonneg.
Qed.

(** X17: [get_ai_recommendations] returns at most four recommendations, in
    the order Energy Trading, Load Management, Battery Management, Market
    Optimization; it never returns Energy Trading together with Load
    Management; and for an empty population it returns Market Optimization
    alone, with an estimated benefit of 0. *)
Theorem recommendations_are_consistent (st : AI_Controller) :
  Subseq (map rec_type (get_ai_recommendations st))
         ["Energy Trading"; "Load Management"; "Battery Management";
          "Market Optimization"]%string
  /\ ~ (In "Energy Trading"%string (map rec_type (get_ai_recommendations st))
        /\ In "Load Management"%string (map rec_type (get_ai_recommendations st)))
  /\ (nanogrids st = [] ->
      get_ai_recommendations st = [market_optimization []]
      /\ rec_estimated_benefit (market_optimization []) == 0).
Proof.
  unfold get_ai_recommendations.
  set (d := nanogrids st).
  pose proof (total_surplus_nonneg d) as Hs.
  pose proof (total_deficit_nonneg d) as Hd.
  split; [|split].
  - destruct (Py.ltb (total_deficit d * (15 # 10)) (total_surplus d));
      destruct (Py.ltb (total_surplus d) (total_deficit d));
      destruct (0 <? low_battery_count d)%Z;
      destruct (Py.ltb (Py.abs (avg_balance d)) 1);
      cbn [app map rec_type energy_trading load_management battery_management
           market_optimization];
      repeat (first [apply Subseq_nil | apply Subseq_take | apply Subseq_skip]).
  - cases_ltb (total_deficit d * (15 # 10)) (total_surplus d);
      cases_ltb (total_surplus d) (total_deficit d).
    + intros _. lra.
    + destruct (0 <? low_battery_count d)%Z;
        destruct (Py.ltb (Py.abs (avg_balance d)) 1);
        cbn [app map rec_type energy_trading load_management battery_management
             market_optimization In];
        intros [_ H]; intuition discriminate.
    + destruct (0 <? low_battery_count d)%Z;
        destruct (Py.ltb (Py.abs (avg_balance d)) 1);
        cbn [app map rec_type energy_trading load_management battery_management
             market_optimization In];
        intros [H _]; intuition discriminate.
    + destruct (0 <? low_battery_count d)%Z;
        destruct (Py.ltb (Py.abs (avg_balance d)) 1);
        cbn [app map rec_type energy_trading load_management battery_management
             market_optimization In];
        intros [H _]; intuition discriminate.
  - intro Hnil. subst d. rewrite Hnil. split; reflexivity.
Qed.

Lemma round_half_even_le (x : Q) (k : Z) :
  x <= inject_Z k -> (Py.round_half_even x <= k)%Z.
Proof.
  destruct x as [n d]. unfold Py.round_half_even. cbn [Qnum Qden].
  intro H. unfold Qle in H. cbn [Qnum Qden inject_Z] in H. rewrite Z.mul_1_r in H.
  pose proof (Z.div_mod n (Zpos d) ltac:(lia)) as Hdm.
  pose proof (Z.mod_pos_bound n (Zpos d) ltac:(lia)) as Hr.
  assert (Hq : (n / Zpos d <= k)%Z).
  { apply Z.div_le_upper_bound; [lia|]. nia. }
  destruct (Z.ltb_spec (2 * (n mod Zpos d)) (Zpos d)); [exact Hq|].
  assert (Hlt : (n / Zpos d < k)%Z) by nia.
  destruct (Z.ltb_spec (Zpos d) (2 * (n mod Zpos d))); [lia|].
  destruct (Z.even (n / Zpos d)); lia.
Qed.

Lemma round2_le (x : Q) (k : Z) : x <= (k # 100) -> Py.round2 x <= (k # 100).
Proof.
  intro H. unfold Py.round2, Qle. simpl.
  apply Z.mul_le_mono_nonneg_r; [lia|].
  apply round_half_even_le.
  assert (Hk : inject_Z k == (k # 100) * 100).
  { unfold Qeq, inject_Z. simpl. lia. }
  rewrite Hk. lra.
Qed.

Lemma predict_faults_loop_ids (i : nat) (uniforms : nat -> Q) (targets : Population) :
  map fault_nanogrid_id (predict_faults_loop i uniforms targets)
  = map (fun e => nanogrid_id (snd e)) targets.
Proof.
  revert i. induction targets as [|[k ng] rest IH]; intro i; [reflexivity|].
  cbn [predict_faults_loop map snd]. rewrite IH. f_equal.
  unfold predict_fault.
  destruct (Py.ltb (7 # 10) _); [reflexivity|].
  destruct (Py.ltb (4 # 10) _); reflexivity.
Qed.

Lemma predict_fault_capped (ng : Nanogrid) (u : Q) :
  fault_probability (predict_fault ng u) <= (95 # 100).
Proof.
  unfold predict_fault.
  set (p := Py.min _ (95 # 100)).
  assert (Hp : p <= (95 # 100)) by apply min_le_r_val.
  destruct (Py.ltb (7 # 10) p); [|destruct (Py.ltb (4 # 10) p)];
    cbn [fault_probability]; apply round2_le; exact Hp.
Qed.

(** X18: [predict_faults] returns one prediction per nanogrid looked at, in
    their order and with their ids (all with the id asked for, when one is),
    and no fault probability above 0.95, whatever the state and the random
    samples. *)
Theorem fault_predictions_are_capped (wanted_id : option Z) (uniforms : nat -> Q)
        (st : AI_Controller) :
  map fault_nanogrid_id (predict_faults wanted_id uniforms st)
  = map (fun e => nanogrid_id (snd e)) (target_nanogrids wanted_id (nanogrids st))
  /\ Forall (fun p => fault_probability p <= (95 # 100)
                      /\ match wanted_id with
                         | Some id => fault_nanogrid_id p = id
                         | None => True
                         end)
            (predict_faults wanted_id uniforms st).
Proof.
  unfold predict_faults. split; [apply predict_faults_loop_ids|].
  assert (Hids : Forall (fun e => match wanted_id with
                                  | Some id => nanogrid_id (snd e) = id
                                  | None => True
                                  end)
                        (target_nanogrids wanted_id (nanogrids st))).
  { destruct wanted_id as [id|]; simpl.
    - apply Forall_forall. intros e He. apply filter_In in He.
      destruct He as [_ He]. apply Z.eqb_eq. exact He.
    - apply Forall_forall. intros; exact I. }
  revert Hids. generalize (target_nanogrids wanted_id (nanogrids st)) 0%nat.
  intro targets.
  induction targets as [|[k ng] rest IH]; intros i Hids; cbn [predict_faults_loop];
    [constructor|].
  inversion Hids as [|e l Hid Hrest]; subst. cbn [snd] in Hid.
  constructor; [|apply IH; exact Hrest].
  split; [apply predict_fault_capped|].
  destruct wanted_id; [|exact I].
  unfold predict_fault.
  destruct (Py.ltb (7 # 10) _); [exact Hid|].
  destruct (Py.ltb (4 # 10) _); exact Hid.
Qed.

Lemma set_energy_trade_nominal (ng : Nanogrid) (a : Q) :
  nominal ng -> nominal (Nanogrid_set_energy_trade ng a).
Proof.
  intros [Hh Hl]. unfold nominal, Nanogrid_set_energy_trade. cbn [battery load_demand].
  split; [|exact Hl]. destruct (Py.ltb 0 a); exact Hh.
Qed.

Lemma update_nanogrids_nominal (i : nat) (draws : nat -> Q * Q) (d : Population) :
  (forall j, snd (draws j) <= 55) ->
  Forall (fun e => nominal (snd e)) d ->
  Forall (fun e => nominal (snd e)) (update_nanogrids i draws d).
Proof.
  intro Hdraws. revert i. induction d as [|[k v] rest IH]; intros i Hd;
    cbn [update_nanogrids]; [constructor|].
  inversion Hd as [|e l Hv Hrest]; subst. cbn [snd] in Hv.
  constructor; [|apply IH; exact Hrest].
  destruct Hv as [Hh _]. unfold nominal, Nanogrid_update_state.
  cbn [snd fst battery load_demand set_load_demand]. split; [|apply Hdraws].
  destruct (Py.ltb 0 _); exact Hh.
Qed.

Lemma run_simulation_thread_nominal (iterations t : nat) (draws : nat -> nat -> Q * Q)
      (st : AI_Controller) :
  (forall t j, snd (draws t j) <= 55) ->
  Forall (fun e => nominal (snd e)) (nanogrids st) ->
  Forall (fun e => nominal (snd e))
         (nanogrids (run_simulation_thread iterations t draws st)).
Proof.
  intro Hdraws. revert t st. induction iterations as [|n IH]; intros t st Hst; simpl;
    [exact Hst|].
  apply IH. unfold simulation_tick, manage_energy_market, manage_energy_market_pool.
  apply market_loop_keeps; [intros ng a; apply set_energy_trade_nominal|].
  cbn [fst nanogrids]. apply update_nanogrids_nominal; [apply Hdraws | exact Hst].
Qed.

Lemma init_nanogrids_nominal (num i : nat) (d : Population) :
  Forall (fun e => nominal (snd e)) d ->
  Forall (fun e => nominal (snd e)) (init_nanogrids num i d).
Proof.
  revert i d. induction num as [|num IH]; intros i d Hd; simpl; [exact Hd|].
  apply IH. apply Forall_dict_set; [|exact Hd].
  split; [reflexivity | vm_compute; discriminate].
Qed.

Lemma predict_fault_nominal (ng : Nanogrid) (u : Q) :
  nominal ng -> u <= (3 # 10) ->
  fault_severity (predict_fault ng u) <> "high"%string
  /\ fault_type (predict_fault ng u) <> "Battery Degradation"%string
  /\ fault_probability (predict_fault ng u) <= (41 # 100).
Proof.
  intros [Hh Hl] Hu. unfold predict_fault. rewrite Hh.
  set (p := Py.min _ (95 # 100)).
  assert (Hp : p <= (41 # 100)).
  { eapply Qle_trans; [apply min_le_l|].
    assert (H1 : (100 - 100) / 100 == 0) by reflexivity.
    assert (H2 : load_demand ng / 100 == load_demand ng * (1 # 100))
      by (unfold Qdiv; reflexivity).
    rewrite H1, H2. lra. }
  cases_ltb (7 # 10) p; [exfalso; lra|].
  destruct (Py.ltb (4 # 10) p); cbn [fault_severity fault_type fault_probability];
    (split; [discriminate | split; [discriminate | apply round2_le; exact Hp]]).
Qed.

(** X19: in the offline simulation the fault endpoint never reports a
    high-severity fault.  When every load demand drawn is at most 55 (the
    loop draws them from 25 to 55) and every sample of the endpoint at most
    0.3, each prediction made after any number of iterations has a
    probability of at most 0.41 and is a medium or low one. *)
Theorem simulation_never_predicts_high_severity
        (num_nanogrids iterations t : nat) (now : Q) (draws : nat -> nat -> Q * Q)
        (wanted_id : option Z) (uniforms : nat -> Q) :
  (forall t j, snd (draws t j) <= 55) ->
  (forall i, uniforms i <= (3 # 10)) ->
  Forall (fun p => fault_severity p <> "high"%string
                   /\ fault_type p <> "Battery Degradation"%string
                   /\ fault_probability p <= (41 # 100))
         (predict_faults wanted_id uniforms
            (run_simulation_thread iterations t draws
                                   (init_simulation num_nanogrids now))).
Proof.
  intros Hdraws Hu.
  pose proof (run_simulation_thread_nominal iterations t draws
                (init_simulation num_nanogrids now) Hdraws
                (init_nanogrids_nominal num_nanogrids 0 [] (Forall_nil _))) as Hnom.
  unfold predict_faults.
  assert (Ht : Forall (fun e => nominal (snd e))
                      (target_nanogrids wanted_id
                         (nanogrids (run_simulation_thread iterations t draws
                                       (init_simulation num_nanogrids now))))).
  { destruct wanted_id as [id|]; simpl; [|exact Hnom].
    apply Forall_forall. intros e He. apply filter_In in He.
    rewrite Forall_forall in Hnom. apply Hnom, He. }
  revert Ht. generalize (target_nanogrids wanted_id
                           (nanogrids (run_simulation_thread iterations t draws
                                         (init_simulation num_nanogrids now)))) 0%nat.
  intro targets. induction targets as [|[k ng] rest IH]; intros i Ht;
    cbn [predict_faults_loop]; [constructor|].
  inversion Ht as [|e l Hng Hrest]; subst. cbn [snd] in Hng.
  constructor; [apply predict_fault_nominal; [exact Hng | apply Hu] | apply IH; exact Hrest].
Qed.

Lemma simulation_never_predicts_high_severity_witness :
  Forall (fun p => fault_severity p <> "high"%string
                   /\ fault_type p <> "Battery Degradation"%string
                   /\ fault_probability p <= (41 # 100))
         (predict_faults None (fun _ => 3 # 10)
            (run_simulation_thread 1 0 (fun _ => scenario_draws)
                                   (init_simulation 2 1700000000))).
Proof.
  apply (simulation_never_predicts_high_severity 2 1 0 1700000000
           (fun _ => scenario_draws) None (fun _ => 3 # 10)).
  - intros _ [|j]; vm_compute; discriminate.
  - intro i. vm_compute. discriminate.
Defined.

(* ------------------------------------------------------------------ *)
(** ** The battery and the loop of the ML server *)
(* ------------------------------------------------------------------ *)

Lemma ml_clamp_range (x : Q) : 0 <= ML.clamp x /\ ML.clamp x <= 1.
Proof.
  unfold ML.clamp. split.
  - apply min_glb; [lra | apply max_ge_l].
  - apply min_le_l.
Qed.

Lemma ml_delta_returns (b : ML.Battery) (kw hours : Q) :
  ~ ML.capacity_kwh b + ML.epsilon == 0 ->
  ML.delta_of b kw hours
  = Py.Returned (kw * hours / (ML.capacity_kwh b + ML.epsilon)).
Proof.
  intro Hne. unfold ML.delta_of.
  destruct (Qeq_bool (ML.capacity_kwh b + ML.epsilon) 0) eqn:E; [|reflexivity].
  apply Qeq_bool_iff in E. contradiction.
Qed.

Lemma ml_update_state_ok (ng : ML.Nanogrid) (solar_kw hours : Q) :
  ~ ML.capacity_kwh (ML.battery ng) + ML.epsilon == 0 ->
  snd (ML.Nanogrid_update_state ng solar_kw hours) = None
  /\ 0 <= ML.state_of_charge (ML.battery (fst (ML.Nanogrid_update_state ng solar_kw hours)))
  /\ ML.state_of_charge (ML.battery (fst (ML.Nanogrid_update_state ng solar_kw hours))) <= 1
  /\ ML.current_power_balance (fst (ML.Nanogrid_update_state ng solar_kw hours))
     = solar_kw - ML.load_demand ng
  /\ ML.load_demand (fst (ML.Nanogrid_update_state ng solar_kw hours)) = ML.load_demand ng
  /\ ML.capacity_kwh (ML.battery (fst (ML.Nanogrid_update_state ng solar_kw hours)))
     = ML.capacity_kwh (ML.battery ng).
Proof.
  intro Hne. unfold ML.Nanogrid_update_state, ML.Battery_charge, ML.Battery_discharge.
  rewrite !(ml_delta_returns _ _ _ Hne).
  destruct (Py.ltb 0 (solar_kw - ML.load_demand ng));
    cbn [fst snd ML.battery ML.state_of_charge ML.current_power_balance ML.load_demand
         ML.capacity_kwh];
    (split; [reflexivity|]);
    (split; [apply ml_clamp_range|]);
    (split; [apply ml_clamp_range|]);
    repeat split.
Qed.

(** X20: the battery of [ml/models.py] cannot leave its range.  Unless its
    capacity is exactly [-1e-9] (the division then raises
    [ZeroDivisionError]), [charge], [discharge] and the node's [update_state]
    succeed for any power, duration and prior state, and leave a state of
    charge within [0, 1]; [update_state] sets the balance to the solar power
    less the load demand. *)
Theorem ml_battery_stays_in_unit_interval (ng : ML.Nanogrid) (kw hours : Q) :
  ~ ML.capacity_kwh (ML.battery ng) + ML.epsilon == 0 ->
  (exists b, ML.Battery_charge (ML.battery ng) kw hours = Py.Returned b
             /\ 0 <= ML.state_of_charge b /\ ML.state_of_charge b <= 1)
  /\ (exists b, ML.Battery_discharge (ML.battery ng) kw hours = Py.Returned b
                /\ 0 <= ML.state_of_charge b /\ ML.state_of_charge b <= 1)
  /\ (snd (ML.Nanogrid_update_state ng kw hours) = None
      /\ 0 <= ML.state_of_charge (ML.battery (fst (ML.Nanogrid_update_state ng kw hours)))
      /\ ML.state_of_charge (ML.battery (fst (ML.Nanogrid_update_state ng kw hours))) <= 1
      /\ ML.current_power_balance (fst (ML.Nanogrid_update_state ng kw hours))
         = kw - ML.load_demand ng).
Proof.
  intro Hne. split; [|split].
  - unfold ML.Battery_charge. rewrite (ml_delta_returns _ _ _ Hne).
    eexists. split; [reflexivity|]. apply ml_clamp_range.
  - unfold ML.Battery_discharge. rewrite (ml_delta_returns _ _ _ Hne).
    eexists. split; [reflexivity|]. apply ml_clamp_range.
  - destruct (ml_update_state_ok ng kw hours Hne) as (H1 & H2 & H3 & H4 & _).
    repeat split; assumption.
Qed.

Lemma ml_battery_stays_in_unit_interval_witness :
  (exists b, ML.Battery_charge (ML.battery (ML.Nanogrid_init 1)) (-500) 3 = Py.Returned b
             /\ 0 <= ML.state_of_charge b /\ ML.state_of_charge b <= 1)
  /\ (exists b, ML.Battery_discharge (ML.battery (ML.Nanogrid_init 1)) (-500) 3
                = Py.Returned b
                /\ 0 <= ML.state_of_charge b /\ ML.state_of_charge b <= 1)
  /\ (snd (ML.Nanogrid_update_state (ML.Nanogrid_init 1) (-500) 3) = None
      /\ 0 <= ML.state_of_charge
                (ML.battery (fst (ML.Nanogrid_update_state (ML.Nanogrid_init 1) (-500) 3)))
      /\ ML.state_of_charge
           (ML.battery (fst (ML.Nanogrid_update_state (ML.Nanogrid_init 1) (-500) 3))) <= 1
      /\ ML.current_power_balance
           (fst (ML.Nanogrid_update_state (ML.Nanogrid_init 1) (-500) 3))
         = -500 - ML.load_demand (ML.Nanogrid_init 1)).
Proof.
  apply (ml_battery_stays_in_unit_interval (ML.Nanogrid_init 1) (-500) 3).
  vm_compute. discriminate.
Defined.

Lemma last_skipn {A : Type} (n : nat) (l : list A) (d : A) :
  (n < List.length l)%nat -> last (skipn n l) d = last l d.
Proof.
  revert l. induction n as [|n IH]; intros l Hn; [reflexivity|].
  destruct l as [|x l]; [simpl in Hn; lia|].
  cbn [skipn]. rewrite IH by (simpl in Hn; lia).
  destruct l as [|y l]; [simpl in Hn; lia | reflexivity].
Qed.

Lemma ml_window_spec (h : list Q) (x : Q) :
  List.length (ML.window (h ++ [x])) = Nat.min 48 (S (List.length h))
  /\ last (ML.window (h ++ [x])) x = x
  /\ ML.window (h ++ [x]) <> []
  /\ exists dropped, h ++ [x] = dropped ++ ML.window (h ++ [x]).
Proof.
  unfold ML.window.
  assert (Hlen : List.length (h ++ [x]) = S (List.length h))
    by (rewrite length_app; simpl; lia).
  destruct (Nat.ltb_spec 48 (List.length (h ++ [x]))) as [Hgt|Hle].
  - split; [rewrite length_skipn; lia|].
    split; [rewrite last_skipn by lia; apply last_last|].
    split.
    + intro Hnil. apply (f_equal (@List.length Q)) in Hnil.
      rewrite length_skipn in Hnil. simpl in Hnil. lia.
    + exists (firstn (List.length (h ++ [x]) - 48) (h ++ [x])).
      symmetry. apply firstn_skipn.
  - split; [lia|]. split; [apply last_last|].
    split; [destruct h; discriminate|]. exists []. reflexivity.
Qed.

(** X21: a pass of the loop of the ML server over a node (whose battery
    capacity is not [-1e-9]) raises what the fault detector raises, when it is
    run and raises, and nothing otherwise; it keeps the load demand at 0.1 or
    more; the history becomes the last 48 items of the old one followed by
    the new demand (all of them when there are no more than 48); the state of
    charge stays within [0, 1]; when the forecaster gives nothing the
    prediction recorded is the new demand itself; and the fault recorded is
    the one that the detector returns, or the former one when it is not run or
    raises. *)
Theorem ml_loop_keeps_a_48_item_history
        (clock_hour : Z) (solar u : Q) (rf : ML.Features -> option Q)
        (fault : option (Py.outcome (option Z * option (list Q)))) (entry : ML.Entry) :
  ~ ML.capacity_kwh (ML.battery (ML.model entry)) + ML.epsilon == 0 ->
  let entry' := fst (ML.simulation_step clock_hour solar u rf fault entry) in
  let demand := ML.load_demand (ML.model entry') in
  snd (ML.simulation_step clock_hour solar u rf fault entry)
  = match fault with
    | Some (Py.Raised e) => Some e
    | Some (Py.Returned _) | None => None
    end
  /\ (1 # 10) <= demand
  /\ demand = Py.max (1 # 10) (ML.load_demand (ML.model entry) + u)
  /\ (List.length (ML.history entry') <= 48)%nat
  /\ List.length (ML.history entry') = Nat.min 48 (S (List.length (ML.history entry)))
  /\ last (ML.history entry') 0 = demand
  /\ (exists dropped, ML.history entry ++ [demand] = dropped ++ ML.history entry')
  /\ (0 <= ML.state_of_charge (ML.battery (ML.model entry'))
      /\ ML.state_of_charge (ML.battery (ML.model entry')) <= 1)
  /\ ((forall f, rf f = None) -> ML.last_prediction entry' = Some demand)
  /\ ML.last_fault entry'
     = match fault with
       | Some (Py.Returned f) => Some f
       | Some (Py.Raised _) | None => ML.last_fault entry
       end.
Proof.
  intro Hne. cbv zeta. unfold ML.simulation_step.
  set (demand := Py.max (1 # 10) (ML.load_demand (ML.model entry) + u)).
  set (m1 := ML.mkNanogrid _ _ _ demand _).
  assert (Hne1 : ~ ML.capacity_kwh (ML.battery m1) + ML.epsilon == 0) by exact Hne.
  destruct (ml_update_state_ok m1 solar 1 Hne1) as (Hexn & Hlo & Hhi & _ & Hload & _).
  destruct (ML.Nanogrid_update_state m1 solar 1) as [m2 exn].
  cbn [fst snd] in *. subst exn.
  destruct (ml_window_spec (ML.history entry) demand) as (Hlen & Hlast & Hnonempty & Hsuffix).
  assert (Hdemand : ML.load_demand m2 = demand) by (rewrite Hload; reflexivity).
  assert (Hlast0 : last (ML.window (ML.history entry ++ [demand])) 0 = demand).
  { destruct (ML.window (ML.history entry ++ [demand])) as [|y l] eqn:E;
      [contradiction|].
    transitivity (last (y :: l) demand); [|exact Hlast].
    clear. revert y.
    induction l as [|z l IH]; intro y; [reflexivity|].
    change (last (y :: z :: l) 0) with (last (z :: l) 0).
    change (last (y :: z :: l) demand) with (last (z :: l) demand). apply IH. }
  assert (Hpred : (forall f, rf f = None) ->
                  match rf (ML.mkFeatures solar clock_hour
                              (ML.lag 1 (ML.window (ML.history entry ++ [demand])) demand)
                              (ML.lag 2 (ML.window (ML.history entry ++ [demand])) demand)
                              (ML.lag 3 (ML.window (ML.history entry ++ [demand])) demand)
                              (ML.lag 24 (ML.window (ML.history entry ++ [demand])) demand)
                              (ML.lag 48 (ML.window (ML.history entry ++ [demand])) demand))
                  with
                  | Some p => p
                  | None => match ML.window (ML.history entry ++ [demand]) with
                            | [] => demand
                            | _ :: _ => last (ML.window (ML.history entry ++ [demand])) demand
                            end
                  end = demand).
  { intro Hrf. rewrite Hrf.
    destruct (ML.window (ML.history entry ++ [demand])) as [|y l] eqn:E; [reflexivity|].
    exact Hlast. }
  destruct fault as [[f|e]|];
    cbn [fst snd ML.model ML.history ML.last_prediction ML.last_fault];
    rewrite Hdemand;
    (split; [reflexivity|]); (split; [apply max_ge_l|]); (split; [reflexivity|]);
    (split; [rewrite Hlen; apply Nat.le_min_l|]); (split; [exact Hlen|]);
    (split; [exact Hlast0|]); (split; [exact Hsuffix|]);
    (split; [split; assumption|]);
    (split; [intro Hrf; rewrite (Hpred Hrf); reflexivity | reflexivity]).
Qed.

Lemma ml_loop_keeps_a_48_item_history_witness :
  let step :=
    ML.simulation_step 12 4 (-(1 # 2)) (fun _ => None)
                       (Some (Py.Returned (Some 0%Z, Some [1]))) ml_entry_full in
  let demand := ML.load_demand (ML.model (fst step)) in
  snd step = None
  /\ (1 # 10) <= demand
  /\ demand = Py.max (1 # 10) (ML.load_demand (ML.model ml_entry_full) + -(1 # 2))
  /\ (List.length (ML.history (fst step)) <= 48)%nat
  /\ List.length (ML.history (fst step))
     = Nat.min 48 (S (List.length (ML.history ml_entry_full)))
  /\ last (ML.history (fst step)) 0 = demand
  /\ (exists dropped, ML.history ml_entry_full ++ [demand] = dropped ++ ML.history (fst step))
  /\ (0 <= ML.state_of_charge (ML.battery (ML.model (fst step)))
      /\ ML.state_of_charge (ML.battery (ML.model (fst step))) <= 1)
  /\ ((forall f : ML.Features, (fun _ : ML.Features => @None Q) f = None) ->
      ML.last_prediction (fst step) = Some demand)
  /\ ML.last_fault (fst step) = Some (Some 0%Z, Some [1]).
Proof.
  apply (ml_loop_keeps_a_48_item_history 12 4 (-(1 # 2)) (fun _ => None)
           (Some (Py.Returned (Some 0%Z, Some [1]))) ml_entry_full).
  vm_compute. discriminate.
Defined.

(** On a full history the oldest demand is dropped: the 48 demands 1, ..., 48
    followed by the new demand 4.5 leave 2, ..., 48 and 4.5.  A detector that
    raises ends the loop with the history already updated and the former
    fault kept. *)
Example ml_loop_drops_the_oldest_demand :
  ML.history (fst (ML.simulation_step 12 4 (-(1 # 2)) (fun _ => None) None ml_entry_full))
  = map (fun k => inject_Z (Z.of_nat k)) (seq 2 47) ++ [Py.max (1 # 10) (5 + -(1 # 2))]
  /\ snd (ML.simulation_step 12 4 (-(1 # 2)) (fun _ => None)
                             (Some (Py.Raised "RuntimeError")) ml_entry_full)
     = Some "RuntimeError"
  /\ ML.history (fst (ML.simulation_step 12 4 (-(1 # 2)) (fun _ => None)
                                         (Some (Py.Raised "RuntimeError")) ml_entry_full))
     = map (fun k => inject_Z (Z.of_nat k)) (seq 2 47) ++ [Py.max (1 # 10) (5 + -(1 # 2))]
  /\ ML.last_fault (fst (ML.simulation_step 12 4 (-(1 # 2)) (fun _ => None)
                                            (Some (Py.Raised "RuntimeError")) ml_entry_full))
     = None.
Proof. repeat split; vm_compute; reflexivity. Qed.

(* ------------------------------------------------------------------ *)
(** ** The battery as a saturating accumulator *)
(* ------------------------------------------------------------------ *)

Ltac split_comparisons :=
  repeat match goal with
         | |- context [Py.ltb ?a ?b] => cases_ltb a b
         | H : context [Py.ltb ?a ?b] |- _ => cases_ltb a b
         end.

(** X22: on a battery within its bounds, [update_state] adds the net power
    (solar output less load demand) to the state of charge and
    [set_energy_trade] takes the traded amount off it, both saturating at 0
    and at the capacity. *)
Theorem battery_is_a_saturating_accumulator (ng : Nanogrid) (x : Q) :
  in_bounds (battery ng) ->
  state_of_charge (battery (fst (Nanogrid_update_state ng x)))
  == saturate (capacity (battery ng))
              (state_of_charge (battery ng) + (x - load_demand ng))
  /\ state_of_charge (battery (Nanogrid_set_energy_trade ng x))
     == saturate (capacity (battery ng)) (state_of_charge (battery ng) - x).
Proof.
  intros [Hlo Hhi].
  unfold Nanogrid_update_state, Nanogrid_set_energy_trade, saturate.
  cbn [fst battery]. unfold default_time_step_h, Py.abs. split.
  - set (net := x - load_demand ng).
    destruct (Qlt_le_dec 0 net) as [Hn|Hn].
    + assert (E : Py.ltb 0 net = true) by (apply ltb_true; exact Hn). rewrite E. clear E.
      unfold Battery_charge, set_state_of_charge. cbn [state_of_charge].
      unfold Py.min, Py.max. split_comparisons; lra.
    + assert (E : Py.ltb 0 net = false) by (apply ltb_false; exact Hn). rewrite E. clear E.
      pose proof (Qabs_neg net Hn) as Habs.
      unfold Battery_discharge, set_state_of_charge. cbn [state_of_charge].
      unfold Py.min, Py.max. split_comparisons; lra.
  - destruct (Qlt_le_dec 0 x) as [Hn|Hn].
    + assert (E : Py.ltb 0 x = true) by (apply ltb_true; exact Hn). rewrite E. clear E.
      unfold Battery_discharge, set_state_of_charge. cbn [state_of_charge].
      unfold Py.min, Py.max. split_comparisons; lra.
    + assert (E : Py.ltb 0 x = false) by (apply ltb_false; exact Hn). rewrite E. clear E.
      pose proof (Qabs_neg x Hn) as Habs.
      unfold Battery_charge, set_state_of_charge. cbn [state_of_charge].
      unfold Py.min, Py.max. split_comparisons; lra.
Qed.

Lemma battery_is_a_saturating_accumulator_witness :
  state_of_charge (battery (fst (Nanogrid_update_state node_A 30)))
  == saturate (capacity (battery node_A))
              (state_of_charge (battery node_A) + (30 - load_demand node_A))
  /\ state_of_charge (battery (Nanogrid_set_energy_trade node_A 30))
     == saturate (capacity (battery node_A)) (state_of_charge (battery node_A) - 30).
Proof.
  apply (battery_is_a_saturating_accumulator node_A 30).
  split; vm_compute; discriminate.
Defined.

(* ------------------------------------------------------------------ *)
(** ** The history across iterations *)
(* ------------------------------------------------------------------ *)

Lemma run_simulation_thread_effect (iterations t : nat) (draws : nat -> nat -> Q * Q)
      (st : AI_Controller) :
  chain (blockchain (run_simulation_thread iterations t draws st)) = chain (blockchain st)
  /\ exists new : list Transaction,
       transactions (blockchain (run_simulation_thread iterations t draws st))
       = transactions (blockchain st) ++ new
       /\ Forall (fun tx => 0 < tx_amount tx) new.
Proof.
  revert t st. induction iterations as [|n IH]; intros t st; simpl.
  - split; [reflexivity|]. exists []. rewrite app_nil_r.
    split; [reflexivity|constructor].
  - destruct (IH (S t) (simulation_tick (draws t) st)) as (Hc & new2 & Ht2 & Hp2).
    destruct (simulation_tick_effect (draws t) st) as (Hc1 & new1 & Ht1 & Hp1).
    split; [congruence|].
    exists (new1 ++ new2). split.
    + rewrite Ht2, Ht1, app_assoc. reflexivity.
    + apply Forall_app. split; assumption.
Qed.

(** X23: in the offline mode the transaction history only grows.  What the
    history endpoint returns after further iterations of the loop is what it
    returned before (sender, receiver, amount), in the same order, followed
    by the trades of those iterations, all of positive amount. *)
Theorem history_only_grows (iterations t : nat) (draws : nat -> nat -> Q * Q)
        (st : AI_Controller) (clock clock' : nat -> Q) :
  exists new : list Transaction,
    map trade_of (get_blockchain_transactions
                    (run_simulation_thread iterations t draws st) clock')
    = map trade_of (get_blockchain_transactions st clock) ++ new
    /\ Forall (fun tx => 0 < tx_amount tx) new.
Proof.
  destruct (run_simulation_thread_effect iterations t draws st) as (_ & new & Ht & Hp).
  exists new. unfold get_blockchain_transactions.
  rewrite !transaction_records_trades. split; assumption.
Qed.

(* ------------------------------------------------------------------ *)
(** ** Ties in the order book *)
(* ------------------------------------------------------------------ *)

Lemma insert_order_filter (before : Order -> Order -> bool) (P : Order -> bool)
      (x : Order) (l : list Order) :
  (forall y, before y x = true -> P x = true -> P y = false) ->
  filter P (insert_order before x l) = filter P (x :: l).
Proof.
  intro Hclass. induction l as [|y l IH]; [reflexivity|].
  cbn [insert_order]. destruct (before y x) eqn:E; [|reflexivity].
  cbn [filter] in *. rewrite IH.
  destruct (P x) eqn:Px; [|reflexivity].
  rewrite (Hclass y E eq_refl). reflexivity.
Qed.

Lemma stable_sort_filter (before : Order -> Order -> bool) (P : Order -> bool)
      (l : list Order) :
  (forall x y, before y x = true -> P x = true -> P y = false) ->
  filter P (stable_sort before l) = filter P l.
Proof.
  intro Hclass. induction l as [|x l IH]; [reflexivity|].
  cbn [stable_sort fold_right]. fold (stable_sort before l).
  rewrite insert_order_filter by (apply Hclass).
  cbn [filter]. rewrite IH. reflexivity.
Qed.

(** X24: sorting the order book is stable.  The buy orders of one price stand
    in the sorted list in the order in which the loop over the nanogrids
    appended them, and so do the sell orders of one price. *)
Theorem market_orders_ties_keep_population_order
        (addr_hash : string -> Z) (clock : nat -> Q) (st : AI_Controller) (price : Q) :
  filter (fun o => Qeq_bool (order_price o) price)
         (fst (get_market_orders addr_hash clock st))
  = filter (fun o => Qeq_bool (order_price o) price)
           (fst (collect_orders addr_hash clock 0 (nanogrids st)))
  /\ filter (fun o => Qeq_bool (order_price o) price)
            (snd (get_market_orders addr_hash clock st))
     = filter (fun o => Qeq_bool (order_price o) price)
              (snd (collect_orders addr_hash clock 0 (nanogrids st))).
Proof.
  unfold get_market_orders. cbn [fst snd].
  split; apply stable_sort_filter; intros x y Hlt Hx;
    apply ltb_true in Hlt; apply Qeq_bool_iff in Hx;
    apply not_true_iff_false; intro Hy; apply Qeq_bool_iff in Hy; lra.
Qed.

Lemma recommendations_are_consistent_witness :
  get_ai_recommendations (mkAI_Controller [] (Blockchain_init 1700000000))
  = [market_optimization []]
  /\ rec_estimated_benefit (market_optimization []) == 0.
Proof.
  exact (proj2 (proj2 (recommendations_are_consistent
                         (mkAI_Controller [] (Blockchain_init 1700000000))))
               eq_refl).
Defined.
